(** * drivers/scsi/scsi_ioctl.c: the SCSI ioctl dispatch layer

    A shallow embedding of the functions of [scsi_ioctl.c] and the
    properties of its dispatcher, sense interpreter, buffer marshaller
    and error-recovery gate.

    Conventions of the embedding.
    - C integers are [Z]; a value stored into a narrower object is
      reduced explicitly ([u8], [u16], [u32]).  A [char] cell holds its
      bit pattern, a number in [0, 256).
    - The bit-fields [removable], [changed], [lockable], [locked] of
      [struct scsi_device] are [bool].
    - Kernel code runs in the monad [M]: it threads a [world] (the
      device, the user address space and the trace of observable events)
      and may end in [Oops] where the C code dereferences a NULL or an
      unmapped pointer.
    - Everything the file calls but does not define (the execution
      primitive, the host template's callbacks, the allocator, the
      recovery predicates) is a field of the record [kernel]; every
      constant that comes from a header is a field of the record
      [scsi_abi].
    - [SCSI_LOG_IOCTL] is a debugging macro that is compiled to nothing
      unless SCSI logging is configured; it is not modelled.
    - The two functions under [CONFIG_UFS_SRPMB] work on a request that
      lives in kernel memory; they take it as a value and return it as
      they leave it. *)

From Stdlib Require Import ZArith List String Ascii Bool Lia.
Import ListNotations.
Open Scope Z_scope.

(** ** Machine integers and byte sequences *)

Definition u8 (x : Z) : Z := x mod 256.
Definition u16 (x : Z) : Z := x mod 65536.
Definition u32 (x : Z) : Z := x mod 4294967296.

(** Little-endian decoding of a field read from memory (the target is
    little-endian) and big-endian decoding as the SCSI wire format has it. *)
Fixpoint le_decode (bs : list Z) : Z :=
  match bs with
  | [] => 0
  | b :: r => b + 256 * le_decode r
  end.

Definition be_decode (bs : list Z) : Z :=
  fold_left (fun acc b => 256 * acc + b) bs 0.

Definition le32_encode (v : Z) : list Z :=
  [u8 v; u8 (Z.shiftr v 8); u8 (Z.shiftr v 16); u8 (Z.shiftr v 24)].

(** [a[i] = v] on a fixed-size array; an index past the end is not
    written by any code below. *)
Fixpoint store (i : nat) (v : Z) (a : list Z) : list Z :=
  match a, i with
  | [], _ => []
  | _ :: r, O => v :: r
  | x :: r, S j => x :: store j v r
  end.

Definition memset0 (n : nat) : list Z := repeat 0 n.

(** A C string as the bytes it occupies, without and with its
    terminator. *)
Fixpoint string_bytes (s : string) : list Z :=
  match s with
  | EmptyString => []
  | String c r => Z.of_nat (nat_of_ascii c) :: string_bytes r
  end.

Definition strlen (s : string) : Z := Z.of_nat (String.length s).

(** [strncmp]: the difference of the first pair of bytes that differ
    within the first [n], the terminator included; 0 when there is
    none. *)
Fixpoint strncmp (s1 s2 : string) (n : nat) : Z :=
  match n with
  | O => 0
  | S n' =>
      match s1, s2 with
      | EmptyString, EmptyString => 0
      | EmptyString, String c2 _ => 0 - Z.of_nat (nat_of_ascii c2)
      | String c1 _, EmptyString => Z.of_nat (nat_of_ascii c1)
      | String c1 r1, String c2 r2 =>
          if Ascii.eqb c1 c2 then strncmp r1 r2 n'
          else Z.of_nat (nat_of_ascii c1) - Z.of_nat (nat_of_ascii c2)
      end
  end.

(** ** Data model *)

Record scsi_sense_hdr := {
  response_code : Z;
  sense_key : Z;
  asc : Z;
  ascq : Z
}.

Record Scsi_Host := {
  host_no : Z;
  unique_id : Z;
  wlun_clr_uac : bool;
  (** [scsi_get_device(host)]: the name of the parent device, when the
      host has one. *)
  parent_dev_name : option string
}.

Record scsi_device := {
  id : Z;
  lun : Z;
  channel : Z;
  removable : bool;
  changed : bool;
  lockable : bool;
  locked : bool;
  host : Scsi_Host
}.

Inductive dma_direction := DMA_TO_DEVICE | DMA_FROM_DEVICE | DMA_NONE.

Inductive capability := CAP_SYS_ADMIN | CAP_SYS_RAWIO.

(** The arguments of one call of [scsi_execute_req] ([x_buf = None] is a
    NULL buffer) and what the call leaves behind: its result, the sense
    header and the bytes the device placed in the buffer. *)
Record exec_req := {
  x_cmd : list Z;
  x_dir : dma_direction;
  x_buf : option (list Z);
  x_bufflen : Z;
  x_timeout : Z;
  x_retries : Z
}.

Record exec_reply := {
  r_result : Z;
  r_sshdr : scsi_sense_hdr;
  r_data : list Z
}.

(** Observable events, most recent first in the trace. *)
Inductive event :=
| EvPrintk (fmt : string)
| EvKmalloc (size : Z) (ok : bool)
| EvKzalloc (size : Z) (ok : bool)
| EvKfree (size : option Z)
| EvCopyFromUser (src n : Z) (ok : bool)
| EvCopyToUser (dst : Z) (data : list Z) (ok : bool)
| EvExecuteReq (req : exec_req) (reply : exec_reply).

(** The user address space: the byte at an address, when it is mapped. *)
Definition umem := Z -> option Z.

Record world := {
  w_sdev : scsi_device;
  w_umem : umem;
  w_trace : list event
}.

(** ** The monad of kernel code *)

Inductive outcome (A : Type) :=
| Ret (a : A) (w : world)
| Oops (w : world).
Arguments Ret {A} a w.
Arguments Oops {A} w.

Definition M (A : Type) := world -> outcome A.

Definition ret {A} (a : A) : M A := fun w => Ret a w.

Definition bind {A B} (m : M A) (k : A -> M B) : M B :=
  fun w => match m w with
           | Ret a w' => k a w'
           | Oops w' => Oops w'
           end.

Definition oops {A} : M A := fun w => Oops w.

Declare Scope kernel_scope.
Delimit Scope kernel_scope with kernel.
Notation "x <- m ;; k" := (bind m (fun x => k))
  (at level 61, m at next level, right associativity) : kernel_scope.
Notation "m ;;; k" := (bind m (fun _ => k))
  (at level 61, right associativity) : kernel_scope.
Open Scope kernel_scope.

Definition get_sdev : M scsi_device := fun w => Ret (w_sdev w) w.

Definition get_umem : M umem := fun w => Ret (w_umem w) w.

Definition set_sdev (f : scsi_device -> scsi_device) : M unit :=
  fun w => Ret tt {| w_sdev := f (w_sdev w); w_umem := w_umem w;
                     w_trace := w_trace w |}.

Definition set_umem (m : umem) : M unit :=
  fun w => Ret tt {| w_sdev := w_sdev w; w_umem := m; w_trace := w_trace w |}.

Definition emit (e : event) : M unit :=
  fun w => Ret tt {| w_sdev := w_sdev w; w_umem := w_umem w;
                     w_trace := e :: w_trace w |}.

Definition printk (fmt : string) : M unit := emit (EvPrintk fmt).

(** Lift a callback that returns normally. *)
Definition call {A} (f : world -> A * world) : M A :=
  fun w => let (a, w') := f w in Ret a w'.

Definition set_lockable (b : bool) (d : scsi_device) : scsi_device :=
  {| id := id d; lun := lun d; channel := channel d;
     removable := removable d; changed := changed d;
     lockable := b; locked := locked d; host := host d |}.

Definition set_changed (b : bool) (d : scsi_device) : scsi_device :=
  {| id := id d; lun := lun d; channel := channel d;
     removable := removable d; changed := b;
     lockable := lockable d; locked := locked d; host := host d |}.

Definition set_locked (b : bool) (d : scsi_device) : scsi_device :=
  {| id := id d; lun := lun d; channel := channel d;
     removable := removable d; changed := changed d;
     lockable := lockable d; locked := b; host := host d |}.

(** ** User memory *)

(** The [n] bytes at [a], when all of them are mapped. *)
Fixpoint read_bytes (m : umem) (a : Z) (n : nat) : option (list Z) :=
  match n with
  | O => Some []
  | S n' =>
      match m a, read_bytes m (a + 1) n' with
      | Some b, Some r => Some (b :: r)
      | _, _ => None
      end
  end.

Definition poke (m : umem) (a b : Z) : umem :=
  fun x => if x =? a then Some b else m x.

(** Write [bs] at [a]; the copy stops at the first unmapped byte, and
    what was written before it stays written. *)
Fixpoint write_bytes (m : umem) (a : Z) (bs : list Z) : umem * bool :=
  match bs with
  | [] => (m, true)
  | b :: r =>
      match m a with
      | Some _ => write_bytes (poke m a b) (a + 1) r
      | None => (m, false)
      end
  end.

(** ** Constants taken from headers

    None of the headers is part of the file; the numbers are parameters.
    The record carries what the code relies on: different commands have
    different numbers (for the labels of one [switch] C itself requires
    it). *)

Fixpoint distinctb (l : list Z) : bool :=
  match l with
  | [] => true
  | x :: r => negb (existsb (Z.eqb x) r) && distinctb r
  end.

Record scsi_abi := {
  (* linux/errno.h *)
  EFAULT : Z;
  EINVAL : Z;
  EACCES : Z;
  ENODEV : Z;
  EAGAIN : Z;
  ENXIO : Z;
  ENOMEM : Z;
  ENOTTY : Z;
  ENOSYS : Z;
  EOPNOTSUPP : Z;
  (* timing, sizes *)
  HZ : Z;
  START_STOP_TIMEOUT : Z;
  MAX_COMMAND_SIZE : nat;
  PAGE_SIZE : Z;
  sizeof_scsi_idlun : Z;
  (* scsi/scsi_ioctl.h, scsi/sg.h *)
  SCSI_IOCTL_SEND_COMMAND : Z;
  SCSI_IOCTL_TEST_UNIT_READY : Z;
  SCSI_IOCTL_BENCHMARK_COMMAND : Z;
  SCSI_IOCTL_SYNC : Z;
  SCSI_IOCTL_START_UNIT : Z;
  SCSI_IOCTL_STOP_UNIT : Z;
  SCSI_IOCTL_GET_IDLUN : Z;
  SCSI_IOCTL_GET_BUS_NUMBER : Z;
  SCSI_IOCTL_PROBE_HOST : Z;
  SCSI_IOCTL_DOORLOCK : Z;
  SCSI_IOCTL_DOORUNLOCK : Z;
  SCSI_IOCTL_SECURITY_PROTOCOL_IN : Z;
  SCSI_IOCTL_SECURITY_PROTOCOL_OUT : Z;
  SCSI_IOCTL_GET_PCI : Z;
  SG_SCSI_RESET : Z;
  SCSI_UFS_REQUEST_SENSE : Z;
  (* scsi/scsi_proto.h, scsi/scsi.h *)
  ALLOW_MEDIUM_REMOVAL : Z;
  START_STOP : Z;
  SECURITY_PROTOCOL_IN : Z;
  SECURITY_PROTOCOL_OUT : Z;
  SECU_PROT_UFS : Z;
  SECU_PROT_SPEC_CERT_DATA : Z;
  SCSI_REMOVAL_PREVENT : Z;
  SCSI_REMOVAL_ALLOW : Z;
  ILLEGAL_REQUEST : Z;
  NOT_READY : Z;
  UNIT_ATTENTION : Z;
  DRIVER_SENSE : Z;
  driver_byte : Z -> Z;
  (* well-formedness: the command numbers are pairwise distinct, and so
     are the labels of the other switches and the two removal states *)
  ioctl_codes_distinct :
    distinctb [SCSI_IOCTL_SEND_COMMAND; SCSI_IOCTL_TEST_UNIT_READY;
               SCSI_IOCTL_BENCHMARK_COMMAND; SCSI_IOCTL_SYNC;
               SCSI_IOCTL_START_UNIT; SCSI_IOCTL_STOP_UNIT;
               SCSI_IOCTL_GET_IDLUN; SCSI_IOCTL_GET_BUS_NUMBER;
               SCSI_IOCTL_PROBE_HOST; SCSI_IOCTL_DOORLOCK;
               SCSI_IOCTL_DOORUNLOCK; SCSI_IOCTL_SECURITY_PROTOCOL_IN;
               SCSI_IOCTL_SECURITY_PROTOCOL_OUT; SCSI_IOCTL_GET_PCI;
               SG_SCSI_RESET] = true;
  sense_labels_distinct :
    distinctb [ILLEGAL_REQUEST; NOT_READY; UNIT_ATTENTION] = true;
  removal_states_distinct :
    distinctb [SCSI_REMOVAL_PREVENT; SCSI_REMOVAL_ALLOW] = true
}.

(** Modelled from the spec: the legacy argument struct
    [Scsi_Ioctl_Command], declared in a header that is not part of the
    file: two leading length fields, input length then output length
    (the code reads them into an [unsigned int]), followed immediately
    by the data region. *)
Record Scsi_Ioctl_Command := {
  inlen : Z;
  outlen : Z
}.

(** Modelled from the spec: the size of that struct, which is the size
    of its two length fields. *)
Definition sizeof_Scsi_Ioctl_Command : Z := 8.

(** Modelled from the spec: the struct as the eight bytes it occupies in
    memory. *)
Definition decode_Scsi_Ioctl_Command (bs : list Z) : Scsi_Ioctl_Command :=
  {| inlen := le_decode (firstn 4 bs);
     outlen := le_decode (firstn 4 (skipn 4 bs)) |}.

(** The request of the secure RPMB path ([Rpmb_Req], declared in a
    header that is not part of the file), with the fields the file
    uses: the command, the two lengths and the data array that ends the
    struct. *)
Record Rpmb_Req := {
  rq_cmd : Z;
  rq_inlen : Z;
  rq_outlen : Z;
  rpmb_data : list Z
}.

(** Modelled from the spec: the error taxonomy of section 7, as the
    class of a returned value.  NotSupported stands for the codes by
    which Linux reports an unsupported request. *)
Inductive error_kind :=
| BadAddress | InvalidArgument | PermissionDenied | NoSuchDevice
| TryAgain | OutOfMemory | NotSupported.

Definition error_kind_of (abi : scsi_abi) (r : Z) : option error_kind :=
  if r =? - EFAULT abi then Some BadAddress
  else if r =? - EINVAL abi then Some InvalidArgument
  else if r =? - EACCES abi then Some PermissionDenied
  else if r =? - ENODEV abi then Some NoSuchDevice
  else if r =? - EAGAIN abi then Some TryAgain
  else if r =? - ENOMEM abi then Some OutOfMemory
  else if (r =? - ENOTTY abi) || (r =? - ENOSYS abi) || (r =? - EOPNOTSUPP abi)
       then Some NotSupported
  else None.

(** ** The rest of the kernel *)

Record scsi_host_template := {
  name : option string;
  info : option (world -> option string);
  ioctl : option (Z -> Z -> world -> Z * world)
}.

Record kernel := {
  hostt : scsi_host_template;
  (** whether an allocation of the given size succeeds, after the given
      history *)
  k_alloc_ok : list event -> Z -> bool;
  (** what an uninitialised local array happens to hold *)
  k_stack : list Z;
  (** the highest user address plus one, for [access_ok] *)
  k_task_size : Z;
  k_capable : capability -> bool;
  k_scsi_execute_req : world -> exec_req -> exec_reply;
  k_scsi_sense_valid : scsi_sense_hdr -> bool;
  k_sg_scsi_ioctl : Z -> world -> Z * world;
  k_scsi_test_unit_ready : Z -> Z -> world -> Z * world;
  k_scsi_ioctl_reset : Z -> world -> Z * world;
  k_scsi_host_in_recovery : world -> bool;
  k_scsi_block_when_processing_errors : world -> bool * world
}.

(** ** The functions of the file *)

Section ScsiIoctl.

Variable abi : scsi_abi.
Variable K : kernel.

Definition NORMAL_RETRIES : Z := 5.
Definition IOCTL_NORMAL_TIMEOUT : Z := 10 * HZ abi.
Definition MAX_BUF : Z := PAGE_SIZE abi.
Definition MAX_BUFFLEN : Z := 32 * 512.

(** *** Primitives the file calls *)

Definition access_ok (addr size : Z) : bool :=
  (0 <=? addr) && (addr + size <=? k_task_size K).

Definition user_read (m : umem) (addr n : Z) : option (list Z) :=
  if access_ok addr n then read_bytes m addr (Z.to_nat n) else None.

Definition user_write (m : umem) (addr : Z) (data : list Z) : umem * bool :=
  if access_ok addr (Z.of_nat (List.length data)) then write_bytes m addr data
  else (m, false).

(** [copy_from_user(to, from, n)]: the bytes read, or [None] when the
    call returns non-zero. *)
Definition copy_from_user (from n : Z) : M (option (list Z)) :=
  m <- get_umem ;;
  let r := user_read m from n in
  emit (EvCopyFromUser from n (match r with Some _ => true | None => false end)) ;;;
  ret r.

(** [copy_to_user(to, from, n)] with the [n] bytes at [from] given as a
    list: [true] when the call returns 0. *)
Definition copy_to_user (to : Z) (data : list Z) : M bool :=
  m <- get_umem ;;
  let (m', ok) := user_write m to data in
  set_umem m' ;;;
  emit (EvCopyToUser to data ok) ;;;
  ret ok.

(** [get_user], [put_user] and [__put_user] on a 32-bit object. *)
Definition get_user (addr : Z) : M (option Z) :=
  r <- copy_from_user addr 4 ;;
  ret (option_map le_decode r).

Definition put_user (v addr : Z) : M Z :=
  ok <- copy_to_user addr (le32_encode v) ;;
  ret (if ok then 0 else - EFAULT abi).

Definition __put_user (v addr : Z) : M Z :=
  m <- get_umem ;;
  let (m', ok) := write_bytes m addr (le32_encode v) in
  set_umem m' ;;;
  emit (EvCopyToUser addr (le32_encode v) ok) ;;;
  ret (if ok then 0 else - EFAULT abi).

(** A plain load of a 32-bit field through a pointer into the user
    address space ([ic->inlen]): it faults when the field is not
    mapped. *)
Definition deref_user32 (addr : Z) : M Z :=
  m <- get_umem ;;
  match read_bytes m addr 4 with
  | Some bs => ret (le_decode bs)
  | None => oops
  end.

Definition kmalloc (size : Z) : M bool :=
  fun w =>
    let ok := k_alloc_ok K (w_trace w) size in
    (emit (EvKmalloc size ok) ;;; ret ok) w.

(** [kzalloc]: the zeroed object, or [None] for NULL. *)
Definition kzalloc (size : Z) : M (option (list Z)) :=
  fun w =>
    let ok := k_alloc_ok K (w_trace w) size in
    (emit (EvKzalloc size ok) ;;;
     ret (if ok then Some (repeat 0 (Z.to_nat size)) else None)) w.

Definition kfree (p : option (list Z)) : M unit :=
  emit (EvKfree (option_map (fun b => Z.of_nat (List.length b)) p)).

(** What a buffer of the given contents holds once the device has
    placed [data] in it. *)
Definition dma_fill (data buf : list Z) : list Z :=
  firstn (List.length buf) (data ++ skipn (List.length data) buf).

(** [scsi_execute_req]: the result, the sense header, and the buffer as
    the call leaves it. *)
Definition scsi_execute_req (cmd : list Z) (dir : dma_direction)
    (buf : option (list Z)) (bufflen timeout retries : Z)
  : M (Z * scsi_sense_hdr * option (list Z)) :=
  fun w =>
    let req := {| x_cmd := cmd; x_dir := dir; x_buf := buf;
                  x_bufflen := bufflen; x_timeout := timeout;
                  x_retries := retries |} in
    let rep := k_scsi_execute_req K w req in
    let buf' := match dir with
                | DMA_FROM_DEVICE => option_map (dma_fill (r_data rep)) buf
                | _ => buf
                end in
    (emit (EvExecuteReq req rep) ;;;
     ret (r_result rep, r_sshdr rep, buf')) w.

Definition scsi_sense_valid (sshdr : scsi_sense_hdr) : bool :=
  k_scsi_sense_valid K sshdr.

(** [scsi_print_sense_hdr] prints the header to the kernel log. *)
Definition scsi_print_sense_hdr (sshdr : scsi_sense_hdr) : M unit :=
  printk "scsi_print_sense_hdr".

(** An uninitialised local array of [n] cells. *)
Definition uninitialised (n : nat) : list Z :=
  firstn n (map u8 (k_stack K) ++ repeat 0 n).

(** [driver_byte(result) & DRIVER_SENSE] as a condition. *)
Definition sense_present (result : Z) : bool :=
  negb (Z.land (driver_byte abi result) (DRIVER_SENSE abi) =? 0).

(** *** ioctl_probe *)

Definition ioctl_probe (buffer : Z) : M Z :=
  if negb (buffer =? 0) then
    r <- get_user buffer ;;
    match r with
    | None => ret (- EFAULT abi)
    | Some len =>
        string <- match info (hostt K) with
                  | Some f => fun w => Ret (f w) w
                  | None => ret (name (hostt K))
                  end ;;
        match string with
        | Some s =>
            let slen := u32 (strlen s) in
            let len := if len >? slen then u32 (slen + 1) else len in
            ok <- copy_to_user buffer
                    (firstn (Z.to_nat len) (string_bytes s ++ [0])) ;;
            if ok then ret 1 else ret (- EFAULT abi)
        | None => ret 1
        end
    end
  else ret 1.

(** *** ioctl_internal_command *)

Definition ioctl_internal_command (cmd : list Z) (timeout retries : Z)
  : M Z :=
  r <- scsi_execute_req cmd DMA_NONE None 0 timeout retries ;;
  let '(result, sshdr, _) := r in
  let default_case : M Z :=
    printk "ioctl_internal_command return code = %x" ;;;
    scsi_print_sense_hdr sshdr ;;;
    ret result in
  let unit_attention_case : M Z :=
    sdev <- get_sdev ;;
    if removable sdev then
      set_sdev (set_changed true) ;;;
      ret 0  (* This is no longer considered an error *)
    else default_case (* FALLTHROUGH -- for non-removable media *) in
  if sense_present result && scsi_sense_valid sshdr then
    if sense_key sshdr =? ILLEGAL_REQUEST abi then
      (if nth 0 cmd 0 =? ALLOW_MEDIUM_REMOVAL abi
       then set_sdev (set_lockable false)
       else printk "ioctl_internal_command: ILLEGAL REQUEST asc=0x%x ascq=0x%x") ;;;
      ret result
    else if sense_key sshdr =? NOT_READY abi then
      (* This happens if there is no disc in drive *)
      sdev <- get_sdev ;;
      if removable sdev then ret result
      else unit_attention_case (* FALLTHROUGH *)
    else if sense_key sshdr =? UNIT_ATTENTION abi then
      unit_attention_case
    else default_case
  else ret result.

(** *** ioctl_secu_prot_command *)

Definition ioctl_secu_prot_command (cmd : list Z) (prot_in_out : Z)
    (arg : Z) (timeout retries : Z) : M Z :=
  s_ioc_arg <- kmalloc sizeof_Scsi_Ioctl_Command ;;
  if negb s_ioc_arg then
    printk "%s kmalloc faild" ;;;
    ret (- EFAULT abi)
  else
    let err_pre_buf_alloc (result : Z) : M Z :=
      emit (EvKfree (Some sizeof_Scsi_Ioctl_Command)) ;;;
      ret result in
    let err_post_buf_alloc (buf : option (list Z)) (result : Z) : M Z :=
      kfree buf ;;;
      err_pre_buf_alloc result in
    hdr <- copy_from_user arg sizeof_Scsi_Ioctl_Command ;;
    match hdr with
    | None =>
        printk "Argument copy faild" ;;;
        err_pre_buf_alloc (- EFAULT abi)
    | Some bytes =>
        let s_ioc_arg := decode_Scsi_Ioctl_Command bytes in
        (* from the call of scsi_execute_req to the end *)
        let execute (dma_direction : dma_direction)
                    (buf : option (list Z)) (bufflen : Z) : M Z :=
          r <- scsi_execute_req cmd dma_direction buf bufflen
                 timeout retries ;;
          let '(result, sshdr, buf) := r in
          let finish : M Z :=
            (if sense_present result && scsi_sense_valid sshdr then
               printk "ioctl_secu_prot_command return code = %x" ;;;
               scsi_print_sense_hdr sshdr
             else ret tt) ;;;
            err_post_buf_alloc buf result in
          if prot_in_out =? SCSI_IOCTL_SECURITY_PROTOCOL_IN abi then
            match buf with
            | None => oops
            | Some b =>
                ok <- copy_to_user (arg + sizeof_Scsi_Ioctl_Command)
                        (firstn (Z.to_nat (inlen s_ioc_arg)) b) ;;
                if negb ok then
                  printk "copy_to_user failed" ;;;
                  err_post_buf_alloc buf (- EFAULT abi)
                else finish
            end
          else finish in
        if prot_in_out =? SCSI_IOCTL_SECURITY_PROTOCOL_IN abi then
          let bufflen := inlen s_ioc_arg in
          if (bufflen <=? 0) || (bufflen >? MAX_BUFFLEN) then
            printk "Invalid bufflen : %x" ;;;
            err_pre_buf_alloc (- EFAULT abi)
          else
            buf <- kzalloc bufflen ;;
            execute DMA_FROM_DEVICE buf bufflen
        else if prot_in_out =? SCSI_IOCTL_SECURITY_PROTOCOL_OUT abi then
          let bufflen := outlen s_ioc_arg in
          if (bufflen <=? 0) || (bufflen >? MAX_BUFFLEN) then
            printk "Invalid bufflen : %x" ;;;
            err_pre_buf_alloc (- EFAULT abi)
          else
            buf <- kzalloc bufflen ;;
            match buf with
            | None => oops
            | Some _ =>
                data <- copy_from_user (arg + sizeof_Scsi_Ioctl_Command)
                          (outlen s_ioc_arg) ;;
                match data with
                | None =>
                    printk "copy_from_user failed" ;;;
                    err_post_buf_alloc buf (- EFAULT abi)
                | Some bs => execute DMA_TO_DEVICE (Some bs) bufflen
                end
            end
        else
          printk "prot_in_out not set!! %d" ;;;
          err_pre_buf_alloc (- EFAULT abi)
    end.

(** *** scsi_set_medium_removal *)

(** The descriptor [scsi_set_medium_removal] fills in. *)
Definition medium_removal_cdb (state : Z) : list Z :=
  let scsi_cmd := uninitialised (MAX_COMMAND_SIZE abi) in
  let scsi_cmd := store 0 (u8 (ALLOW_MEDIUM_REMOVAL abi)) scsi_cmd in
  let scsi_cmd := store 1 0 scsi_cmd in
  let scsi_cmd := store 2 0 scsi_cmd in
  let scsi_cmd := store 3 0 scsi_cmd in
  let scsi_cmd := store 4 (u8 state) scsi_cmd in
  let scsi_cmd := store 5 0 scsi_cmd in
  scsi_cmd.

Definition scsi_set_medium_removal (state : Z) : M Z :=
  sdev <- get_sdev ;;
  if negb (removable sdev) || negb (lockable sdev) then ret 0
  else
    ret_ <- ioctl_internal_command (medium_removal_cdb state)
              IOCTL_NORMAL_TIMEOUT NORMAL_RETRIES ;;
    (if ret_ =? 0
     then set_sdev (set_locked (state =? SCSI_REMOVAL_PREVENT abi))
     else ret tt) ;;;
    ret ret_.

(** *** scsi_ioctl_get_pci *)

Definition scsi_ioctl_get_pci (arg : Z) : M Z :=
  sdev <- get_sdev ;;
  match parent_dev_name (host sdev) with
  | None => ret (- ENXIO abi)
  | Some name =>
      (* compatibility with old ioctl which only returned 20 characters *)
      ok <- copy_to_user arg
              (firstn (Z.to_nat (Z.min (strlen name) 20)) (string_bytes name)) ;;
      ret (if ok then 0 else - EFAULT abi)
  end.

(** *** scsi_ioctl *)

(** The descriptor of a security-protocol transfer, as [scsi_ioctl]
    fills the zeroed [scsi_cmd] once [t_len] is known. *)
Definition secu_prot_cdb (cmd t_len : Z) : list Z :=
  let scsi_cmd := memset0 (MAX_COMMAND_SIZE abi) in
  let prot_spec := u16 (SECU_PROT_SPEC_CERT_DATA abi) in
  let scsi_cmd :=
    store 0 (u8 (if cmd =? SCSI_IOCTL_SECURITY_PROTOCOL_IN abi
                 then SECURITY_PROTOCOL_IN abi
                 else SECURITY_PROTOCOL_OUT abi)) scsi_cmd in
  let scsi_cmd := store 1 (u8 (SECU_PROT_UFS abi)) scsi_cmd in
  let scsi_cmd := store 2 (Z.land (u8 (Z.shiftr prot_spec 8)) 255) scsi_cmd in
  let scsi_cmd := store 3 (Z.land (u8 prot_spec) 255) scsi_cmd in
  let scsi_cmd := store 4 0 scsi_cmd in
  let scsi_cmd := store 5 0 scsi_cmd in
  let scsi_cmd := store 6 (Z.land (u8 (Z.shiftr t_len 24)) 255) scsi_cmd in
  let scsi_cmd := store 7 (Z.land (u8 (Z.shiftr t_len 16)) 255) scsi_cmd in
  let scsi_cmd := store 8 (Z.land (u8 (Z.shiftr t_len 8)) 255) scsi_cmd in
  let scsi_cmd := store 9 (Z.land (u8 t_len) 255) scsi_cmd in
  let scsi_cmd := store 10 0 scsi_cmd in
  let scsi_cmd := store 11 0 scsi_cmd in
  scsi_cmd.

Definition start_stop_cdb (start : Z) : list Z :=
  let scsi_cmd := memset0 (MAX_COMMAND_SIZE abi) in
  let scsi_cmd := store 0 (u8 (START_STOP abi)) scsi_cmd in
  let scsi_cmd := store 1 0 scsi_cmd in
  let scsi_cmd := store 5 0 scsi_cmd in
  let scsi_cmd := store 3 0 scsi_cmd in
  let scsi_cmd := store 2 0 scsi_cmd in
  let scsi_cmd := store 4 start scsi_cmd in
  scsi_cmd.

Definition deprecated_ioctl (cmd : Z) : bool :=
  (cmd =? SCSI_IOCTL_SEND_COMMAND abi)
  || (cmd =? SCSI_IOCTL_TEST_UNIT_READY abi)
  || (cmd =? SCSI_IOCTL_BENCHMARK_COMMAND abi)
  || (cmd =? SCSI_IOCTL_SYNC abi)
  || (cmd =? SCSI_IOCTL_START_UNIT abi)
  || (cmd =? SCSI_IOCTL_STOP_UNIT abi).

Definition scsi_ioctl (cmd : Z) (arg : Z) : M Z :=
  let sht := hostt K in
  (* Check for deprecated ioctls ... all the ioctls which don't
     follow the new unique numbering scheme are deprecated *)
  (if deprecated_ioctl cmd
   then printk "program %s is using a deprecated SCSI ioctl, please convert it to SG_IO"
   else ret tt) ;;;
  if cmd =? SCSI_IOCTL_GET_IDLUN abi then
    if negb (access_ok arg (sizeof_scsi_idlun abi)) then ret (- EFAULT abi)
    else
      sdev <- get_sdev ;;
      __put_user (u32 (Z.land (id sdev) 255
                       + Z.shiftl (Z.land (lun sdev) 255) 8
                       + Z.shiftl (Z.land (channel sdev) 255) 16
                       + Z.shiftl (Z.land (host_no (host sdev)) 255) 24))
                 arg ;;;
      (* host_unique_id is the second 32-bit word of struct scsi_idlun *)
      __put_user (u32 (unique_id (host sdev))) (arg + 4) ;;;
      ret 0
  else if cmd =? SCSI_IOCTL_GET_BUS_NUMBER abi then
    sdev <- get_sdev ;;
    put_user (u32 (host_no (host sdev))) arg
  else if cmd =? SCSI_IOCTL_PROBE_HOST abi then
    ioctl_probe arg
  else if cmd =? SCSI_IOCTL_SEND_COMMAND abi then
    if negb (k_capable K CAP_SYS_ADMIN) || negb (k_capable K CAP_SYS_RAWIO)
    then ret (- EACCES abi)
    else call (k_sg_scsi_ioctl K arg)
  else if cmd =? SCSI_IOCTL_DOORLOCK abi then
    scsi_set_medium_removal (SCSI_REMOVAL_PREVENT abi)
  else if cmd =? SCSI_IOCTL_DOORUNLOCK abi then
    scsi_set_medium_removal (SCSI_REMOVAL_ALLOW abi)
  else if cmd =? SCSI_IOCTL_TEST_UNIT_READY abi then
    call (k_scsi_test_unit_ready K IOCTL_NORMAL_TIMEOUT NORMAL_RETRIES)
  else if cmd =? SCSI_IOCTL_START_UNIT abi then
    ioctl_internal_command (start_stop_cdb 1)
      (START_STOP_TIMEOUT abi) NORMAL_RETRIES
  else if cmd =? SCSI_IOCTL_STOP_UNIT abi then
    ioctl_internal_command (start_stop_cdb 0)
      (START_STOP_TIMEOUT abi) NORMAL_RETRIES
  else if (cmd =? SCSI_IOCTL_SECURITY_PROTOCOL_IN abi)
          || (cmd =? SCSI_IOCTL_SECURITY_PROTOCOL_OUT abi) then
    let _cmd := SCSI_UFS_REQUEST_SENSE abi in
    sdev <- get_sdev ;;
    (if wlun_clr_uac (host sdev) then
       match ioctl (hostt K) with
       | Some handler => call (handler _cmd 0)
       | None => oops
       end
     else ret 0) ;;;
    t_len <- (if cmd =? SCSI_IOCTL_SECURITY_PROTOCOL_IN abi
              then deref_user32 arg
              else deref_user32 (arg + 4)) ;;
    ioctl_secu_prot_command (secu_prot_cdb cmd t_len) cmd arg
      (START_STOP_TIMEOUT abi) NORMAL_RETRIES
  else if cmd =? SCSI_IOCTL_GET_PCI abi then
    scsi_ioctl_get_pci arg
  else if cmd =? SG_SCSI_RESET abi then
    match name sht with
    | None => oops
    | Some nm =>
        if strncmp nm "ufshcd" 6 =? 0 then ret (- EINVAL abi)
        else call (k_scsi_ioctl_reset K arg)
    end
  else
    match ioctl (hostt K) with
    | Some handler => call (handler cmd arg)
    | None => ret (- EINVAL abi)
    end.

(** *** scsi_ioctl_block_when_processing_errors

    We can process a reset even when a device isn't fully operable. *)
Definition scsi_ioctl_block_when_processing_errors (cmd : Z)
    (ndelay : bool) : M Z :=
  if (cmd =? SG_SCSI_RESET abi) && ndelay then
    fun w =>
      if k_scsi_host_in_recovery K w then Ret (- EAGAIN abi) w
      else Ret 0 w
  else
    online <- call (k_scsi_block_when_processing_errors K) ;;
    if negb online then ret (- ENODEV abi) else ret 0.

(** *** srpmb_ioctl_secu_prot_command (CONFIG_UFS_SRPMB) *)

(** [virt_addr_valid] on the result of [kzalloc]: an allocated object
    lies in the kernel's linear map, NULL does not. *)
Definition virt_addr_valid (p : option (list Z)) : bool :=
  match p with Some _ => true | None => false end.

(** [memcpy(buf, req->rpmb_data, bufflen)]: the first [bufflen] bytes of
    the array; reading past its end is a fault. *)
Definition memcpy_from_rpmb_data (req : Rpmb_Req) (bufflen : Z)
  : M (list Z) :=
  if Nat.leb (Z.to_nat bufflen) (List.length (rpmb_data req))
  then ret (firstn (Z.to_nat bufflen) (rpmb_data req))
  else oops.

(** [memcpy(req->rpmb_data, buf, bufflen)]: the request with the first
    [bufflen] bytes of the array replaced; writing past its end is a
    fault. *)
Definition memcpy_to_rpmb_data (req : Rpmb_Req) (buf : list Z)
    (bufflen : Z) : M Rpmb_Req :=
  if Nat.leb (Z.to_nat bufflen) (List.length (rpmb_data req))
  then ret {| rq_cmd := rq_cmd req; rq_inlen := rq_inlen req;
              rq_outlen := rq_outlen req;
              rpmb_data := firstn (Z.to_nat bufflen) buf
                           ++ skipn (Z.to_nat bufflen) (rpmb_data req) |}
  else oops.

Definition srpmb_ioctl_secu_prot_command (cmd : list Z) (req : Rpmb_Req)
    (timeout retries : Z) : M (Z * Rpmb_Req) :=
  let prot_in_out := rq_cmd req in
  let err_pre_buf_alloc (result : Z) : M (Z * Rpmb_Req) :=
    ret (result, req) in
  let err_kzalloc (buf : option (list Z)) (result : Z) : M (Z * Rpmb_Req) :=
    (match buf with Some _ => kfree buf | None => ret tt end) ;;;
    printk "%s kzalloc faild" ;;;
    ret (result, req) in
  (* from the call of scsi_execute_req to the end *)
  let execute (dma_direction : dma_direction)
              (buf : option (list Z)) (bufflen : Z) : M (Z * Rpmb_Req) :=
    r <- scsi_execute_req cmd dma_direction buf bufflen timeout retries ;;
    let '(result, sshdr, buf) := r in
    req' <- (if prot_in_out =? SCSI_IOCTL_SECURITY_PROTOCOL_IN abi then
               match buf with
               | Some b => memcpy_to_rpmb_data req b bufflen
               | None => oops
               end
             else ret req) ;;
    (if sense_present result && scsi_sense_valid sshdr then
       printk "ioctl_secu_prot_command return code = %x" ;;;
       scsi_print_sense_hdr sshdr
     else ret tt) ;;;
    kfree buf ;;;
    ret (result, req') in
  if prot_in_out =? SCSI_IOCTL_SECURITY_PROTOCOL_IN abi then
    let bufflen := u32 (rq_inlen req) in
    if (bufflen <=? 0) || (bufflen >? MAX_BUFFLEN) then
      printk "Invalid bufflen : %x" ;;;
      err_pre_buf_alloc (- EFAULT abi)
    else
      buf <- kzalloc bufflen ;;
      if negb (virt_addr_valid buf) then err_kzalloc buf (- ENOMEM abi)
      else execute DMA_FROM_DEVICE buf bufflen
  else if prot_in_out =? SCSI_IOCTL_SECURITY_PROTOCOL_OUT abi then
    let bufflen := u32 (rq_outlen req) in
    if (bufflen <=? 0) || (bufflen >? MAX_BUFFLEN) then
      printk "Invalid bufflen : %x" ;;;
      err_pre_buf_alloc (- EFAULT abi)
    else
      buf <- kzalloc bufflen ;;
      if negb (virt_addr_valid buf) then err_kzalloc buf (- ENOMEM abi)
      else
        data <- memcpy_from_rpmb_data req bufflen ;;
        execute DMA_TO_DEVICE (Some data) bufflen
  else
    printk "prot_in_out not set!! %d" ;;;
    err_pre_buf_alloc (- EFAULT abi).

(** *** srpmb_scsi_ioctl (CONFIG_UFS_SRPMB)

    [sdev] tells whether the device pointer is non-NULL; the device it
    points to is the one of the world. *)
Definition srpmb_scsi_ioctl (sdev : bool) (req : Rpmb_Req)
  : M (Z * Rpmb_Req) :=
  (* No idea how this happens.... *)
  if negb sdev then
    printk "sdev empty" ;;;
    ret (- ENXIO abi, req)
  else
    (* If we are in the middle of error recovery, don't let anyone
       else try and use this device. *)
    online <- call (k_scsi_block_when_processing_errors K) ;;
    if negb online then ret (- ENODEV abi, req)
    else
      let _cmd := SCSI_UFS_REQUEST_SENSE abi in
      d <- get_sdev ;;
      (if wlun_clr_uac (host d) then
         match ioctl (hostt K) with
         | Some handler => call (handler _cmd 0)
         | None => oops
         end
       else ret 0) ;;;
      let t_len := if rq_cmd req =? SCSI_IOCTL_SECURITY_PROTOCOL_IN abi
                   then rq_inlen req else rq_outlen req in
      (* the descriptor is filled in as in scsi_ioctl *)
      srpmb_ioctl_secu_prot_command (secu_prot_cdb (rq_cmd req) t_len) req
        (START_STOP_TIMEOUT abi) NORMAL_RETRIES.

End ScsiIoctl.

(** ** Vocabulary of the statements *)

(** What a run returned and the world it ended in. *)
Definition returned {A} (o : outcome A) : option A :=
  match o with Ret a _ => Some a | Oops _ => None end.

Definition final_world {A} (o : outcome A) : world :=
  match o with Ret _ w => w | Oops w => w end.

(** The world with more events on its trace (most recent first). *)
Definition logged (evs : list event) (w : world) : world :=
  {| w_sdev := w_sdev w; w_umem := w_umem w; w_trace := evs ++ w_trace w |}.

(** The request [ioctl_internal_command] hands to [scsi_execute_req]. *)
Definition internal_req (cmd : list Z) (timeout retries : Z) : exec_req :=
  {| x_cmd := cmd; x_dir := DMA_NONE; x_buf := None; x_bufflen := 0;
     x_timeout := timeout; x_retries := retries |}.

(** The case labels of the dispatching [switch]. *)
Definition recognized_codes (abi : scsi_abi) : list Z :=
  [SCSI_IOCTL_GET_IDLUN abi; SCSI_IOCTL_GET_BUS_NUMBER abi;
   SCSI_IOCTL_PROBE_HOST abi; SCSI_IOCTL_SEND_COMMAND abi;
   SCSI_IOCTL_DOORLOCK abi; SCSI_IOCTL_DOORUNLOCK abi;
   SCSI_IOCTL_TEST_UNIT_READY abi; SCSI_IOCTL_START_UNIT abi;
   SCSI_IOCTL_STOP_UNIT abi; SCSI_IOCTL_SECURITY_PROTOCOL_IN abi;
   SCSI_IOCTL_SECURITY_PROTOCOL_OUT abi; SCSI_IOCTL_GET_PCI abi;
   SG_SCSI_RESET abi].

(** The world as the deprecation check leaves it. *)
Definition after_deprecation_check (abi : scsi_abi) (cmd : Z) (w : world)
  : world :=
  if deprecated_ioctl abi cmd
  then logged [EvPrintk "program %s is using a deprecated SCSI ioctl, please convert it to SG_IO"] w
  else w.

(** A C string holds no NUL before its end. *)
Fixpoint no_nul (p : string) : bool :=
  match p with
  | EmptyString => true
  | String c r => negb (Ascii.eqb c zero) && no_nul r
  end.

(** The log lines that follow an execution whose sense data is present
    and valid. *)
Definition sense_log (abi : scsi_abi) (K : kernel) (rep : exec_reply)
  : list event :=
  if sense_present abi (r_result rep) && scsi_sense_valid K (r_sshdr rep)
  then [EvPrintk "scsi_print_sense_hdr";
        EvPrintk "ioctl_secu_prot_command return code = %x"]
  else [].

(** The events of a successful read of the header. *)
Definition header_events (arg : Z) : list event :=
  [EvCopyFromUser arg sizeof_Scsi_Ioctl_Command true;
   EvKmalloc sizeof_Scsi_Ioctl_Command true].

(** The run of a transfer that has passed the length check: the call
    returns; the execution primitive was called once with the caller's
    descriptor, in direction [dir], on a buffer of exactly [L] bytes
    allocated for it; in the out direction the buffer holds the [L]
    bytes that follow the header in user memory, copied in before the
    execution; in the in direction [L] bytes are copied out to that
    place after it. *)
Definition transfer_proceeds (K : kernel) (cmd : list Z)
    (dir : dma_direction) (arg L : Z) (w : world) (run : outcome Z) : Prop :=
  exists r w' req rep buf later earlier,
    run = Ret r w'
    /\ w_trace w' = later ++ EvExecuteReq req rep :: earlier ++ w_trace w
    /\ x_cmd req = cmd /\ x_dir req = dir /\ x_bufflen req = L
    /\ x_buf req = Some buf /\ Z.of_nat (List.length buf) = L
    /\ In (EvKzalloc L true) earlier
    /\ (dir = DMA_TO_DEVICE ->
        user_read K (w_umem w) (arg + sizeof_Scsi_Ioctl_Command) L = Some buf
        /\ In (EvCopyFromUser (arg + sizeof_Scsi_Ioctl_Command) L true)
             earlier)
    /\ (dir = DMA_FROM_DEVICE ->
        exists data ok,
          In (EvCopyToUser (arg + sizeof_Scsi_Ioctl_Command) data ok) later
          /\ Z.of_nat (List.length data) = L).

(** The number of successful allocations and of releases among some
    events. *)
Fixpoint allocated (evs : list event) : nat :=
  match evs with
  | [] => 0
  | EvKmalloc _ true :: r => S (allocated r)
  | EvKzalloc _ true :: r => S (allocated r)
  | _ :: r => allocated r
  end.

Fixpoint freed (evs : list event) : nat :=
  match evs with
  | [] => 0
  | EvKfree (Some _) :: r => S (freed r)
  | _ :: r => freed r
  end.

(** The length of the request in the direction of its command, as the
    function reads it into its [unsigned int]. *)
Definition srpmb_bufflen (abi : scsi_abi) (req : Rpmb_Req) : Z :=
  if rq_cmd req =? SCSI_IOCTL_SECURITY_PROTOCOL_IN abi
  then u32 (rq_inlen req) else u32 (rq_outlen req).

Definition srpmb_direction (abi : scsi_abi) (req : Rpmb_Req)
  : dma_direction :=
  if rq_cmd req =? SCSI_IOCTL_SECURITY_PROTOCOL_IN abi
  then DMA_FROM_DEVICE else DMA_TO_DEVICE.

(** ** A concrete configuration

    The numbers as the Linux headers define them (the vendor's additions
    to the ioctl numbering get values in the same style).  Only the
    examples use them: every theorem is stated for an arbitrary
    [scsi_abi]. *)

Definition linux_abi : scsi_abi :=
  {| EFAULT := 14; EINVAL := 22; EACCES := 13; ENODEV := 19; EAGAIN := 11;
     ENXIO := 6; ENOMEM := 12; ENOTTY := 25; ENOSYS := 38; EOPNOTSUPP := 95;
     HZ := 250; START_STOP_TIMEOUT := 60 * 250; MAX_COMMAND_SIZE := 16;
     PAGE_SIZE := 4096; sizeof_scsi_idlun := 8;
     SCSI_IOCTL_SEND_COMMAND := 1;
     SCSI_IOCTL_TEST_UNIT_READY := 2;
     SCSI_IOCTL_BENCHMARK_COMMAND := 3;
     SCSI_IOCTL_SYNC := 4;
     SCSI_IOCTL_START_UNIT := 5;
     SCSI_IOCTL_STOP_UNIT := 6;
     SCSI_IOCTL_GET_IDLUN := 0x5382;
     SCSI_IOCTL_GET_BUS_NUMBER := 0x5386;
     SCSI_IOCTL_PROBE_HOST := 0x5385;
     SCSI_IOCTL_DOORLOCK := 0x5380;
     SCSI_IOCTL_DOORUNLOCK := 0x5381;
     SCSI_IOCTL_SECURITY_PROTOCOL_IN := 7;
     SCSI_IOCTL_SECURITY_PROTOCOL_OUT := 8;
     SCSI_IOCTL_GET_PCI := 0x5387;
     SG_SCSI_RESET := 0x2284;
     SCSI_UFS_REQUEST_SENSE := 0x5388;
     ALLOW_MEDIUM_REMOVAL := 0x1e;
     START_STOP := 0x1b;
     SECURITY_PROTOCOL_IN := 0xa2;
     SECURITY_PROTOCOL_OUT := 0xb5;
     SECU_PROT_UFS := 0xec;
     SECU_PROT_SPEC_CERT_DATA := 0x0001;
     SCSI_REMOVAL_PREVENT := 1;
     SCSI_REMOVAL_ALLOW := 0;
     ILLEGAL_REQUEST := 5;
     NOT_READY := 2;
     UNIT_ATTENTION := 6;
     DRIVER_SENSE := 8;
     driver_byte := fun result => Z.land (Z.shiftr result 24) 255;
     ioctl_codes_distinct := eq_refl;
     sense_labels_distinct := eq_refl;
     removal_states_distinct := eq_refl |}.

(** A kernel for the examples: a host template with the given name and
    handler, an allocator that never fails, a device that answers every
    command with the given reply, a host that is or is not in recovery
    and a device that is or is not online. *)
Definition demo_kernel (nm : option string)
    (handler : option (Z -> Z -> world -> Z * world))
    (reply : exec_reply) (in_recovery online : bool) : kernel :=
  {| hostt := {| name := nm; info := None; ioctl := handler |};
     k_alloc_ok := fun _ _ => true;
     k_stack := [];
     k_task_size := 0x8000000000;
     k_capable := fun _ => true;
     k_scsi_execute_req := fun _ _ => reply;
     k_scsi_sense_valid :=
       fun sshdr => Z.land (response_code sshdr) 0x70 =? 0x70;
     k_sg_scsi_ioctl := fun _ w => (0, w);
     k_scsi_test_unit_ready := fun _ _ w => (0, w);
     k_scsi_ioctl_reset := fun _ w => (0, w);
     k_scsi_host_in_recovery := fun _ => in_recovery;
     k_scsi_block_when_processing_errors := fun w => (online, w) |}.

Definition demo_host : Scsi_Host :=
  {| host_no := 0; unique_id := 0; wlun_clr_uac := false;
     parent_dev_name := None |}.

Definition demo_sdev (removable lockable : bool) : scsi_device :=
  {| id := 0; lun := 0; channel := 0; removable := removable;
     changed := false; lockable := lockable; locked := false;
     host := demo_host |}.

(** User memory holding [bytes] at address [base] and nothing else. *)
Definition demo_umem (base : Z) (bytes : list Z) : umem :=
  fun a =>
    if (base <=? a) && (a <? base + Z.of_nat (List.length bytes))
    then Some (nth (Z.to_nat (a - base)) bytes 0)
    else None.

Definition demo_world (sdev : scsi_device) (m : umem) : world :=
  {| w_sdev := sdev; w_umem := m; w_trace := [] |}.

(** Replies of the device: success, and a check condition with the
    given sense key. *)
Definition reply_good (data : list Z) : exec_reply :=
  {| r_result := 0;
     r_sshdr := {| response_code := 0; sense_key := 0; asc := 0; ascq := 0 |};
     r_data := data |}.

Definition reply_sense (key : Z) : exec_reply :=
  {| r_result := 0x08000002;
     r_sshdr := {| response_code := 0x70; sense_key := key;
                   asc := 0x3a; ascq := 0 |};
     r_data := [] |}.

(** Kernels of the examples: a device that answers with the given sense
    key, an offline device, a healthy device, a UFS host in recovery. *)
Definition sense_kernel (key : Z) : kernel :=
  demo_kernel (Some "sd"%string) None (reply_sense key) false true.

Definition start_unit_cdb : list Z := start_stop_cdb linux_abi 1.

Definition offline_kernel : kernel :=
  demo_kernel (Some "sd"%string) None (reply_good []) false false.

Definition good_kernel : kernel :=
  demo_kernel (Some "sd"%string) None (reply_good []) false true.

Definition ufshcd_kernel : kernel :=
  demo_kernel (Some "ufshcd"%string) None (reply_good []) true false.

(** A device that answers with a check condition (NOT READY) after
    leaving two bytes in the buffer. *)
Definition not_ready_kernel : kernel :=
  demo_kernel (Some "sd"%string) None
    {| r_result := 0x08000002;
       r_sshdr := r_sshdr (reply_sense (NOT_READY linux_abi));
       r_data := [0xde; 0xad] |}
    false true.

(** A caller's memory for the examples: at address 4096 a header that
    declares the two lengths, followed by four bytes of data. *)
Definition demo_request (inlen outlen : Z) : world :=
  demo_world (demo_sdev false false)
    (demo_umem 4096 (le32_encode inlen ++ le32_encode outlen ++ [1; 2; 3; 4])).

Definition demo_cdb (cmd t_len : Z) : list Z :=
  secu_prot_cdb linux_abi cmd t_len.

(** A device with an identity, on a host with a parent device. *)
Definition idlun_world : world :=
  {| w_sdev := {| id := 0x103; lun := 1; channel := 2; removable := false;
                  changed := false; lockable := false; locked := false;
                  host := {| host_no := 5; unique_id := 0xaabbccdd;
                             wlun_clr_uac := false;
                             parent_dev_name := Some "0000:00:1f.2"%string |} |};
     w_umem := demo_umem 4096 (repeat 0x55 32);
     w_trace := [] |}.

(** A host whose template is named ufshcd, and a caller's buffer that
    starts with the length word. *)
Definition probe_kernel : kernel :=
  demo_kernel (Some "ufshcd"%string) None (reply_good []) false true.

Definition probe_world (len : Z) : world :=
  demo_world (demo_sdev false false)
    (demo_umem 4096 (le32_encode len ++ repeat 0x55 28)).

(** A caller with CAP_SYS_ADMIN but without CAP_SYS_RAWIO. *)
Definition unprivileged_kernel : kernel :=
  {| hostt := hostt good_kernel;
     k_alloc_ok := k_alloc_ok good_kernel;
     k_stack := k_stack good_kernel;
     k_task_size := k_task_size good_kernel;
     k_capable := fun c => match c with
                           | CAP_SYS_ADMIN => true
                           | CAP_SYS_RAWIO => false
                           end;
     k_scsi_execute_req := k_scsi_execute_req good_kernel;
     k_scsi_sense_valid := k_scsi_sense_valid good_kernel;
     k_sg_scsi_ioctl := k_sg_scsi_ioctl good_kernel;
     k_scsi_test_unit_ready := k_scsi_test_unit_ready good_kernel;
     k_scsi_ioctl_reset := k_scsi_ioctl_reset good_kernel;
     k_scsi_host_in_recovery := k_scsi_host_in_recovery good_kernel;
     k_scsi_block_when_processing_errors :=
       k_scsi_block_when_processing_errors good_kernel |}.

(** An allocator that has room for the header only. *)
Definition lowmem_kernel : kernel :=
  {| hostt := hostt good_kernel;
     k_alloc_ok := fun _ size => size =? sizeof_Scsi_Ioctl_Command;
     k_stack := k_stack good_kernel;
     k_task_size := k_task_size good_kernel;
     k_capable := k_capable good_kernel;
     k_scsi_execute_req := k_scsi_execute_req good_kernel;
     k_scsi_sense_valid := k_scsi_sense_valid good_kernel;
     k_sg_scsi_ioctl := k_sg_scsi_ioctl good_kernel;
     k_scsi_test_unit_ready := k_scsi_test_unit_ready good_kernel;
     k_scsi_ioctl_reset := k_scsi_ioctl_reset good_kernel;
     k_scsi_host_in_recovery := k_scsi_host_in_recovery good_kernel;
     k_scsi_block_when_processing_errors :=
       k_scsi_block_when_processing_errors good_kernel |}.

(** A secure RPMB request with eight bytes of data. *)
Definition demo_rpmb_req (cmd inlen outlen : Z) : Rpmb_Req :=
  {| rq_cmd := cmd; rq_inlen := inlen; rq_outlen := outlen;
     rpmb_data := [1; 2; 3; 4; 5; 6; 7; 8] |}.

(** ** Reasoning support *)

Lemma distinctb_cons x l :
  distinctb (x :: l) = true ->
  (forall y, In y l -> x <> y) /\ distinctb l = true.
Proof.
  simpl. rewrite andb_true_iff, negb_true_iff. intros [Hx Hl]. split; auto.
  intros y Hy ->.
  assert (existsb (Z.eqb y) l = true) as E
    by (apply existsb_exists; exists y; split; auto; apply Z.eqb_refl).
  congruence.
Qed.

(** Bring the inequalities packed in a [distinctb] fact into the context. *)
Ltac unpack_distinct H :=
  repeat match type of H with
         | distinctb (_ :: _) = true =>
             let Hx := fresh "Hne" in
             apply distinctb_cons in H; destruct H as [Hx H];
             simpl in Hx
         end;
  clear H.

Ltac code_facts abi :=
  let H := fresh "Hcodes" in
  pose proof (ioctl_codes_distinct abi) as H; unpack_distinct H.

Ltac sense_facts abi :=
  let H := fresh "Hkeys" in
  pose proof (sense_labels_distinct abi) as H; unpack_distinct H.

Ltac removal_facts abi :=
  let H := fresh "Hstates" in
  pose proof (removal_states_distinct abi) as H; unpack_distinct H.

(** Decide a comparison of two constants of the ABI from the facts in
    the context. *)
Ltac decide_eqb a b :=
  let E := fresh "E" in
  destruct (Z.eqb_spec a b) as [E | E];
  [ first [ exfalso;
            match goal with
            | H : forall y, _ -> a <> y |- _ => apply (H b); simpl; tauto
            | H : forall y, _ -> b <> y |- _ =>
                apply (H a); [simpl; tauto | symmetry; exact E]
            end
          | idtac ]
  | first [ exfalso; apply E; reflexivity | idtac ] ].

Ltac decide_all_eqb :=
  repeat match goal with
         | |- context [?a =? ?b] => decide_eqb a b
         end.

(** Unfold the monad and the primitives. *)
Ltac run :=
  cbv beta iota zeta delta
    [bind ret oops emit printk call get_sdev get_umem set_sdev set_umem
     kmalloc kzalloc kfree scsi_execute_req scsi_print_sense_hdr
     scsi_sense_valid logged internal_req app].

(** ** Sense interpretation *)

(** C4.  When the sense data of an internally executed command is
    present and valid with sense key UNIT ATTENTION: on a removable
    device the changed flag becomes true and the call returns 0 whatever
    the result of the execution was; on a device that is not removable
    the default handling runs, which logs and returns the result
    unchanged, and no flag of the device changes. *)
Theorem unit_attention_handling :
  forall abi K cmd timeout retries w,
    let req := internal_req cmd timeout retries in
    let rep := k_scsi_execute_req K w req in
    sense_present abi (r_result rep) = true ->
    scsi_sense_valid K (r_sshdr rep) = true ->
    sense_key (r_sshdr rep) = UNIT_ATTENTION abi ->
    (removable (w_sdev w) = true ->
     exists w',
       ioctl_internal_command abi K cmd timeout retries w = Ret 0 w'
       /\ changed (w_sdev w') = true
       /\ w_sdev w' = set_changed true (w_sdev w)
       /\ w_trace w' = EvExecuteReq req rep :: w_trace w)
    /\
    (removable (w_sdev w) = false ->
     ioctl_internal_command abi K cmd timeout retries w =
       Ret (r_result rep)
         (logged [EvPrintk "scsi_print_sense_hdr";
                  EvPrintk "ioctl_internal_command return code = %x";
                  EvExecuteReq req rep] w)).
Proof.
  intros abi K cmd timeout retries w req rep Hp Hv Hk.
  sense_facts abi.
  subst rep req. unfold scsi_sense_valid, internal_req in *.
  unfold ioctl_internal_command. run.
  set (rep := k_scsi_execute_req K w _) in *.
  rewrite Hp, Hv, Hk. simpl andb. cbv iota.
  decide_eqb (UNIT_ATTENTION abi) (ILLEGAL_REQUEST abi).
  decide_eqb (UNIT_ATTENTION abi) (NOT_READY abi).
  rewrite Z.eqb_refl.
  split; intros Hr; simpl; rewrite Hr.
  - eexists; split; [reflexivity|]. simpl. auto.
  - reflexivity.
Qed.

Lemma unit_attention_handling_witness :
  let K := sense_kernel (UNIT_ATTENTION linux_abi) in
  let w := demo_world (demo_sdev true true) (fun _ => None) in
  exists w',
    ioctl_internal_command linux_abi K start_unit_cdb 15000 5 w = Ret 0 w'
    /\ changed (w_sdev w') = true
    /\ w_sdev w' = set_changed true (w_sdev w)
    /\ w_trace w' =
       EvExecuteReq (internal_req start_unit_cdb 15000 5)
         (reply_sense (UNIT_ATTENTION linux_abi)) :: w_trace w.
Proof.
  intros K w.
  apply (unit_attention_handling linux_abi K start_unit_cdb 15000 5 w);
    reflexivity.
Defined.

(** C3, as the code has it.  When the sense data of an internally
    executed command is present and valid with sense key NOT READY, the
    call returns the result of the execution unchanged, on every device:
    on a removable device nothing else happens (no log line, no flag
    changes); on a device that is not removable the case falls through
    to the default handling, which logs the result. *)
Theorem not_ready_handling :
  forall abi K cmd timeout retries w,
    let req := internal_req cmd timeout retries in
    let rep := k_scsi_execute_req K w req in
    sense_present abi (r_result rep) = true ->
    scsi_sense_valid K (r_sshdr rep) = true ->
    sense_key (r_sshdr rep) = NOT_READY abi ->
    (removable (w_sdev w) = true ->
     ioctl_internal_command abi K cmd timeout retries w =
       Ret (r_result rep) (logged [EvExecuteReq req rep] w))
    /\
    (removable (w_sdev w) = false ->
     ioctl_internal_command abi K cmd timeout retries w =
       Ret (r_result rep)
         (logged [EvPrintk "scsi_print_sense_hdr";
                  EvPrintk "ioctl_internal_command return code = %x";
                  EvExecuteReq req rep] w)).
Proof.
  intros abi K cmd timeout retries w req rep Hp Hv Hk.
  sense_facts abi.
  subst rep req. unfold scsi_sense_valid, internal_req in *.
  unfold ioctl_internal_command. run.
  set (rep := k_scsi_execute_req K w _) in *.
  rewrite Hp, Hv, Hk. simpl andb. cbv iota.
  decide_eqb (NOT_READY abi) (ILLEGAL_REQUEST abi).
  rewrite Z.eqb_refl.
  split; intros Hr; simpl; rewrite Hr; simpl; rewrite ?Hr; reflexivity.
Qed.

Lemma not_ready_handling_witness :
  let K := sense_kernel (NOT_READY linux_abi) in
  let w := demo_world (demo_sdev true true) (fun _ => None) in
  ioctl_internal_command linux_abi K start_unit_cdb 15000 5 w =
    Ret 0x08000002
      (logged [EvExecuteReq (internal_req start_unit_cdb 15000 5)
                 (reply_sense (NOT_READY linux_abi))] w).
Proof.
  intros K w.
  apply (not_ready_handling linux_abi K start_unit_cdb 15000 5 w);
    reflexivity.
Defined.

(** C3 as stated fails: a removable device that answers START UNIT with
    a valid NOT READY sense makes the call return the check-condition
    result, not 0. *)
Lemma not_ready_removable_not_success :
  let K := sense_kernel (NOT_READY linux_abi) in
  let w := demo_world (demo_sdev true true) (fun _ => None) in
  let rep := k_scsi_execute_req K w (internal_req start_unit_cdb 15000 5) in
  sense_present linux_abi (r_result rep) = true
  /\ scsi_sense_valid K (r_sshdr rep) = true
  /\ sense_key (r_sshdr rep) = NOT_READY linux_abi
  /\ removable (w_sdev w) = true
  /\ ~ (exists w',
          ioctl_internal_command linux_abi K start_unit_cdb 15000 5 w
          = Ret 0 w').
Proof.
  intros K w rep. repeat split; try reflexivity.
  intros [w' H]. vm_compute in H. discriminate H.
Qed.

(** ** The error-recovery gate *)

(** C9, as the code has it.  A raw reset from a non-blocking caller
    returns -EAGAIN when the host is in recovery and 0 otherwise, without
    consulting the block-while-processing-errors predicate.  Every other
    call (any other command, and a raw reset from a blocking caller)
    consults the predicate and returns -ENODEV when it reports the
    device unusable and 0 otherwise. *)
Theorem recovery_gate :
  forall abi K cmd ndelay w,
    (cmd = SG_SCSI_RESET abi -> ndelay = true ->
     scsi_ioctl_block_when_processing_errors abi K cmd ndelay w =
       Ret (if k_scsi_host_in_recovery K w then - EAGAIN abi else 0) w)
    /\
    (cmd <> SG_SCSI_RESET abi \/ ndelay = false ->
     scsi_ioctl_block_when_processing_errors abi K cmd ndelay w =
       Ret (if fst (k_scsi_block_when_processing_errors K w)
            then 0 else - ENODEV abi)
           (snd (k_scsi_block_when_processing_errors K w))).
Proof.
  intros abi K cmd ndelay w. unfold scsi_ioctl_block_when_processing_errors.
  split.
  - intros -> ->. rewrite Z.eqb_refl. simpl.
    destruct (k_scsi_host_in_recovery K w); reflexivity.
  - intros H.
    assert ((cmd =? SG_SCSI_RESET abi) && ndelay = false) as ->.
    { destruct H as [H | ->]; [| apply andb_false_r].
      apply Z.eqb_neq in H. rewrite H. reflexivity. }
    run. destruct (k_scsi_block_when_processing_errors K w) as [[|] w'];
      reflexivity.
Qed.

Lemma recovery_gate_witness :
  let w := demo_world (demo_sdev false false) (fun _ => None) in
  scsi_ioctl_block_when_processing_errors linux_abi offline_kernel
    (SCSI_IOCTL_START_UNIT linux_abi) true w = Ret (- ENODEV linux_abi) w.
Proof.
  intros w.
  apply (recovery_gate linux_abi offline_kernel
           (SCSI_IOCTL_START_UNIT linux_abi) true w).
  left. discriminate.
Defined.

(** C9 as stated fails: the claim lets only commands other than the raw
    reset reach the offline check and promises 0 in all remaining cases,
    but a raw reset from a blocking caller on an offline device is
    answered with -ENODEV. *)
Lemma blocking_reset_offline_not_zero :
  let abi := linux_abi in
  let K := offline_kernel in
  let cmd := SG_SCSI_RESET linux_abi in
  let ndelay := false in
  let w := demo_world (demo_sdev false false) (fun _ => None) in
  let gate := scsi_ioctl_block_when_processing_errors abi K cmd ndelay w in
  let try_again :=
    cmd = SG_SCSI_RESET abi /\ ndelay = true
    /\ k_scsi_host_in_recovery K w = true in
  let offline :=
    cmd <> SG_SCSI_RESET abi
    /\ fst (k_scsi_block_when_processing_errors K w) = false in
  ~ ((try_again -> exists w', gate = Ret (- EAGAIN abi) w')
     /\ (offline -> exists w', gate = Ret (- ENODEV abi) w')
     /\ (~ try_again -> ~ offline -> exists w', gate = Ret 0 w')).
Proof.
  intros abi K cmd ndelay w gate try_again offline [_ [_ H]].
  destruct H as [w' H].
  - intros [_ [E _]]. discriminate E.
  - intros [E _]. apply E. reflexivity.
  - vm_compute in H. discriminate H.
Qed.

(** ** Medium removal *)

(** [ioctl_internal_command] always returns; it leaves [removable] and
    [locked] alone and user memory untouched. *)
Lemma ioctl_internal_command_returns abi K cmd timeout retries w :
  exists r w',
    ioctl_internal_command abi K cmd timeout retries w = Ret r w'
    /\ locked (w_sdev w') = locked (w_sdev w)
    /\ removable (w_sdev w') = removable (w_sdev w)
    /\ w_umem w' = w_umem w.
Proof.
  unfold ioctl_internal_command. run.
  set (rep := k_scsi_execute_req K w _).
  repeat match goal with
         | |- context [if ?c then _ else _] =>
             let E := fresh "E" in destruct c eqn:E; cbn
         end;
    try congruence; eauto 10.
Qed.

(** C8.  On a device that is not removable or not lockable a medium-lock
    request returns 0 at once and leaves the world as it was: nothing is
    added to the trace (no command is issued) and no flag changes.  The
    same holds for the two door commands of the dispatcher. *)
Theorem medium_lock_skipped :
  forall abi K state arg w,
    removable (w_sdev w) = false \/ lockable (w_sdev w) = false ->
    scsi_set_medium_removal abi K state w = Ret 0 w
    /\ scsi_ioctl abi K (SCSI_IOCTL_DOORLOCK abi) arg w = Ret 0 w
    /\ scsi_ioctl abi K (SCSI_IOCTL_DOORUNLOCK abi) arg w = Ret 0 w.
Proof.
  intros abi K state arg w H.
  assert (forall st, scsi_set_medium_removal abi K st w = Ret 0 w) as Hs.
  { intros st. unfold scsi_set_medium_removal. run.
    destruct H as [-> | ->]; simpl; rewrite ?orb_true_r; reflexivity. }
  split; [apply Hs|].
  code_facts abi.
  split; unfold scsi_ioctl, deprecated_ioctl; decide_all_eqb; simpl; run;
    apply Hs.
Qed.

Lemma medium_lock_skipped_witness :
  let K := sense_kernel (UNIT_ATTENTION linux_abi) in
  let w := demo_world (demo_sdev true false) (fun _ => None) in
  scsi_ioctl linux_abi K (SCSI_IOCTL_DOORLOCK linux_abi) 0 w = Ret 0 w.
Proof.
  intros K w.
  apply (medium_lock_skipped linux_abi K 1 0 w).
  right. reflexivity.
Defined.

(** C2.  On a removable, lockable device [scsi_set_medium_removal]
    executes the command once and returns what the sense interpreter
    makes of its result: the result of the execution, except that a
    result with valid UNIT ATTENTION sense is turned into 0 and the
    device marked changed.  When the executed command returned 0, and
    also when it returned a non-zero result with valid UNIT ATTENTION
    sense, the locked flag becomes the requested state (true for
    prevent, false for allow); for every other non-zero result the
    locked flag is unchanged and the result is passed on.  So the flag
    goes from false to true only with a prevent request whose command
    returned 0 or was answered with UNIT ATTENTION. *)
Theorem medium_lock_sets_locked :
  forall abi K state w,
    removable (w_sdev w) = true ->
    lockable (w_sdev w) = true ->
    let req := internal_req (medium_removal_cdb abi K state)
                 (IOCTL_NORMAL_TIMEOUT abi) NORMAL_RETRIES in
    let rep := k_scsi_execute_req K w req in
    let attention := sense_present abi (r_result rep)
                     && scsi_sense_valid K (r_sshdr rep)
                     && (sense_key (r_sshdr rep) =? UNIT_ATTENTION abi) in
    let ret := if attention then 0 else r_result rep in
    exists w1 w' logs,
      ioctl_internal_command abi K (medium_removal_cdb abi K state)
        (IOCTL_NORMAL_TIMEOUT abi) NORMAL_RETRIES w = Ret ret w1
      /\ scsi_set_medium_removal abi K state w = Ret ret w'
      /\ w_trace w' = logs ++ EvExecuteReq req rep :: w_trace w
      /\ (forall e, In e logs -> exists fmt, e = EvPrintk fmt)
      /\ (r_result rep = 0 ->
          ret = 0
          /\ locked (w_sdev w') = (state =? SCSI_REMOVAL_PREVENT abi))
      /\ (attention = true ->
          locked (w_sdev w') = (state =? SCSI_REMOVAL_PREVENT abi)
          /\ changed (w_sdev w') = true)
      /\ (r_result rep <> 0 -> attention = false ->
          ret = r_result rep
          /\ locked (w_sdev w') = locked (w_sdev w))
      /\ (ret = 0 -> state = SCSI_REMOVAL_PREVENT abi ->
          locked (w_sdev w') = true)
      /\ (ret = 0 -> state = SCSI_REMOVAL_ALLOW abi ->
          locked (w_sdev w') = false)
      /\ (locked (w_sdev w) = false -> locked (w_sdev w') = true ->
          state = SCSI_REMOVAL_PREVENT abi
          /\ (r_result rep = 0 \/ attention = true)).
Proof.
  intros abi K state w Hr Hl req rep attention ret.
  removal_facts abi. sense_facts abi.
  assert ((SCSI_REMOVAL_ALLOW abi =? SCSI_REMOVAL_PREVENT abi) = false)
    as Hap.
  { apply Z.eqb_neq. intros E. symmetry in E. revert E.
    apply Hne. simpl. tauto. }
  subst ret attention rep req.
  unfold scsi_set_medium_removal, ioctl_internal_command, scsi_sense_valid,
    internal_req.
  run. rewrite Hr, Hl. cbn [negb orb].
  set (rep := k_scsi_execute_req K w _).
  destruct (sense_present abi (r_result rep));
    destruct (k_scsi_sense_valid K (r_sshdr rep)); cbn [andb].
  1: destruct (Z.eqb_spec (sense_key (r_sshdr rep)) (UNIT_ATTENTION abi))
       as [Hua | Hua];
     [ rewrite Hua;
       decide_eqb (UNIT_ATTENTION abi) (ILLEGAL_REQUEST abi);
       decide_eqb (UNIT_ATTENTION abi) (NOT_READY abi);
       rewrite ?Z.eqb_refl
     | destruct (sense_key (r_sshdr rep) =? ILLEGAL_REQUEST abi);
       [ destruct (nth 0 (medium_removal_cdb abi K state) 0
                   =? ALLOW_MEDIUM_REMOVAL abi)
       | destruct (sense_key (r_sshdr rep) =? NOT_READY abi);
         [| apply Z.eqb_neq in Hua; rewrite ?Hua ] ] ].
  all: cbn [w_sdev removable]; rewrite ?Hr; cbn [w_sdev w_trace w_umem].
  all: destruct (Z.eqb_spec (r_result rep) 0) as [H0 | H0];
    rewrite ?Z.eqb_refl.
  all: eexists; eexists.
  all: first
    [ exists (@nil event); split; [reflexivity |]; split; [reflexivity |];
      split; [reflexivity |]
    | exists [EvPrintk "scsi_print_sense_hdr";
              EvPrintk "ioctl_internal_command return code = %x"];
      split; [reflexivity |]; split; [reflexivity |];
      split; [reflexivity |]
    | exists [EvPrintk "ioctl_internal_command: ILLEGAL REQUEST asc=0x%x ascq=0x%x"];
      split; [reflexivity |]; split; [reflexivity |];
      split; [reflexivity |] ].
  all: split;
    [ intros e Hin; cbn [In] in Hin;
      repeat (destruct Hin as [<- | Hin]; [eexists; reflexivity |]);
      contradiction |].
  all: cbn [w_sdev locked changed set_locked set_lockable set_changed].
  all: repeat split; intros; subst;
    rewrite ?Z.eqb_refl, ?Hap in *; auto; try congruence;
    try (apply Z.eqb_eq; assumption).
Qed.

Lemma medium_lock_sets_locked_witness :
  let K := sense_kernel (ILLEGAL_REQUEST linux_abi) in
  let w := demo_world (demo_sdev true true) (fun _ => None) in
  let req := internal_req (medium_removal_cdb linux_abi K 1)
               (IOCTL_NORMAL_TIMEOUT linux_abi) NORMAL_RETRIES in
  let rep := k_scsi_execute_req K w req in
  r_result rep <> 0
  /\ exists w1 w' logs,
      ioctl_internal_command linux_abi K (medium_removal_cdb linux_abi K 1)
        (IOCTL_NORMAL_TIMEOUT linux_abi) NORMAL_RETRIES w
      = Ret (r_result rep) w1
      /\ scsi_set_medium_removal linux_abi K 1 w = Ret (r_result rep) w'
      /\ w_trace w' = logs ++ EvExecuteReq req rep :: w_trace w
      /\ (forall e, In e logs -> exists fmt, e = EvPrintk fmt)
      /\ (r_result rep = 0 ->
          r_result rep = 0
          /\ locked (w_sdev w') = (1 =? SCSI_REMOVAL_PREVENT linux_abi))
      /\ (false = true ->
          locked (w_sdev w') = (1 =? SCSI_REMOVAL_PREVENT linux_abi)
          /\ changed (w_sdev w') = true)
      /\ (r_result rep <> 0 -> false = false ->
          r_result rep = r_result rep
          /\ locked (w_sdev w') = locked (w_sdev w))
      /\ (r_result rep = 0 -> 1 = SCSI_REMOVAL_PREVENT linux_abi ->
          locked (w_sdev w') = true)
      /\ (r_result rep = 0 -> 1 = SCSI_REMOVAL_ALLOW linux_abi ->
          locked (w_sdev w') = false)
      /\ (locked (w_sdev w) = false -> locked (w_sdev w') = true ->
          1 = SCSI_REMOVAL_PREVENT linux_abi
          /\ (r_result rep = 0 \/ false = true)).
Proof.
  intros K w req rep. split; [discriminate |].
  exact (medium_lock_sets_locked linux_abi K 1 w eq_refl eq_refl).
Defined.

(** C2 as stated fails: a removable, lockable, unlocked device that
    answers the prevent command with a check condition and valid UNIT
    ATTENTION sense ends up locked, although the executed command
    returned a non-zero result. *)
Lemma medium_lock_after_unit_attention :
  let K := sense_kernel (UNIT_ATTENTION linux_abi) in
  let w := demo_world (demo_sdev true true) (fun _ => None) in
  let state := SCSI_REMOVAL_PREVENT linux_abi in
  let req := internal_req (medium_removal_cdb linux_abi K state)
               (IOCTL_NORMAL_TIMEOUT linux_abi) NORMAL_RETRIES in
  let rep := k_scsi_execute_req K w req in
  let o := scsi_set_medium_removal linux_abi K state w in
  removable (w_sdev w) = true
  /\ lockable (w_sdev w) = true
  /\ locked (w_sdev w) = false
  /\ w_trace (final_world o) = [EvExecuteReq req rep]
  /\ r_result rep <> 0
  /\ ~ (r_result rep <> 0 ->
        locked (w_sdev (final_world o)) = locked (w_sdev w)).
Proof.
  intros K w state req rep o. repeat split; try reflexivity.
  - discriminate.
  - intros H. assert (r_result rep <> 0) as Hne by discriminate.
    apply H in Hne. vm_compute in Hne. discriminate Hne.
Qed.

(** ** The dispatcher *)

Lemma ascii_code_diff c1 c2 :
  Ascii.eqb c1 c2 = false ->
  Z.of_nat (nat_of_ascii c1) - Z.of_nat (nat_of_ascii c2) <> 0.
Proof.
  intros H E.
  assert (nat_of_ascii c1 = nat_of_ascii c2) as E' by lia.
  apply (f_equal ascii_of_nat) in E'.
  rewrite !ascii_nat_embedding in E'. subst c2.
  rewrite Ascii.eqb_refl in H. discriminate.
Qed.

(** Comparing as many bytes as the pattern has is a prefix test. *)
Lemma strncmp_prefix p :
  no_nul p = true ->
  forall s, strncmp s p (String.length p) = 0 <-> String.prefix p s = true.
Proof.
  induction p as [| c p IH]; intros Hp s.
  - simpl. destruct s; tauto.
  - simpl in Hp. apply andb_true_iff in Hp. destruct Hp as [Hc Hp].
    apply negb_true_iff in Hc.
    destruct s as [| a s]; simpl.
    + split; [| discriminate].
      intros E. exfalso. apply (ascii_code_diff c zero Hc).
      simpl. lia.
    + destruct (Ascii.eqb_spec a c) as [-> | Hac].
      * destruct (ascii_dec c c) as [_ | N]; [| contradiction].
        apply IH. assumption.
      * destruct (ascii_dec c a) as [E | _]; [symmetry in E; contradiction|].
        split; [| discriminate].
        intros E. exfalso. revert E. apply ascii_code_diff.
        apply Ascii.eqb_neq. assumption.
Qed.

(** C5.  A raw reset on a device whose host template's name matches
    "ufshcd" (the comparison covers the six bytes of that name, so it is
    a prefix test; the name "ufshcd" itself matches) returns -EINVAL and
    leaves the world as it was, whatever the recovery state and the
    other collaborators are; with any other name the request goes to
    [scsi_ioctl_reset], whose result is returned. *)
Theorem reset_rejected_for_ufshcd :
  forall abi K arg w nm,
    name (hostt K) = Some nm ->
    (strncmp nm "ufshcd" 6 = 0 <-> String.prefix "ufshcd" nm = true)
    /\ (nm = "ufshcd"%string ->
        scsi_ioctl abi K (SG_SCSI_RESET abi) arg w = Ret (- EINVAL abi) w)
    /\ (String.prefix "ufshcd" nm = true ->
        scsi_ioctl abi K (SG_SCSI_RESET abi) arg w = Ret (- EINVAL abi) w)
    /\ (String.prefix "ufshcd" nm = false ->
        scsi_ioctl abi K (SG_SCSI_RESET abi) arg w =
          Ret (fst (k_scsi_ioctl_reset K arg w))
              (snd (k_scsi_ioctl_reset K arg w))).
Proof.
  intros abi K arg w nm Hnm.
  pose proof (strncmp_prefix "ufshcd" eq_refl nm) as Hpre.
  change (String.length "ufshcd") with 6%nat in Hpre.
  assert (forall b, String.prefix "ufshcd" nm = b ->
            scsi_ioctl abi K (SG_SCSI_RESET abi) arg w =
              if b then Ret (- EINVAL abi) w
              else Ret (fst (k_scsi_ioctl_reset K arg w))
                       (snd (k_scsi_ioctl_reset K arg w))) as Hrun.
  { intros b Hb. code_facts abi.
    unfold scsi_ioctl, deprecated_ioctl. decide_all_eqb. simpl. run.
    rewrite Hnm.
    destruct (Z.eqb_spec (strncmp nm "ufshcd" 6) 0) as [Hs | Hs].
    - apply Hpre in Hs. rewrite Hs in Hb. subst b. reflexivity.
    - destruct b.
      + exfalso. apply Hs, Hpre, Hb.
      + destruct (k_scsi_ioctl_reset K arg w). reflexivity. }
  split; [exact Hpre|].
  split; [| split].
  - intros ->. apply (Hrun true). reflexivity.
  - apply (Hrun true).
  - apply (Hrun false).
Qed.

Lemma reset_rejected_for_ufshcd_witness :
  let w := demo_world (demo_sdev false false) (fun _ => None) in
  scsi_ioctl linux_abi ufshcd_kernel (SG_SCSI_RESET linux_abi) 0 w
  = Ret (- EINVAL linux_abi) w.
Proof.
  intros w.
  apply (reset_rejected_for_ufshcd linux_abi ufshcd_kernel 0 w "ufshcd");
    reflexivity.
Defined.

(** C6, as the code has it.  A command code that is none of the case
    labels goes to the host template's [ioctl] handler when there is
    one, and the handler's result is returned; when there is none the
    dispatcher returns -EINVAL (InvalidArgument). *)
Theorem unrecognized_code_dispatch :
  forall abi K cmd arg w,
    ~ In cmd (recognized_codes abi) ->
    let w0 := after_deprecation_check abi cmd w in
    (forall handler,
        ioctl (hostt K) = Some handler ->
        scsi_ioctl abi K cmd arg w =
          Ret (fst (handler cmd arg w0)) (snd (handler cmd arg w0)))
    /\ (ioctl (hostt K) = None ->
        scsi_ioctl abi K cmd arg w = Ret (- EINVAL abi) w0
        /\ error_kind_of abi (- EINVAL abi) <> Some NotSupported).
Proof.
  intros abi K cmd arg w Hcmd w0.
  assert (scsi_ioctl abi K cmd arg w =
          match ioctl (hostt K) with
          | Some handler =>
              Ret (fst (handler cmd arg w0)) (snd (handler cmd arg w0))
          | None => Ret (- EINVAL abi) w0
          end) as Hrun.
  { unfold scsi_ioctl. unfold recognized_codes in Hcmd.
    repeat match goal with
           | |- context [cmd =? ?b] =>
               destruct (Z.eqb_spec cmd b) as [Heq | _];
               [exfalso; apply Hcmd; rewrite Heq; simpl; tauto |]
           end.
    subst w0. unfold after_deprecation_check.
    destruct (deprecated_ioctl abi cmd); simpl; run;
      destruct (ioctl (hostt K)) as [h |]; try reflexivity.
    - match goal with |- context [h cmd arg ?x] => destruct (h cmd arg x) end.
      reflexivity.
    - destruct (h cmd arg w). reflexivity. }
  split.
  - intros handler Hh. rewrite Hrun, Hh. reflexivity.
  - intros Hn. rewrite Hrun, Hn. split; [reflexivity|].
    unfold error_kind_of.
    destruct (- EINVAL abi =? - EFAULT abi); [discriminate|].
    rewrite Z.eqb_refl. discriminate.
Qed.

Lemma unrecognized_code_dispatch_witness :
  let w := demo_world (demo_sdev false false) (fun _ => None) in
  scsi_ioctl linux_abi good_kernel 0x9999 0 w = Ret (- EINVAL linux_abi) w.
Proof.
  intros w.
  apply (unrecognized_code_dispatch linux_abi good_kernel 0x9999 0 w).
  - simpl. intuition discriminate.
  - reflexivity.
Defined.

(** C6 as stated fails: with no handler registered an unrecognized code
    is answered with -EINVAL, which is InvalidArgument and not
    NotSupported. *)
Lemma unrecognized_code_not_notsupported :
  let w := demo_world (demo_sdev false false) (fun _ => None) in
  ~ In 0x9999 (recognized_codes linux_abi)
  /\ ioctl (hostt good_kernel) = None
  /\ error_kind_of linux_abi (- EINVAL linux_abi) = Some InvalidArgument
  /\ ~ (exists r w',
          scsi_ioctl linux_abi good_kernel 0x9999 0 w = Ret r w'
          /\ error_kind_of linux_abi r = Some NotSupported).
Proof.
  intros w. split; [simpl; intuition discriminate|].
  split; [reflexivity|]. split; [reflexivity|].
  intros (r & w' & Hrun & Hkind).
  vm_compute in Hrun. injection Hrun as Hr _. subst r.
  vm_compute in Hkind. discriminate Hkind.
Qed.

(** ** The security-protocol descriptor *)

Lemma land_255 x : Z.land x 255 = x mod 256.
Proof. change 255 with (Z.ones 8). rewrite Z.land_ones by lia. reflexivity. Qed.

Lemma be32_of_bytes t :
  be_decode [(t / 2 ^ 24) mod 256; (t / 2 ^ 16) mod 256;
             (t / 2 ^ 8) mod 256; t mod 256] = u32 t.
Proof.
  unfold be_decode, u32. cbn [fold_left].
  change (2 ^ 24) with (256 * (256 * 256)).
  change (2 ^ 16) with (256 * 256). change (2 ^ 8) with 256.
  rewrite <- !Z.div_div by lia.
  change 4294967296 with (256 * (256 * (256 * 256))).
  rewrite !Z.rem_mul_r by lia.
  ring.
Qed.

Lemma store_repeat_12 (n : nat) (b0 b1 b2 b3 b4 b5 b6 b7 b8 b9 b10 b11 : Z) :
  (12 <= n)%nat ->
  firstn 12
    (store 11 b11 (store 10 b10 (store 9 b9 (store 8 b8 (store 7 b7
      (store 6 b6 (store 5 b5 (store 4 b4 (store 3 b3 (store 2 b2
        (store 1 b1 (store 0 b0 (memset0 n)))))))))))))
  = [b0; b1; b2; b3; b4; b5; b6; b7; b8; b9; b10; b11].
Proof.
  intros Hn.
  replace n with (12 + (n - 12))%nat by lia.
  unfold memset0. rewrite repeat_app. reflexivity.
Qed.

(** C7.  The descriptor built for a security-protocol command with
    transfer length [t_len]: byte 0 is SECURITY_PROTOCOL_IN for the in
    command and SECURITY_PROTOCOL_OUT otherwise, byte 1 the protocol id,
    bytes 2-3 the 16-bit protocol-specific value and bytes 6-9 the low
    32 bits of [t_len], both most significant byte first, bytes 4-5 and
    10-11 zero.  The dispatcher hands exactly this descriptor, for the
    length it reads from the caller's header, to
    [ioctl_secu_prot_command]. *)
Theorem secu_prot_cdb_layout :
  forall abi cmd t_len,
    (12 <= MAX_COMMAND_SIZE abi)%nat ->
    0 <= SECURITY_PROTOCOL_IN abi < 256 ->
    0 <= SECURITY_PROTOCOL_OUT abi < 256 ->
    0 <= SECU_PROT_UFS abi < 256 ->
    0 <= SECU_PROT_SPEC_CERT_DATA abi < 65536 ->
    let cdb := secu_prot_cdb abi cmd t_len in
    let opcode := if cmd =? SCSI_IOCTL_SECURITY_PROTOCOL_IN abi
                  then SECURITY_PROTOCOL_IN abi
                  else SECURITY_PROTOCOL_OUT abi in
    let prot_spec := SECU_PROT_SPEC_CERT_DATA abi in
    firstn 12 cdb =
      [opcode; SECU_PROT_UFS abi;
       prot_spec / 256; prot_spec mod 256;
       0; 0;
       (t_len / 2 ^ 24) mod 256; (t_len / 2 ^ 16) mod 256;
       (t_len / 2 ^ 8) mod 256; t_len mod 256;
       0; 0]
    /\ be_decode (firstn 2 (skipn 2 cdb)) = prot_spec
    /\ be_decode (firstn 4 (skipn 6 cdb)) = u32 t_len
    /\ (forall K arg w handler bs,
          cmd = SCSI_IOCTL_SECURITY_PROTOCOL_IN abi
          \/ cmd = SCSI_IOCTL_SECURITY_PROTOCOL_OUT abi ->
          (wlun_clr_uac (host (w_sdev w)) = true ->
           ioctl (hostt K) = Some handler) ->
          let w1 := if wlun_clr_uac (host (w_sdev w))
                    then snd (handler (SCSI_UFS_REQUEST_SENSE abi) 0 w)
                    else w in
          read_bytes (w_umem w1)
            (if cmd =? SCSI_IOCTL_SECURITY_PROTOCOL_IN abi
             then arg else arg + 4) 4 = Some bs ->
          t_len = le_decode bs ->
          scsi_ioctl abi K cmd arg w =
            ioctl_secu_prot_command abi K cdb cmd arg
              (START_STOP_TIMEOUT abi) NORMAL_RETRIES w1).
Proof.
  intros abi cmd t_len Hn Hin Hout Hufs Hspec cdb opcode prot_spec.
  assert (firstn 12 cdb =
      [opcode; SECU_PROT_UFS abi;
       prot_spec / 256; prot_spec mod 256;
       0; 0;
       (t_len / 2 ^ 24) mod 256; (t_len / 2 ^ 16) mod 256;
       (t_len / 2 ^ 8) mod 256; t_len mod 256;
       0; 0]) as Hlayout.
  { subst cdb. unfold secu_prot_cdb. cbv zeta.
    rewrite store_repeat_12 by assumption.
    rewrite !land_255. unfold u8, u16. rewrite !Z.shiftr_div_pow2 by lia.
    rewrite !Z.mod_mod by lia.
    fold prot_spec.
    rewrite (Z.mod_small prot_spec 65536) by assumption.
    rewrite (Z.mod_small (SECU_PROT_UFS abi)) by assumption.
    rewrite (Z.mod_small (prot_spec / 2 ^ 8) 256)
      by (change (2 ^ 8) with 256; split;
          [apply Z.div_pos; lia | apply Z.div_lt_upper_bound; lia]).
    replace (_ mod 256) with opcode
      by (subst opcode; destruct (cmd =? _); symmetry; apply Z.mod_small;
          assumption).
    reflexivity. }
  assert (forall k l, firstn k (skipn l cdb)
                      = firstn k (skipn l (firstn 12 cdb))
                    \/ (12 < l + k)%nat) as Hsub.
  { intros k l. destruct (Nat.le_gt_cases (l + k) 12) as [Hle | Hgt];
      [left | right; assumption].
    rewrite !firstn_skipn_comm, firstn_firstn.
    f_equal. f_equal. lia. }
  split; [exact Hlayout|].
  split; [| split].
  - destruct (Hsub 2%nat 2%nat) as [-> | H]; [| simpl in H; lia].
    rewrite Hlayout. unfold be_decode. cbn [firstn skipn fold_left].
    pose proof (Z.div_mod prot_spec 256 ltac:(lia)). lia.
  - destruct (Hsub 4%nat 6%nat) as [-> | H]; [| simpl in H; lia].
    rewrite Hlayout. cbn [firstn skipn]. apply be32_of_bytes.
  - intros K arg w handler bs Hcmd Hh w1 Hread Ht.
    code_facts abi. subst cdb w1.
    unfold scsi_ioctl, deprecated_ioctl.
    destruct Hcmd as [-> | ->].
    + rewrite Z.eqb_refl in Hread.
      decide_all_eqb; cbn [orb negb andb]; unfold deref_user32; run.
      destruct (wlun_clr_uac (host (w_sdev w)));
        [rewrite (Hh eq_refl);
         destruct (handler (SCSI_UFS_REQUEST_SENSE abi) 0 w) as [x w1];
         cbn [snd] in Hread |];
        rewrite Hread, Ht; reflexivity.
    + assert ((SCSI_IOCTL_SECURITY_PROTOCOL_OUT abi
               =? SCSI_IOCTL_SECURITY_PROTOCOL_IN abi) = false) as Hio
        by (decide_all_eqb; reflexivity).
      rewrite Hio in Hread.
      decide_all_eqb; cbn [orb negb andb]; unfold deref_user32; run.
      destruct (wlun_clr_uac (host (w_sdev w)));
        [rewrite (Hh eq_refl);
         destruct (handler (SCSI_UFS_REQUEST_SENSE abi) 0 w) as [x w1];
         cbn [snd] in Hread |];
        rewrite Hread, Ht; reflexivity.
Qed.

Lemma secu_prot_cdb_layout_witness :
  firstn 12 (secu_prot_cdb linux_abi
               (SCSI_IOCTL_SECURITY_PROTOCOL_IN linux_abi) 0x01020304)
  = [0xa2; 0xec; 0x00; 0x01; 0; 0; 0x01; 0x02; 0x03; 0x04; 0; 0].
Proof.
  apply (secu_prot_cdb_layout linux_abi
           (SCSI_IOCTL_SECURITY_PROTOCOL_IN linux_abi) 0x01020304);
    simpl; lia.
Defined.

(** ** The security-protocol transfer *)

Lemma read_bytes_length m n :
  forall a bs, read_bytes m a n = Some bs -> List.length bs = n.
Proof.
  induction n as [| n IH]; intros a bs; simpl.
  - intros [= <-]. reflexivity.
  - destruct (m a); [| discriminate].
    destruct (read_bytes m (a + 1) n) eqn:E; [| discriminate].
    intros [= <-]. simpl. f_equal. eapply IH. eassumption.
Qed.

Lemma dma_fill_length data buf :
  List.length (dma_fill data buf) = List.length buf.
Proof.
  unfold dma_fill.
  rewrite length_firstn, length_app, length_skipn. lia.
Qed.

(** Writes do not reach below their start address. *)
Lemma write_bytes_below bs :
  forall m a x, x < a -> fst (write_bytes m a bs) x = m x.
Proof.
  induction bs as [| b r IH]; intros m a x Hx; simpl; [reflexivity|].
  destruct (m a); [| reflexivity].
  rewrite IH by lia. unfold poke.
  destruct (Z.eqb_spec x a); [lia | reflexivity].
Qed.

(** What a complete write has written can be read back. *)
Lemma read_after_write bs :
  forall m a,
    snd (write_bytes m a bs) = true ->
    read_bytes (fst (write_bytes m a bs)) a (List.length bs) = Some bs.
Proof.
  induction bs as [| b r IH]; intros m a Hok; simpl in *; [reflexivity|].
  destruct (m a); [| discriminate].
  rewrite write_bytes_below by lia.
  unfold poke at 1. rewrite Z.eqb_refl.
  rewrite IH by assumption. reflexivity.
Qed.

(** A write touches nothing outside the range it covers. *)
Lemma write_bytes_outside bs :
  forall m a x,
    x < a \/ a + Z.of_nat (List.length bs) <= x ->
    fst (write_bytes m a bs) x = m x.
Proof.
  induction bs as [| b r IH]; intros m a x Hx; simpl; [reflexivity|].
  destruct (m a); [| reflexivity].
  simpl List.length in Hx.
  rewrite IH by lia. unfold poke.
  destruct (Z.eqb_spec x a); [lia | reflexivity].
Qed.

(** Mapping decides whether a write completes. *)
Lemma read_bytes_ext n :
  forall m m' a,
    (forall x, a <= x < a + Z.of_nat n -> m x = m' x) ->
    read_bytes m a n = read_bytes m' a n.
Proof.
  induction n as [| n IH]; intros m m' a H; [reflexivity|].
  cbn [read_bytes]. rewrite (H a) by lia.
  rewrite (IH m m' (a + 1)) by (intros x Hx; apply H; lia).
  reflexivity.
Qed.

Lemma write_bytes_mapped bs :
  forall m a old,
    read_bytes m a (List.length bs) = Some old ->
    snd (write_bytes m a bs) = true.
Proof.
  induction bs as [| b r IH]; intros m a old H; [reflexivity|].
  cbn [List.length read_bytes] in H. cbn [write_bytes].
  destruct (m a) eqn:Ha; [| discriminate].
  destruct (read_bytes m (a + 1) (List.length r)) as [old' |] eqn:Hr;
    [| discriminate].
  apply (IH _ _ old').
  rewrite <- Hr. apply read_bytes_ext. intros x Hx. unfold poke.
  destruct (Z.eqb_spec x a); [lia | reflexivity].
Qed.

Lemma write_bytes_unmapped bs :
  forall m a,
    read_bytes m a (List.length bs) = None ->
    snd (write_bytes m a bs) = false.
Proof.
  induction bs as [| b r IH]; intros m a H; [discriminate|].
  cbn [List.length read_bytes] in H. cbn [write_bytes].
  destruct (m a) eqn:Ha; [| reflexivity].
  apply IH.
  destruct (read_bytes m (a + 1) (List.length r)) as [old' |] eqn:Hr;
    [discriminate|].
  rewrite <- Hr. apply read_bytes_ext. intros x Hx. unfold poke.
  destruct (Z.eqb_spec x a); [lia | reflexivity].
Qed.

Lemma bufflen_check_valid L :
  0 < L <= MAX_BUFFLEN -> (L <=? 0) || (L >? MAX_BUFFLEN) = false.
Proof.
  intros H. apply orb_false_iff. split; [apply Z.leb_gt; lia|].
  rewrite Z.gtb_ltb. apply Z.ltb_ge. lia.
Qed.

Lemma bufflen_check_invalid L :
  L <= 0 \/ L > MAX_BUFFLEN -> (L <=? 0) || (L >? MAX_BUFFLEN) = true.
Proof.
  intros H. apply orb_true_iff. rewrite Z.gtb_ltb.
  destruct H; [left; apply Z.leb_le | right; apply Z.ltb_lt]; lia.
Qed.

(** The whole run of a security-protocol-in transfer of valid length,
    when the two allocations succeed. *)
Lemma secu_prot_in_outcome abi K cmd arg timeout retries w bytes :
  k_alloc_ok K (w_trace w) sizeof_Scsi_Ioctl_Command = true ->
  user_read K (w_umem w) arg sizeof_Scsi_Ioctl_Command = Some bytes ->
  let L := inlen (decode_Scsi_Ioctl_Command bytes) in
  0 < L <= MAX_BUFFLEN ->
  k_alloc_ok K (header_events arg ++ w_trace w) L = true ->
  let req := {| x_cmd := cmd; x_dir := DMA_FROM_DEVICE;
                x_buf := Some (repeat 0 (Z.to_nat L)); x_bufflen := L;
                x_timeout := timeout; x_retries := retries |} in
  let rep := k_scsi_execute_req K
               (logged (EvKzalloc L true :: header_events arg) w) req in
  let data := dma_fill (r_data rep) (repeat 0 (Z.to_nat L)) in
  let wr := user_write K (w_umem w) (arg + sizeof_Scsi_Ioctl_Command) data in
  ioctl_secu_prot_command abi K cmd (SCSI_IOCTL_SECURITY_PROTOCOL_IN abi)
    arg timeout retries w =
  Ret (if snd wr then r_result rep else - EFAULT abi)
    {| w_sdev := w_sdev w;
       w_umem := fst wr;
       w_trace :=
         [EvKfree (Some sizeof_Scsi_Ioctl_Command); EvKfree (Some L)]
         ++ (if snd wr then sense_log abi K rep
             else [EvPrintk "copy_to_user failed"])
         ++ [EvCopyToUser (arg + sizeof_Scsi_Ioctl_Command) data (snd wr);
             EvExecuteReq req rep; EvKzalloc L true]
         ++ header_events arg ++ w_trace w |}.
Proof.
  intros Hk Hh L HL Hz req rep data wr.
  assert (List.length data = Z.to_nat L) as Hlen
    by (subst data; rewrite dma_fill_length; apply repeat_length).
  unfold ioctl_secu_prot_command, copy_from_user, copy_to_user. run.
  unfold header_events in *. cbn [app] in Hz.
  rewrite Hk. cbn [negb w_umem w_trace w_sdev].
  rewrite Hh. fold L. rewrite Z.eqb_refl.
  rewrite (bufflen_check_valid L HL).
  cbn [w_umem w_trace w_sdev]. rewrite Hz.
  cbn [option_map w_umem w_trace w_sdev].
  change (k_scsi_execute_req K _ _) with rep.
  change (dma_fill (r_data rep) _) with data.
  assert (firstn (Z.to_nat L) data = data) as ->
    by (rewrite <- Hlen; apply firstn_all).
  change (user_write K (w_umem w) _ data) with wr.
  destruct wr as [m' ok]. cbn [fst snd w_umem w_trace w_sdev].
  rewrite Hlen, Z2Nat.id by lia.
  unfold sense_log, scsi_sense_valid.
  destruct ok; cbn [negb]; [| reflexivity].
  destruct (sense_present abi (r_result rep)
            && k_scsi_sense_valid K (r_sshdr rep)); reflexivity.
Qed.

(** The whole run of a security-protocol-out transfer of valid length,
    when the two allocations and the copy of the data succeed. *)
Lemma secu_prot_out_outcome abi K cmd arg timeout retries w bytes bs :
  k_alloc_ok K (w_trace w) sizeof_Scsi_Ioctl_Command = true ->
  user_read K (w_umem w) arg sizeof_Scsi_Ioctl_Command = Some bytes ->
  let L := outlen (decode_Scsi_Ioctl_Command bytes) in
  0 < L <= MAX_BUFFLEN ->
  k_alloc_ok K (header_events arg ++ w_trace w) L = true ->
  user_read K (w_umem w) (arg + sizeof_Scsi_Ioctl_Command) L = Some bs ->
  let req := {| x_cmd := cmd; x_dir := DMA_TO_DEVICE;
                x_buf := Some bs; x_bufflen := L;
                x_timeout := timeout; x_retries := retries |} in
  let copied :=
    [EvCopyFromUser (arg + sizeof_Scsi_Ioctl_Command) L true;
     EvKzalloc L true] in
  let rep := k_scsi_execute_req K
               (logged (copied ++ header_events arg) w) req in
  ioctl_secu_prot_command abi K cmd (SCSI_IOCTL_SECURITY_PROTOCOL_OUT abi)
    arg timeout retries w =
  Ret (r_result rep)
    (logged ([EvKfree (Some sizeof_Scsi_Ioctl_Command); EvKfree (Some L)]
             ++ sense_log abi K rep
             ++ [EvExecuteReq req rep] ++ copied ++ header_events arg) w).
Proof.
  intros Hk Hh L HL Hz Hd req copied rep.
  assert (List.length bs = Z.to_nat L) as Hlen.
  { unfold user_read in Hd. destruct (access_ok K _ _); [| discriminate].
    eapply read_bytes_length. eassumption. }
  assert ((SCSI_IOCTL_SECURITY_PROTOCOL_OUT abi
           =? SCSI_IOCTL_SECURITY_PROTOCOL_IN abi) = false) as Hio
    by (code_facts abi; decide_all_eqb; reflexivity).
  unfold ioctl_secu_prot_command, copy_from_user, copy_to_user. run.
  unfold header_events in *. cbn [app] in Hz.
  rewrite Hk. cbn [negb w_umem w_trace w_sdev].
  rewrite Hh. fold L. rewrite Hio, Z.eqb_refl.
  rewrite (bufflen_check_valid L HL).
  cbn [w_umem w_trace w_sdev]. rewrite Hz.
  cbn [w_umem w_trace w_sdev]. rewrite Hd.
  cbn [option_map w_umem w_trace w_sdev].
  change (k_scsi_execute_req K _ _) with rep.
  rewrite Hlen, Z2Nat.id by lia.
  unfold sense_log, scsi_sense_valid.
  destruct (sense_present abi (r_result rep)
            && k_scsi_sense_valid K (r_sshdr rep)); reflexivity.
Qed.

(** A length that fails the check ends the call with -EFAULT before any
    data buffer exists. *)
Lemma secu_prot_bad_length abi K cmd prot arg timeout retries w bytes L :
  k_alloc_ok K (w_trace w) sizeof_Scsi_Ioctl_Command = true ->
  user_read K (w_umem w) arg sizeof_Scsi_Ioctl_Command = Some bytes ->
  (prot = SCSI_IOCTL_SECURITY_PROTOCOL_IN abi
   /\ L = inlen (decode_Scsi_Ioctl_Command bytes))
  \/ (prot = SCSI_IOCTL_SECURITY_PROTOCOL_OUT abi
      /\ L = outlen (decode_Scsi_Ioctl_Command bytes)) ->
  L <= 0 \/ L > MAX_BUFFLEN ->
  ioctl_secu_prot_command abi K cmd prot arg timeout retries w =
  Ret (- EFAULT abi)
    (logged (EvKfree (Some sizeof_Scsi_Ioctl_Command)
             :: EvPrintk "Invalid bufflen : %x" :: header_events arg) w).
Proof.
  intros Hk Hh Hprot HL.
  assert ((SCSI_IOCTL_SECURITY_PROTOCOL_OUT abi
           =? SCSI_IOCTL_SECURITY_PROTOCOL_IN abi) = false) as Hio
    by (code_facts abi; decide_all_eqb; reflexivity).
  unfold ioctl_secu_prot_command, copy_from_user. run.
  unfold header_events.
  rewrite Hk. cbn [negb w_umem w_trace w_sdev]. rewrite Hh.
  destruct Hprot as [[-> ->] | [-> ->]].
  - rewrite Z.eqb_refl, (bufflen_check_invalid _ HL). reflexivity.
  - rewrite Hio, Z.eqb_refl, (bufflen_check_invalid _ HL). reflexivity.
Qed.

(** C1, as the code has it.  Once the header has been allocated and
    read, with [L] the length it declares for the direction of the
    command: when [L] is 0 or exceeds MAX_BUFFLEN the call returns
    -EFAULT (BadAddress) and its trace shows the header being released
    and no data buffer being allocated; when 0 < L <= MAX_BUFFLEN, the
    buffer allocation succeeds and (for the out direction) the [L] data
    bytes are readable, the transfer proceeds with exactly [L] bytes in
    the declared direction. *)
Theorem secu_prot_length_validation :
  forall abi K cmd prot dir arg timeout retries w bytes L,
    k_alloc_ok K (w_trace w) sizeof_Scsi_Ioctl_Command = true ->
    user_read K (w_umem w) arg sizeof_Scsi_Ioctl_Command = Some bytes ->
    (prot = SCSI_IOCTL_SECURITY_PROTOCOL_IN abi
     /\ dir = DMA_FROM_DEVICE
     /\ L = inlen (decode_Scsi_Ioctl_Command bytes))
    \/ (prot = SCSI_IOCTL_SECURITY_PROTOCOL_OUT abi
        /\ dir = DMA_TO_DEVICE
        /\ L = outlen (decode_Scsi_Ioctl_Command bytes)) ->
    let run := ioctl_secu_prot_command abi K cmd prot arg timeout retries w in
    (L <= 0 \/ L > MAX_BUFFLEN ->
     let evs := EvKfree (Some sizeof_Scsi_Ioctl_Command)
                :: EvPrintk "Invalid bufflen : %x" :: header_events arg in
     run = Ret (- EFAULT abi) (logged evs w)
     /\ (forall n ok, ~ In (EvKzalloc n ok) evs)
     /\ (forall req rep, ~ In (EvExecuteReq req rep) evs))
    /\
    (0 < L <= MAX_BUFFLEN ->
     k_alloc_ok K (header_events arg ++ w_trace w) L = true ->
     (dir = DMA_TO_DEVICE ->
      exists bs,
        user_read K (w_umem w) (arg + sizeof_Scsi_Ioctl_Command) L
        = Some bs) ->
     transfer_proceeds K cmd dir arg L w run).
Proof.
  intros abi K cmd prot dir arg timeout retries w bytes L Hk Hh Hprot run.
  split.
  - intros HL evs. subst run evs. split.
    + apply secu_prot_bad_length with (bytes := bytes) (L := L); auto.
      tauto.
    + split; intros; simpl; intuition discriminate.
  - intros HL Hz Hd. subst run. unfold transfer_proceeds.
    destruct Hprot as [(-> & -> & ->) | (-> & -> & ->)].
    + rewrite (secu_prot_in_outcome abi K cmd arg timeout retries w bytes
                 Hk Hh HL Hz).
      set (zeros := repeat 0 _).
      set (req := {| x_cmd := cmd |}).
      set (rep := k_scsi_execute_req K _ req).
      set (data := dma_fill _ _).
      set (wr := user_write K _ _ data).
      exists (if snd wr then r_result rep else - EFAULT abi).
      eexists. exists req, rep, zeros.
      exists ([EvKfree (Some sizeof_Scsi_Ioctl_Command);
               EvKfree (Some (inlen (decode_Scsi_Ioctl_Command bytes)))]
              ++ (if snd wr then sense_log abi K rep
                  else [EvPrintk "copy_to_user failed"])
              ++ [EvCopyToUser (arg + sizeof_Scsi_Ioctl_Command) data (snd wr)]).
      exists (EvKzalloc (inlen (decode_Scsi_Ioctl_Command bytes)) true
              :: header_events arg).
      split; [reflexivity|].
      split; [cbn [w_trace]; rewrite <- !app_assoc; reflexivity|].
      assert (Z.of_nat (List.length zeros)
              = inlen (decode_Scsi_Ioctl_Command bytes)) as Hzl
        by (subst zeros; rewrite repeat_length; apply Z2Nat.id; lia).
      repeat split; auto; try discriminate.
      * left. reflexivity.
      * intros _. exists data, (snd wr). split.
        -- apply in_or_app. right. apply in_or_app. right. left. reflexivity.
        -- subst data. rewrite dma_fill_length. exact Hzl.
    + destruct (Hd eq_refl) as [bs Hbs].
      rewrite (secu_prot_out_outcome abi K cmd arg timeout retries w bytes
                 bs Hk Hh HL Hz Hbs).
      set (req := {| x_cmd := cmd |}).
      set (rep := k_scsi_execute_req K _ req).
      exists (r_result rep). eexists. exists req, rep, bs.
      exists ([EvKfree (Some sizeof_Scsi_Ioctl_Command);
               EvKfree (Some (outlen (decode_Scsi_Ioctl_Command bytes)))]
              ++ sense_log abi K rep).
      exists ([EvCopyFromUser (arg + sizeof_Scsi_Ioctl_Command)
                 (outlen (decode_Scsi_Ioctl_Command bytes)) true;
               EvKzalloc (outlen (decode_Scsi_Ioctl_Command bytes)) true]
              ++ header_events arg).
      split; [reflexivity|].
      split; [unfold logged; cbn [w_trace]; rewrite <- !app_assoc;
              reflexivity|].
      assert (Z.of_nat (List.length bs)
              = outlen (decode_Scsi_Ioctl_Command bytes)) as Hbl.
      { unfold user_read in Hbs. destruct (access_ok K _ _); [| discriminate].
        apply read_bytes_length in Hbs. rewrite Hbs. apply Z2Nat.id. lia. }
      repeat split; auto; try discriminate.
      * right. left. reflexivity.
      * left. reflexivity.
Qed.

Lemma secu_prot_length_validation_witness :
  let cmd := SCSI_IOCTL_SECURITY_PROTOCOL_OUT linux_abi in
  let w := demo_request 0 4 in
  transfer_proceeds good_kernel (demo_cdb cmd 4) DMA_TO_DEVICE 4096 4 w
    (ioctl_secu_prot_command linux_abi good_kernel (demo_cdb cmd 4) cmd
       4096 15000 5 w).
Proof.
  intros cmd w.
  apply (secu_prot_length_validation linux_abi good_kernel (demo_cdb cmd 4)
           cmd DMA_TO_DEVICE 4096 15000 5 w [0; 0; 0; 0; 4; 0; 0; 0] 4).
  - reflexivity.
  - reflexivity.
  - right. repeat split; reflexivity.
  - unfold MAX_BUFFLEN. lia.
  - reflexivity.
  - intros _. exists [1; 2; 3; 4]. reflexivity.
Defined.

(** C1 as stated fails: a request that declares length 0 is answered
    with -EFAULT, which is BadAddress and not InvalidArgument. *)
Lemma zero_length_not_invalid_argument :
  let cmd := SCSI_IOCTL_SECURITY_PROTOCOL_IN linux_abi in
  let w := demo_request 0 4 in
  user_read good_kernel (w_umem w) 4096 sizeof_Scsi_Ioctl_Command
    = Some [0; 0; 0; 0; 4; 0; 0; 0]
  /\ inlen (decode_Scsi_Ioctl_Command [0; 0; 0; 0; 4; 0; 0; 0]) = 0
  /\ error_kind_of linux_abi (- EFAULT linux_abi) = Some BadAddress
  /\ ~ (exists r w',
          ioctl_secu_prot_command linux_abi good_kernel (demo_cdb cmd 0) cmd
            4096 15000 5 w = Ret r w'
          /\ error_kind_of linux_abi r = Some InvalidArgument).
Proof.
  intros cmd w. repeat split; try reflexivity.
  intros (r & w' & Hrun & Hkind).
  vm_compute in Hrun. injection Hrun as Hr _. subst r.
  vm_compute in Hkind. discriminate Hkind.
Qed.

(** C10.  A security-protocol-in transfer that has passed the length
    check (and whose buffer was allocated) copies the buffer out to the
    caller right after the execution, whatever result the execution
    returned: the [L] bytes go to the address just past the header.
    The copy succeeds exactly when the [L] bytes of the caller's region
    are accessible and mapped.  Then the caller's region holds exactly
    what the device left in the buffer, every byte outside the region
    is untouched, and the call returns the result of the execution,
    success or not; when the copy fails the call returns -EFAULT. *)
Theorem secu_prot_in_copies_out :
  forall abi K cmd arg timeout retries w bytes,
    k_alloc_ok K (w_trace w) sizeof_Scsi_Ioctl_Command = true ->
    user_read K (w_umem w) arg sizeof_Scsi_Ioctl_Command = Some bytes ->
    let L := inlen (decode_Scsi_Ioctl_Command bytes) in
    0 < L <= MAX_BUFFLEN ->
    k_alloc_ok K (header_events arg ++ w_trace w) L = true ->
    let req := {| x_cmd := cmd; x_dir := DMA_FROM_DEVICE;
                  x_buf := Some (repeat 0 (Z.to_nat L)); x_bufflen := L;
                  x_timeout := timeout; x_retries := retries |} in
    let rep := k_scsi_execute_req K
                 (logged (EvKzalloc L true :: header_events arg) w) req in
    let data := dma_fill (r_data rep) (repeat 0 (Z.to_nat L)) in
    let out := arg + sizeof_Scsi_Ioctl_Command in
    exists r w' ok later,
      ioctl_secu_prot_command abi K cmd (SCSI_IOCTL_SECURITY_PROTOCOL_IN abi)
        arg timeout retries w = Ret r w'
      /\ w_trace w' =
           later ++ EvCopyToUser out data ok :: EvExecuteReq req rep
                 :: EvKzalloc L true :: header_events arg ++ w_trace w
      /\ Z.of_nat (List.length data) = L
      /\ ok = match user_read K (w_umem w) out L with
              | Some _ => true
              | None => false
              end
      /\ (forall old,
             user_read K (w_umem w) out L = Some old ->
             r = r_result rep
             /\ user_read K (w_umem w') out L = Some data)
      /\ (ok = true ->
          r = r_result rep
          /\ user_read K (w_umem w') out L = Some data)
      /\ (ok = false -> r = - EFAULT abi)
      /\ (forall x, x < out \/ out + L <= x -> w_umem w' x = w_umem w x).
Proof.
  intros abi K cmd arg timeout retries w bytes Hk Hh L HL Hz req rep data out.
  rewrite (secu_prot_in_outcome abi K cmd arg timeout retries w bytes
             Hk Hh HL Hz).
  fold L. fold req. fold rep. fold data. fold out.
  assert (List.length data = Z.to_nat L) as Hlen
    by (subst data; rewrite dma_fill_length; apply repeat_length).
  assert (Z.of_nat (List.length data) = L) as HlenZ
    by (rewrite Hlen; apply Z2Nat.id; lia).
  set (wr := user_write K (w_umem w) out data).
  assert (snd wr = match user_read K (w_umem w) out L with
                   | Some _ => true
                   | None => false
                   end) as Hwr.
  { subst wr. unfold user_write, user_read. rewrite HlenZ.
    destruct (access_ok K out L); [| reflexivity].
    rewrite <- Hlen.
    destruct (read_bytes (w_umem w) out (List.length data)) as [old |] eqn:Hm.
    - apply (write_bytes_mapped data _ _ old). exact Hm.
    - apply write_bytes_unmapped. exact Hm. }
  assert (snd wr = true ->
          user_read K (fst wr) out L = Some data) as Hback.
  { subst wr. unfold user_write, user_read. rewrite HlenZ.
    destruct (access_ok K out L); cbn [fst snd]; [| discriminate].
    intros Hok. rewrite <- Hlen. apply read_after_write. assumption. }
  eexists. eexists. exists (snd wr).
  exists ([EvKfree (Some sizeof_Scsi_Ioctl_Command); EvKfree (Some L)]
          ++ (if snd wr then sense_log abi K rep
              else [EvPrintk "copy_to_user failed"])).
  split; [reflexivity|].
  split; [cbn [w_trace]; rewrite <- !app_assoc; reflexivity|].
  split; [exact HlenZ|].
  split; [exact Hwr|].
  cbn [w_umem].
  split; [| split; [| split]].
  - intros old Hold. rewrite Hold in Hwr. rewrite Hwr.
    split; [reflexivity | apply Hback; exact Hwr].
  - intros Hok. rewrite Hok. split; [reflexivity | apply Hback; exact Hok].
  - intros Hok. rewrite Hok. reflexivity.
  - intros x Hx. subst wr. unfold user_write. rewrite HlenZ.
    destruct (access_ok K out L); cbn [fst]; [| reflexivity].
    apply write_bytes_outside. lia.
Qed.

Lemma secu_prot_in_copies_out_witness :
  let cmd := SCSI_IOCTL_SECURITY_PROTOCOL_IN linux_abi in
  let w := demo_request 4 0 in
  let req := {| x_cmd := demo_cdb cmd 4; x_dir := DMA_FROM_DEVICE;
                x_buf := Some [0; 0; 0; 0]; x_bufflen := 4;
                x_timeout := 15000; x_retries := 5 |} in
  let rep := k_scsi_execute_req not_ready_kernel w req in
  r_result rep <> 0
  /\ user_read not_ready_kernel (w_umem w) 4104 4 = Some [1; 2; 3; 4]
  /\ exists r w' ok later,
      ioctl_secu_prot_command linux_abi not_ready_kernel (demo_cdb cmd 4) cmd
        4096 15000 5 w = Ret r w'
      /\ w_trace w' =
           later ++ EvCopyToUser 4104 [0xde; 0xad; 0; 0] ok
                 :: EvExecuteReq req rep
                 :: EvKzalloc 4 true :: header_events 4096 ++ w_trace w
      /\ Z.of_nat (List.length [0xde; 0xad; 0; 0]) = 4
      /\ ok = true
      /\ (forall old,
             user_read not_ready_kernel (w_umem w) 4104 4 = Some old ->
             r = r_result rep
             /\ user_read not_ready_kernel (w_umem w') 4104 4
                = Some [0xde; 0xad; 0; 0])
      /\ (ok = true ->
          r = r_result rep
          /\ user_read not_ready_kernel (w_umem w') 4104 4
             = Some [0xde; 0xad; 0; 0])
      /\ (ok = false -> r = - EFAULT linux_abi)
      /\ (forall x, x < 4104 \/ 4104 + 4 <= x -> w_umem w' x = w_umem w x).
Proof.
  intros cmd w req rep. split; [discriminate|].
  split; [reflexivity|].
  apply (secu_prot_in_copies_out linux_abi not_ready_kernel (demo_cdb cmd 4)
           4096 15000 5 w [4; 0; 0; 0; 0; 0; 0; 0]).
  - reflexivity.
  - reflexivity.
  - unfold MAX_BUFFLEN. simpl. lia.
  - reflexivity.
Defined.

(** ** Concrete runs *)

Example start_unit_descriptor :
  firstn 6 start_unit_cdb = [0x1b; 0; 0; 0; 1; 0].
Proof. reflexivity. Qed.

(** SCSI_IOCTL_SYNC is deprecated and has no case of its own: it is
    logged and then handed to the missing handler. *)
Example sync_is_logged_and_rejected :
  let w := demo_world (demo_sdev false false) (fun _ => None) in
  let o := scsi_ioctl linux_abi good_kernel (SCSI_IOCTL_SYNC linux_abi) 0 w in
  returned o = Some (-22)
  /\ w_trace (final_world o) =
     [EvPrintk "program %s is using a deprecated SCSI ioctl, please convert it to SG_IO"].
Proof. split; reflexivity. Qed.

(** A door lock that the device answers with UNIT ATTENTION: the sense
    interpreter turns the result into 0, so the device is marked both
    changed and locked. *)
Example door_lock_after_unit_attention :
  let K := sense_kernel (UNIT_ATTENTION linux_abi) in
  let w := demo_world (demo_sdev true true) (fun _ => None) in
  let o := scsi_ioctl linux_abi K (SCSI_IOCTL_DOORLOCK linux_abi) 0 w in
  returned o = Some 0
  /\ changed (w_sdev (final_world o)) = true
  /\ locked (w_sdev (final_world o)) = true.
Proof. repeat split; reflexivity. Qed.

(** A door lock that the device rejects as an illegal request: the
    result is passed on, the device stops being lockable and stays
    unlocked. *)
Example door_lock_illegal_request :
  let K := sense_kernel (ILLEGAL_REQUEST linux_abi) in
  let w := demo_world (demo_sdev true true) (fun _ => None) in
  let o := scsi_ioctl linux_abi K (SCSI_IOCTL_DOORLOCK linux_abi) 0 w in
  returned o = Some 0x08000002
  /\ lockable (w_sdev (final_world o)) = false
  /\ locked (w_sdev (final_world o)) = false.
Proof. repeat split; reflexivity. Qed.

(** A security-protocol-in request of four bytes through the
    dispatcher, on a device that reports a check condition: the
    descriptor carries the length, the two bytes of the device reach the
    caller, and the device's result is returned. *)
Example secu_prot_in_through_dispatch :
  let w := demo_request 4 0 in
  let o := scsi_ioctl linux_abi not_ready_kernel
             (SCSI_IOCTL_SECURITY_PROTOCOL_IN linux_abi) 4096 w in
  returned o = Some 0x08000002
  /\ read_bytes (w_umem (final_world o)) 4104 4 = Some [0xde; 0xad; 0; 0]
  /\ read_bytes (w_umem (final_world o)) 4096 8 = Some [4; 0; 0; 0; 0; 0; 0; 0]
  /\ exists rep later earlier,
       w_trace (final_world o) =
         later
         ++ EvExecuteReq
              {| x_cmd := [0xa2; 0xec; 0; 1; 0; 0; 0; 0; 0; 4; 0; 0; 0; 0; 0; 0];
                 x_dir := DMA_FROM_DEVICE; x_buf := Some [0; 0; 0; 0];
                 x_bufflen := 4; x_timeout := 15000; x_retries := 5 |} rep
         :: earlier.
Proof.
  repeat split; try reflexivity.
  eexists. exists [EvKfree (Some 8); EvKfree (Some 4);
                   EvPrintk "scsi_print_sense_hdr";
                   EvPrintk "ioctl_secu_prot_command return code = %x";
                   EvCopyToUser 4104 [0xde; 0xad; 0; 0] true].
  eexists. reflexivity.
Qed.

(** A request whose declared length exceeds MAX_BUFFLEN by one. *)
Example secu_prot_out_over_limit :
  let w := demo_request 0 (MAX_BUFFLEN + 1) in
  let o := scsi_ioctl linux_abi good_kernel
             (SCSI_IOCTL_SECURITY_PROTOCOL_OUT linux_abi) 4096 w in
  returned o = Some (-14)
  /\ w_trace (final_world o) =
     [EvKfree (Some 8); EvPrintk "Invalid bufflen : %x";
      EvCopyFromUser 4096 8 true; EvKmalloc 8 true].
Proof. split; reflexivity. Qed.

(** ** More on the sense interpreter *)

(** The run of the ILLEGAL REQUEST case. *)
Lemma illegal_request_run :
  forall abi K cmd timeout retries w,
    let req := internal_req cmd timeout retries in
    let rep := k_scsi_execute_req K w req in
    sense_present abi (r_result rep) = true ->
    scsi_sense_valid K (r_sshdr rep) = true ->
    sense_key (r_sshdr rep) = ILLEGAL_REQUEST abi ->
    (nth 0 cmd 0 = ALLOW_MEDIUM_REMOVAL abi ->
     ioctl_internal_command abi K cmd timeout retries w =
       Ret (r_result rep)
         {| w_sdev := set_lockable false (w_sdev w);
            w_umem := w_umem w;
            w_trace := EvExecuteReq req rep :: w_trace w |})
    /\
    (nth 0 cmd 0 <> ALLOW_MEDIUM_REMOVAL abi ->
     ioctl_internal_command abi K cmd timeout retries w =
       Ret (r_result rep)
         (logged [EvPrintk "ioctl_internal_command: ILLEGAL REQUEST asc=0x%x ascq=0x%x";
                  EvExecuteReq req rep] w)).
Proof.
  intros abi K cmd timeout retries w req rep Hp Hv Hk.
  subst rep req. unfold scsi_sense_valid, internal_req in *.
  unfold ioctl_internal_command. run.
  set (rep := k_scsi_execute_req K w _) in *.
  rewrite Hp, Hv, Hk. simpl andb. cbv iota.
  rewrite Z.eqb_refl.
  split; intros Hc.
  - rewrite Hc, Z.eqb_refl. reflexivity.
  - apply Z.eqb_neq in Hc. rewrite Hc. reflexivity.
Qed.

(** X1.  When the sense data of an internally executed command is present
    and valid with sense key ILLEGAL REQUEST, the result is returned
    unchanged; a medium-removal command makes the device no longer
    lockable and logs nothing, any other command is only logged. *)
Theorem illegal_request_handling :
  forall abi K cmd timeout retries w,
    let req := internal_req cmd timeout retries in
    let rep := k_scsi_execute_req K w req in
    sense_present abi (r_result rep) = true ->
    scsi_sense_valid K (r_sshdr rep) = true ->
    sense_key (r_sshdr rep) = ILLEGAL_REQUEST abi ->
    (nth 0 cmd 0 = ALLOW_MEDIUM_REMOVAL abi ->
     ioctl_internal_command abi K cmd timeout retries w =
       Ret (r_result rep)
         {| w_sdev := set_lockable false (w_sdev w);
            w_umem := w_umem w;
            w_trace := EvExecuteReq req rep :: w_trace w |})
    /\
    (nth 0 cmd 0 <> ALLOW_MEDIUM_REMOVAL abi ->
     ioctl_internal_command abi K cmd timeout retries w =
       Ret (r_result rep)
         (logged [EvPrintk "ioctl_internal_command: ILLEGAL REQUEST asc=0x%x ascq=0x%x";
                  EvExecuteReq req rep] w)).
Proof. exact illegal_request_run. Qed.

Lemma illegal_request_handling_witness :
  let K := sense_kernel (ILLEGAL_REQUEST linux_abi) in
  let w := demo_world (demo_sdev true true) (fun _ => None) in
  ioctl_internal_command linux_abi K start_unit_cdb 15000 5 w =
    Ret 0x08000002
      (logged [EvPrintk "ioctl_internal_command: ILLEGAL REQUEST asc=0x%x ascq=0x%x";
               EvExecuteReq (internal_req start_unit_cdb 15000 5)
                 (reply_sense (ILLEGAL_REQUEST linux_abi))] w).
Proof.
  intros K w.
  apply (illegal_request_handling linux_abi K start_unit_cdb 15000 5 w);
    try reflexivity.
  discriminate.
Defined.

(** The run when the sense data is not to be looked at. *)
Lemma no_sense_run :
  forall abi K cmd timeout retries w,
    let req := internal_req cmd timeout retries in
    let rep := k_scsi_execute_req K w req in
    sense_present abi (r_result rep) = false
    \/ scsi_sense_valid K (r_sshdr rep) = false ->
    ioctl_internal_command abi K cmd timeout retries w =
      Ret (r_result rep) (logged [EvExecuteReq req rep] w).
Proof.
  intros abi K cmd timeout retries w req rep H.
  subst rep req. unfold scsi_sense_valid, internal_req in *.
  unfold ioctl_internal_command. run.
  set (rep := k_scsi_execute_req K w _) in *.
  destruct H as [-> | ->]; rewrite ?andb_false_r; reflexivity.
Qed.

(** X2.  Sense data is looked at only when the result announces it and the
    header is valid: otherwise the result is returned as it is and the
    device keeps all its flags, whatever the sense key field holds. *)
Theorem sense_ignored_unless_present_and_valid :
  forall abi K cmd timeout retries w,
    let req := internal_req cmd timeout retries in
    let rep := k_scsi_execute_req K w req in
    sense_present abi (r_result rep) = false
    \/ scsi_sense_valid K (r_sshdr rep) = false ->
    ioctl_internal_command abi K cmd timeout retries w =
      Ret (r_result rep) (logged [EvExecuteReq req rep] w).
Proof. exact no_sense_run. Qed.

Lemma sense_ignored_unless_present_and_valid_witness :
  let K := demo_kernel (Some "sd"%string) None
             {| r_result := 0x00070000;
                r_sshdr := r_sshdr (reply_sense (UNIT_ATTENTION linux_abi));
                r_data := [] |} false true in
  let w := demo_world (demo_sdev true true) (fun _ => None) in
  ioctl_internal_command linux_abi K start_unit_cdb 15000 5 w =
    Ret 0x00070000
      (logged [EvExecuteReq (internal_req start_unit_cdb 15000 5)
                 (k_scsi_execute_req K w
                    (internal_req start_unit_cdb 15000 5))] w).
Proof.
  intros K w.
  apply (sense_ignored_unless_present_and_valid linux_abi K start_unit_cdb
           15000 5 w).
  left. reflexivity.
Defined.

(** X3.  The footprint of [ioctl_internal_command]: it always returns, after
    exactly one execution request (no data, no buffer) followed only by
    log lines; it never touches user memory nor the identity, the
    [removable] and the [locked] flags of the device; it returns the
    result of the execution, or 0 in the one case where it marks a
    removable device as changed; [lockable] can only be cleared, and
    only by a medium-removal command. *)
Theorem internal_command_footprint :
  forall abi K cmd timeout retries w,
    let req := internal_req cmd timeout retries in
    let rep := k_scsi_execute_req K w req in
    exists res w' logs,
      ioctl_internal_command abi K cmd timeout retries w = Ret res w'
      /\ w_trace w' = logs ++ EvExecuteReq req rep :: w_trace w
      /\ (forall e, In e logs -> exists fmt, e = EvPrintk fmt)
      /\ w_umem w' = w_umem w
      /\ (id (w_sdev w'), lun (w_sdev w'), channel (w_sdev w'),
          host (w_sdev w'), removable (w_sdev w'), locked (w_sdev w'))
         = (id (w_sdev w), lun (w_sdev w), channel (w_sdev w),
            host (w_sdev w), removable (w_sdev w), locked (w_sdev w))
      /\ ((res = r_result rep /\ changed (w_sdev w') = changed (w_sdev w))
          \/ (res = 0 /\ changed (w_sdev w') = true
              /\ removable (w_sdev w) = true))
      /\ (lockable (w_sdev w') = lockable (w_sdev w)
          \/ (lockable (w_sdev w') = false
              /\ nth 0 cmd 0 = ALLOW_MEDIUM_REMOVAL abi)).
Proof.
  intros abi K cmd timeout retries w req rep.
  subst rep req. unfold internal_req.
  unfold ioctl_internal_command. run.
  set (rep := k_scsi_execute_req K w _).
  assert (forall fmts e, In e (map EvPrintk fmts) -> exists fmt, e = EvPrintk fmt)
    as Hlogs.
  { intros fmts e He. apply in_map_iff in He. destruct He as (f & <- & _).
    eexists. reflexivity. }
  repeat match goal with
         | |- context [if ?c then _ else _] =>
             let E := fresh "E" in destruct c eqn:E; cbn
         end;
    try congruence.
  all: eexists; eexists.
  all: first
    [ exists (map EvPrintk []); split; [reflexivity|];
      split; [reflexivity|]; split; [apply Hlogs|]
    | exists (map EvPrintk ["ioctl_internal_command: ILLEGAL REQUEST asc=0x%x ascq=0x%x"%string]);
      split; [reflexivity|];
      split; [reflexivity|]; split; [apply Hlogs|]
    | exists (map EvPrintk ["scsi_print_sense_hdr"%string;
                            "ioctl_internal_command return code = %x"%string]);
      split; [reflexivity|];
      split; [reflexivity|]; split; [apply Hlogs|] ].
  all: cbn; repeat split; auto.
  all: try (right; split; [reflexivity | apply Z.eqb_eq; assumption]).
  all: congruence.
Qed.

(** ** More on medium removal *)

Lemma store_length i v a : List.length (store i v a) = List.length a.
Proof.
  revert i. induction a as [| x a IH]; intros [| i]; simpl; auto.
Qed.

Lemma store_first6 l b0 b1 b2 b3 b4 b5 :
  (6 <= List.length l)%nat ->
  store 5 b5 (store 4 b4 (store 3 b3 (store 2 b2 (store 1 b1 (store 0 b0 l)))))
  = [b0; b1; b2; b3; b4; b5] ++ skipn 6 l.
Proof.
  intros H.
  do 6 (destruct l as [| ? l]; [simpl in H; lia |]).
  reflexivity.
Qed.

Lemma uninitialised_length K n : List.length (uninitialised K n) = n.
Proof.
  unfold uninitialised.
  rewrite length_firstn, length_app, repeat_length. lia.
Qed.

(** The bytes of the medium-removal descriptor. *)
Lemma medium_removal_cdb_bytes :
  forall abi K state,
    (6 <= MAX_COMMAND_SIZE abi)%nat ->
    0 <= ALLOW_MEDIUM_REMOVAL abi < 256 ->
    0 <= state < 256 ->
    medium_removal_cdb abi K state =
      [ALLOW_MEDIUM_REMOVAL abi; 0; 0; 0; state; 0]
      ++ skipn 6 (uninitialised K (MAX_COMMAND_SIZE abi))
    /\ List.length (medium_removal_cdb abi K state) = MAX_COMMAND_SIZE abi
    /\ nth 0 (medium_removal_cdb abi K state) 0 = ALLOW_MEDIUM_REMOVAL abi.
Proof.
  intros abi K state Hn Ha Hs.
  assert (medium_removal_cdb abi K state =
      [ALLOW_MEDIUM_REMOVAL abi; 0; 0; 0; state; 0]
      ++ skipn 6 (uninitialised K (MAX_COMMAND_SIZE abi))) as Heq.
  { unfold medium_removal_cdb. cbv zeta.
    rewrite store_first6 by (rewrite uninitialised_length; assumption).
    unfold u8. rewrite !Z.mod_small by assumption. reflexivity. }
  split; [exact Heq|]. split.
  - unfold medium_removal_cdb. cbv zeta. rewrite !store_length.
    apply uninitialised_length.
  - rewrite Heq. reflexivity.
Qed.

(** X4.  The descriptor of a medium-removal command: the six bytes of the
    command are ALLOW_MEDIUM_REMOVAL, three zeros, the requested state
    and a zero, whatever the stack held; only the cells past the command
    keep what the uninitialised array held. *)
Theorem medium_removal_cdb_layout :
  forall abi K state,
    (6 <= MAX_COMMAND_SIZE abi)%nat ->
    0 <= ALLOW_MEDIUM_REMOVAL abi < 256 ->
    0 <= state < 256 ->
    medium_removal_cdb abi K state =
      [ALLOW_MEDIUM_REMOVAL abi; 0; 0; 0; state; 0]
      ++ skipn 6 (uninitialised K (MAX_COMMAND_SIZE abi))
    /\ List.length (medium_removal_cdb abi K state) = MAX_COMMAND_SIZE abi
    /\ nth 0 (medium_removal_cdb abi K state) 0 = ALLOW_MEDIUM_REMOVAL abi.
Proof. exact medium_removal_cdb_bytes. Qed.

Lemma medium_removal_cdb_layout_witness :
  let K := demo_kernel None None (reply_good []) false true in
  medium_removal_cdb linux_abi K 1 =
    [0x1e; 0; 0; 0; 1; 0] ++ skipn 6 (uninitialised K 16).
Proof.
  intros K.
  apply (medium_removal_cdb_layout linux_abi K 1); simpl; lia.
Defined.

(** X5.  Tolerant degrade.  When the device rejects a medium-removal command
    as an illegal request, the call returns the device's result, the
    device stops being lockable and its locked flag stays as it was;
    from then on every medium-removal request returns 0 at once, without
    a command. *)
Theorem medium_lock_degrades_after_illegal_request :
  forall abi K state w,
    (6 <= MAX_COMMAND_SIZE abi)%nat ->
    0 <= ALLOW_MEDIUM_REMOVAL abi < 256 ->
    0 <= state < 256 ->
    removable (w_sdev w) = true ->
    lockable (w_sdev w) = true ->
    let req := internal_req (medium_removal_cdb abi K state)
                 (IOCTL_NORMAL_TIMEOUT abi) NORMAL_RETRIES in
    let rep := k_scsi_execute_req K w req in
    sense_present abi (r_result rep) = true ->
    scsi_sense_valid K (r_sshdr rep) = true ->
    sense_key (r_sshdr rep) = ILLEGAL_REQUEST abi ->
    r_result rep <> 0 ->
    let w1 := {| w_sdev := set_lockable false (w_sdev w);
                 w_umem := w_umem w;
                 w_trace := EvExecuteReq req rep :: w_trace w |} in
    scsi_set_medium_removal abi K state w = Ret (r_result rep) w1
    /\ lockable (w_sdev w1) = false
    /\ locked (w_sdev w1) = locked (w_sdev w)
    /\ (forall state', scsi_set_medium_removal abi K state' w1 = Ret 0 w1).
Proof.
  intros abi K state w Hn Ha Hs Hr Hl req rep Hp Hv Hk Hres w1.
  destruct (medium_removal_cdb_bytes abi K state Hn Ha Hs) as (_ & _ & H0).
  destruct (illegal_request_run abi K (medium_removal_cdb abi K state)
              (IOCTL_NORMAL_TIMEOUT abi) NORMAL_RETRIES w Hp Hv Hk)
    as [Hrun _].
  specialize (Hrun H0).
  split; [| split; [reflexivity | split; [reflexivity |]]].
  - unfold scsi_set_medium_removal. run. rewrite Hr, Hl. simpl.
    rewrite Hrun. fold req. fold rep.
    apply Z.eqb_neq in Hres. rewrite Hres. reflexivity.
  - intros state'. unfold scsi_set_medium_removal. run. subst w1. simpl.
    rewrite orb_true_r. reflexivity.
Qed.

Lemma medium_lock_degrades_after_illegal_request_witness :
  let K := sense_kernel (ILLEGAL_REQUEST linux_abi) in
  let w := demo_world (demo_sdev true true) (fun _ => None) in
  let req := internal_req (medium_removal_cdb linux_abi K 1) 2500 5 in
  let w1 := {| w_sdev := set_lockable false (w_sdev w);
               w_umem := w_umem w;
               w_trace := [EvExecuteReq req
                             (reply_sense (ILLEGAL_REQUEST linux_abi))] |} in
  scsi_set_medium_removal linux_abi K 1 w = Ret 0x08000002 w1
  /\ lockable (w_sdev w1) = false
  /\ locked (w_sdev w1) = locked (w_sdev w)
  /\ (forall state', scsi_set_medium_removal linux_abi K state' w1 = Ret 0 w1).
Proof.
  intros K w req w1.
  apply (medium_lock_degrades_after_illegal_request linux_abi K 1 w);
    try reflexivity; simpl; lia.
Defined.

(** X6.  Lock, then unlock.  On a removable, lockable device whose two
    commands succeed without sense data, a prevent request leaves the
    device locked and the allow request that follows leaves it
    unlocked; each issues one command, whose fifth byte is the
    requested state. *)
Theorem lock_then_unlock :
  forall abi K w,
    (6 <= MAX_COMMAND_SIZE abi)%nat ->
    0 <= ALLOW_MEDIUM_REMOVAL abi < 256 ->
    0 <= SCSI_REMOVAL_PREVENT abi < 256 ->
    0 <= SCSI_REMOVAL_ALLOW abi < 256 ->
    removable (w_sdev w) = true ->
    lockable (w_sdev w) = true ->
    let req1 := internal_req
                  (medium_removal_cdb abi K (SCSI_REMOVAL_PREVENT abi))
                  (IOCTL_NORMAL_TIMEOUT abi) NORMAL_RETRIES in
    let rep1 := k_scsi_execute_req K w req1 in
    let w1 := {| w_sdev := set_locked true (w_sdev w);
                 w_umem := w_umem w;
                 w_trace := EvExecuteReq req1 rep1 :: w_trace w |} in
    let req2 := internal_req
                  (medium_removal_cdb abi K (SCSI_REMOVAL_ALLOW abi))
                  (IOCTL_NORMAL_TIMEOUT abi) NORMAL_RETRIES in
    let rep2 := k_scsi_execute_req K w1 req2 in
    let w2 := {| w_sdev := set_locked false (w_sdev w);
                 w_umem := w_umem w;
                 w_trace := EvExecuteReq req2 rep2 :: EvExecuteReq req1 rep1
                            :: w_trace w |} in
    r_result rep1 = 0 -> sense_present abi 0 = false ->
    r_result rep2 = 0 ->
    scsi_set_medium_removal abi K (SCSI_REMOVAL_PREVENT abi) w = Ret 0 w1
    /\ scsi_set_medium_removal abi K (SCSI_REMOVAL_ALLOW abi) w1 = Ret 0 w2
    /\ nth 4 (x_cmd req1) 0 = SCSI_REMOVAL_PREVENT abi
    /\ nth 4 (x_cmd req2) 0 = SCSI_REMOVAL_ALLOW abi.
Proof.
  intros abi K w Hn Ha Hp Hal Hr Hl req1 rep1 w1 req2 rep2 w2 H1 Hs H2.
  removal_facts abi.
  assert (forall st w0 rp,
            removable (w_sdev w0) = true -> lockable (w_sdev w0) = true ->
            k_scsi_execute_req K w0
              (internal_req (medium_removal_cdb abi K st)
                 (IOCTL_NORMAL_TIMEOUT abi) NORMAL_RETRIES) = rp ->
            r_result rp = 0 ->
            scsi_set_medium_removal abi K st w0 =
              Ret 0 {| w_sdev := set_locked (st =? SCSI_REMOVAL_PREVENT abi)
                                   (w_sdev w0);
                       w_umem := w_umem w0;
                       w_trace :=
                         EvExecuteReq
                           (internal_req (medium_removal_cdb abi K st)
                              (IOCTL_NORMAL_TIMEOUT abi) NORMAL_RETRIES) rp
                         :: w_trace w0 |}) as Hone.
  { intros st w0 rp Hr0 Hl0 Hrp Hres.
    unfold scsi_set_medium_removal. run. rewrite Hr0, Hl0. simpl.
    rewrite (no_sense_run abi K _ _ _ w0)
      by (left; rewrite Hrp, Hres; exact Hs).
    rewrite Hrp, Hres. reflexivity. }
  split; [| split; [| split]].
  - rewrite (Hone _ w rep1 Hr Hl eq_refl H1). rewrite Z.eqb_refl. reflexivity.
  - rewrite (Hone _ w1 rep2 Hr Hl eq_refl H2).
    assert ((SCSI_REMOVAL_ALLOW abi =? SCSI_REMOVAL_PREVENT abi) = false) as ->
      by (decide_eqb (SCSI_REMOVAL_ALLOW abi) (SCSI_REMOVAL_PREVENT abi);
          reflexivity).
    reflexivity.
  - subst req1. simpl x_cmd.
    destruct (medium_removal_cdb_bytes abi K _ Hn Ha Hp) as (-> & _).
    reflexivity.
  - subst req2. simpl x_cmd.
    destruct (medium_removal_cdb_bytes abi K _ Hn Ha Hal) as (-> & _).
    reflexivity.
Qed.

Lemma lock_then_unlock_witness :
  let w := demo_world (demo_sdev true true) (fun _ => None) in
  let req1 := internal_req (medium_removal_cdb linux_abi good_kernel 1)
                2500 5 in
  let w1 := {| w_sdev := set_locked true (w_sdev w);
               w_umem := w_umem w;
               w_trace := [EvExecuteReq req1 (reply_good [])] |} in
  let req2 := internal_req (medium_removal_cdb linux_abi good_kernel 0)
                2500 5 in
  let w2 := {| w_sdev := set_locked false (w_sdev w);
               w_umem := w_umem w;
               w_trace := [EvExecuteReq req2 (reply_good []);
                           EvExecuteReq req1 (reply_good [])] |} in
  scsi_set_medium_removal linux_abi good_kernel 1 w = Ret 0 w1
  /\ scsi_set_medium_removal linux_abi good_kernel 0 w1 = Ret 0 w2
  /\ nth 4 (x_cmd req1) 0 = 1
  /\ nth 4 (x_cmd req2) 0 = 0.
Proof.
  intros w req1 w1 req2 w2.
  apply (lock_then_unlock linux_abi good_kernel w);
    try reflexivity; simpl; lia.
Defined.

(** ** More on user memory *)

Lemma read_bytes_app n k :
  forall m a x y,
    read_bytes m a n = Some x ->
    read_bytes m (a + Z.of_nat n) k = Some y ->
    read_bytes m a (n + k) = Some (x ++ y).
Proof.
  induction n as [| n IH]; intros m a x y Hx Hy.
  - injection Hx as <-. rewrite Z.add_0_r in Hy. exact Hy.
  - cbn [read_bytes Nat.add] in *.
    destruct (m a); [| discriminate].
    destruct (read_bytes m (a + 1) n) as [x' |] eqn:Hx'; [| discriminate].
    injection Hx as <-.
    rewrite (IH m (a + 1) x' y Hx')
      by (rewrite <- Hy; f_equal; lia).
    reflexivity.
Qed.

Lemma read_bytes_split n k :
  forall m a old,
    read_bytes m a (n + k) = Some old ->
    exists x y,
      read_bytes m a n = Some x
      /\ read_bytes m (a + Z.of_nat n) k = Some y.
Proof.
  induction n as [| n IH]; intros m a old H.
  - exists [], old. rewrite Z.add_0_r. auto.
  - cbn [read_bytes Nat.add] in *.
    destruct (m a); [| discriminate].
    destruct (read_bytes m (a + 1) (n + k)) as [old' |] eqn:Ho;
      [| discriminate].
    destruct (IH m (a + 1) old' Ho) as (x & y & Hx & Hy).
    rewrite Hx. exists (z :: x), y. split; [reflexivity|].
    rewrite <- Hy. f_equal. lia.
Qed.

Lemma le32_of_bytes a b c d :
  0 <= a < 256 -> 0 <= b < 256 -> 0 <= c < 256 -> 0 <= d < 256 ->
  le32_encode (a + 256 * b + 65536 * c + 16777216 * d) = [a; b; c; d].
Proof.
  intros Ha Hb Hc Hd. unfold le32_encode, u8.
  rewrite !Z.shiftr_div_pow2 by lia.
  change (2 ^ 8) with 256. change (2 ^ 16) with 65536.
  change (2 ^ 24) with 16777216.
  repeat f_equal; Z.div_mod_to_equations; lia.
Qed.

Lemma le_decode_le32_encode v : le_decode (le32_encode v) = u32 v.
Proof.
  unfold le32_encode, u8, u32. cbn [le_decode].
  rewrite !Z.shiftr_div_pow2 by lia.
  change (2 ^ 8) with 256. change (2 ^ 16) with 65536.
  change (2 ^ 24) with 16777216.
  Z.div_mod_to_equations. lia.
Qed.

(** The identification word as the dispatcher computes it. *)
Lemma idlun_word a b c d :
  le32_encode (u32 (Z.land a 255 + Z.shiftl (Z.land b 255) 8
                    + Z.shiftl (Z.land c 255) 16
                    + Z.shiftl (Z.land d 255) 24))
  = [a mod 256; b mod 256; c mod 256; d mod 256].
Proof.
  rewrite !land_255, !Z.shiftl_mul_pow2 by lia.
  change (2 ^ 8) with 256. change (2 ^ 16) with 65536.
  change (2 ^ 24) with 16777216.
  pose proof (Z.mod_pos_bound a 256 ltac:(lia)).
  pose proof (Z.mod_pos_bound b 256 ltac:(lia)).
  pose proof (Z.mod_pos_bound c 256 ltac:(lia)).
  pose proof (Z.mod_pos_bound d 256 ltac:(lia)).
  unfold u32. rewrite Z.mod_small by lia.
  rewrite <- (le32_of_bytes (a mod 256) (b mod 256) (c mod 256) (d mod 256))
    by assumption.
  f_equal. ring.
Qed.

(** ** The informational queries *)

(** X7.  SCSI_IOCTL_GET_IDLUN.  An argument that fails [access_ok] is
    answered with -EFAULT and nothing is written.  Otherwise the call
    returns 0 whether or not the two stores succeed; the first store
    carries the low bytes of id, lun, channel and host number, in this
    order, the second the host's unique id; when the eight bytes are
    mapped they read back as these two words, and no other byte of user
    memory changes. *)
Theorem get_idlun_packing :
  forall abi K arg w,
    let d := w_sdev w in
    let word := [id d mod 256; lun d mod 256; channel d mod 256;
                 host_no (host d) mod 256] in
    let uniq := le32_encode (u32 (unique_id (host d))) in
    (access_ok K arg (sizeof_scsi_idlun abi) = false ->
     scsi_ioctl abi K (SCSI_IOCTL_GET_IDLUN abi) arg w
     = Ret (- EFAULT abi) w)
    /\
    (access_ok K arg (sizeof_scsi_idlun abi) = true ->
     exists w' ok1 ok2,
       scsi_ioctl abi K (SCSI_IOCTL_GET_IDLUN abi) arg w = Ret 0 w'
       /\ w_sdev w' = w_sdev w
       /\ w_trace w' = EvCopyToUser (arg + 4) uniq ok2
                       :: EvCopyToUser arg word ok1 :: w_trace w
       /\ (forall old, read_bytes (w_umem w) arg 8 = Some old ->
           ok1 = true /\ ok2 = true
           /\ read_bytes (w_umem w') arg 8 = Some (word ++ uniq))
       /\ (forall x, x < arg \/ arg + 8 <= x -> w_umem w' x = w_umem w x)).
Proof.
  intros abi K arg w d word uniq.
  code_facts abi.
  unfold scsi_ioctl, deprecated_ioctl. decide_all_eqb. simpl orb. cbv iota.
  unfold __put_user. run.
  split; intros Hacc; rewrite Hacc; [reflexivity|].
  cbn [negb]. cbv beta. cbn [w_umem w_sdev w_trace].
  fold d. rewrite idlun_word. fold word. fold uniq.
  destruct (write_bytes (w_umem w) arg word) as [m1 ok1] eqn:W1.
  cbn [w_umem w_sdev w_trace].
  destruct (write_bytes m1 (arg + 4) uniq) as [m2 ok2] eqn:W2.
  cbn [w_umem w_sdev w_trace].
  exists {| w_sdev := w_sdev w; w_umem := m2;
            w_trace := EvCopyToUser (arg + 4) uniq ok2
                       :: EvCopyToUser arg word ok1 :: w_trace w |}.
  exists ok1, ok2.
  assert (m1 = fst (write_bytes (w_umem w) arg word)) as Hm1
    by (rewrite W1; reflexivity).
  assert (m2 = fst (write_bytes m1 (arg + 4) uniq)) as Hm2
    by (rewrite W2; reflexivity).
  assert (ok1 = snd (write_bytes (w_umem w) arg word)) as Hok1
    by (rewrite W1; reflexivity).
  assert (ok2 = snd (write_bytes m1 (arg + 4) uniq)) as Hok2
    by (rewrite W2; reflexivity).
  split; [reflexivity|]. split; [reflexivity|]. split; [reflexivity|].
  cbn [w_umem]. split.
  - intros old Hold.
    destruct (read_bytes_split 4 4 _ _ _ Hold) as (x & y & Hx & Hy).
    assert (ok1 = true) as H1
      by (rewrite Hok1; apply (write_bytes_mapped word _ _ x); exact Hx).
    assert (read_bytes m1 arg 4 = Some word) as Hr1
      by (rewrite Hm1; apply (read_after_write word);
          rewrite <- Hok1; exact H1).
    assert (read_bytes m1 (arg + 4) 4 = Some y) as Hr1'.
    { rewrite <- Hy. change (Z.of_nat 4) with 4. apply read_bytes_ext.
      intros z Hz. rewrite Hm1. apply write_bytes_outside.
      simpl List.length. lia. }
    assert (ok2 = true) as H2
      by (rewrite Hok2; apply (write_bytes_mapped uniq _ _ y); exact Hr1').
    split; [exact H1|]. split; [exact H2|].
    apply (read_bytes_app 4 4).
    + rewrite <- Hr1. apply read_bytes_ext. intros z Hz.
      rewrite Hm2. apply write_bytes_below. lia.
    + change (Z.of_nat 4) with 4.
      rewrite Hm2. apply (read_after_write uniq).
      rewrite <- Hok2. exact H2.
  - intros x Hx. rewrite Hm2, Hm1.
    rewrite write_bytes_outside by (simpl List.length; lia).
    apply write_bytes_outside. simpl List.length. lia.
Qed.

Lemma get_idlun_packing_witness :
  exists w' ok1 ok2,
    scsi_ioctl linux_abi good_kernel (SCSI_IOCTL_GET_IDLUN linux_abi) 4096
      idlun_world = Ret 0 w'
    /\ w_sdev w' = w_sdev idlun_world
    /\ w_trace w' = [EvCopyToUser 4100 [0xdd; 0xcc; 0xbb; 0xaa] ok2;
                     EvCopyToUser 4096 [3; 1; 2; 5] ok1]
    /\ (forall old, read_bytes (w_umem idlun_world) 4096 8 = Some old ->
        ok1 = true /\ ok2 = true
        /\ read_bytes (w_umem w') 4096 8
           = Some [3; 1; 2; 5; 0xdd; 0xcc; 0xbb; 0xaa])
    /\ (forall x, x < 4096 \/ 4096 + 8 <= x ->
        w_umem w' x = w_umem idlun_world x).
Proof.
  apply (get_idlun_packing linux_abi good_kernel 4096 idlun_world).
  reflexivity.
Defined.

(** X8.  SCSI_IOCTL_GET_BUS_NUMBER.  When the four bytes at the argument are
    accessible the host number is stored there and the call returns 0;
    reading the word back gives the host number (as a 32-bit value) and
    no other byte of user memory has changed.  When they are not, the
    call returns -EFAULT. *)
Theorem get_bus_number_round_trip :
  forall abi K arg w,
    let v := u32 (host_no (host (w_sdev w))) in
    (user_read K (w_umem w) arg 4 = None ->
     exists w',
       scsi_ioctl abi K (SCSI_IOCTL_GET_BUS_NUMBER abi) arg w
       = Ret (- EFAULT abi) w'
       /\ w_sdev w' = w_sdev w)
    /\
    (forall old,
        user_read K (w_umem w) arg 4 = Some old ->
        exists w',
          scsi_ioctl abi K (SCSI_IOCTL_GET_BUS_NUMBER abi) arg w = Ret 0 w'
          /\ w_sdev w' = w_sdev w
          /\ returned (get_user K arg w') = Some (Some v)
          /\ (forall x, x < arg \/ arg + 4 <= x ->
              w_umem w' x = w_umem w x)).
Proof.
  intros abi K arg w v.
  code_facts abi.
  unfold scsi_ioctl, deprecated_ioctl. decide_all_eqb. simpl orb. cbv iota.
  unfold put_user, get_user, copy_to_user, copy_from_user, user_write,
    user_read.
  run. cbn [w_umem w_sdev w_trace].
  change (Z.of_nat (List.length (le32_encode _))) with 4.
  change (Z.to_nat 4) with 4%nat. fold v.
  destruct (access_ok K arg 4) eqn:Hacc.
  - destruct (write_bytes (w_umem w) arg (le32_encode v)) as [m1 ok] eqn:W.
    assert (m1 = fst (write_bytes (w_umem w) arg (le32_encode v))) as Hm1
      by (rewrite W; reflexivity).
    assert (ok = snd (write_bytes (w_umem w) arg (le32_encode v))) as Hok
      by (rewrite W; reflexivity).
    split.
    + intros Hnone.
      rewrite (write_bytes_unmapped (le32_encode v) _ _ Hnone) in Hok.
      subst ok. eexists. split; reflexivity.
    + intros old Hold.
      rewrite (write_bytes_mapped (le32_encode v) _ _ old Hold) in Hok.
      subst ok. eexists. split; [reflexivity|]. split; [reflexivity|].
      cbn [w_umem w_sdev w_trace]. split.
      * rewrite Hm1.
        rewrite (read_after_write (le32_encode v))
          by (apply (write_bytes_mapped (le32_encode v) _ _ old Hold)).
        cbn [returned option_map]. rewrite le_decode_le32_encode.
        unfold v, u32. rewrite Z.mod_mod by lia. reflexivity.
      * intros x Hx. rewrite Hm1. apply write_bytes_outside.
        simpl List.length. lia.
  - split.
    + intros _. eexists. split; reflexivity.
    + intros old Hold. discriminate.
Qed.

Lemma get_bus_number_round_trip_witness :
  exists w',
    scsi_ioctl linux_abi good_kernel (SCSI_IOCTL_GET_BUS_NUMBER linux_abi)
      4096 idlun_world = Ret 0 w'
    /\ w_sdev w' = w_sdev idlun_world
    /\ returned (get_user good_kernel 4096 w') = Some (Some 5)
    /\ (forall x, x < 4096 \/ 4096 + 4 <= x ->
        w_umem w' x = w_umem idlun_world x).
Proof.
  apply (proj2 (get_bus_number_round_trip linux_abi good_kernel 4096
                  idlun_world) [0x55; 0x55; 0x55; 0x55]).
  reflexivity.
Defined.

Lemma string_bytes_length s :
  List.length (string_bytes s) = String.length s.
Proof. induction s as [| c s IH]; simpl; congruence. Qed.

(** X9.  ioctl_probe.  A NULL buffer, or a host without an identifying
    string, gives 1 and nothing is written.  Otherwise the length word
    is read from the buffer (-EFAULT when it cannot be) and the copy to
    the buffer is bounded twice: by the length the caller declared and
    by the string with its terminator.  A caller that declares more
    than the string's length gets the whole string, terminated. *)
Theorem probe_copy_is_bounded :
  forall abi K buffer w,
    (buffer = 0 -> ioctl_probe abi K buffer w = Ret 1 w)
    /\
    (buffer <> 0 -> user_read K (w_umem w) buffer 4 = None ->
     ioctl_probe abi K buffer w =
       Ret (- EFAULT abi) (logged [EvCopyFromUser buffer 4 false] w))
    /\
    (forall lb,
        buffer <> 0 -> user_read K (w_umem w) buffer 4 = Some lb ->
        let w1 := logged [EvCopyFromUser buffer 4 true] w in
        let len := le_decode lb in
        let string := match info (hostt K) with
                      | Some f => f w1
                      | None => name (hostt K)
                      end in
        (string = None -> ioctl_probe abi K buffer w = Ret 1 w1)
        /\
        (forall s,
            string = Some s -> strlen s + 1 < 4294967296 -> 0 <= len ->
            let n := Z.min len (strlen s + 1) in
            let data := firstn (Z.to_nat n) (string_bytes s ++ [0]) in
            let wr := user_write K (w_umem w) buffer data in
            Z.of_nat (List.length data) = n
            /\ (strlen s < len -> data = string_bytes s ++ [0])
            /\ ioctl_probe abi K buffer w =
                 Ret (if snd wr then 1 else - EFAULT abi)
                   {| w_sdev := w_sdev w; w_umem := fst wr;
                      w_trace := EvCopyToUser buffer data (snd wr)
                                 :: w_trace w1 |})).
Proof.
  intros abi K buffer w.
  split; [intros ->; reflexivity|].
  split.
  - intros Hb Hr. apply Z.eqb_neq in Hb.
    unfold ioctl_probe, get_user, copy_from_user. run.
    rewrite Hb. cbn [negb w_umem w_sdev w_trace]. rewrite Hr. reflexivity.
  - intros lb Hb Hr w1 len string. apply Z.eqb_neq in Hb.
    assert (ioctl_probe abi K buffer w =
            match string with
            | None => Ret 1 w1
            | Some s =>
                let n := if len >? u32 (strlen s)
                         then u32 (u32 (strlen s) + 1) else len in
                let data := firstn (Z.to_nat n) (string_bytes s ++ [0]) in
                let wr := user_write K (w_umem w) buffer data in
                Ret (if snd wr then 1 else - EFAULT abi)
                  {| w_sdev := w_sdev w; w_umem := fst wr;
                     w_trace := EvCopyToUser buffer data (snd wr)
                                :: w_trace w1 |}
            end) as Hrun.
    { unfold ioctl_probe, get_user, copy_from_user, copy_to_user. run.
      rewrite Hb. cbn [negb w_umem w_sdev w_trace]. rewrite Hr.
      cbn [option_map]. fold len.
      subst string w1. unfold logged. cbn [app].
      destruct (info (hostt K)) as [f |].
      - destruct (f _) as [s |]; [| reflexivity].
        cbn [w_umem w_sdev w_trace].
        destruct (user_write K (w_umem w) buffer _) as [m' ok].
        destruct ok; reflexivity.
      - destruct (name (hostt K)) as [s |]; [| reflexivity].
        cbn [w_umem w_sdev w_trace].
        destruct (user_write K (w_umem w) buffer _) as [m' ok].
        destruct ok; reflexivity. }
    split.
    + intros Hs. rewrite Hrun, Hs. reflexivity.
    + intros s Hs Hlen Hlen0 n data wr.
      assert (0 <= strlen s) as Hs0 by (unfold strlen; lia).
      assert ((if len >? u32 (strlen s) then u32 (u32 (strlen s) + 1)
               else len) = n) as Hn.
      { unfold u32. rewrite !Z.mod_small by lia. subst n.
        rewrite Z.gtb_ltb. destruct (Z.ltb_spec (strlen s) len); lia. }
      assert (List.length (string_bytes s ++ [0]) = Z.to_nat (strlen s + 1))
        as Hfull.
      { rewrite length_app, string_bytes_length. simpl. unfold strlen. lia. }
      split; [| split].
      * subst data. rewrite length_firstn, Hfull. subst n. lia.
      * intros Hgt. subst data n. rewrite Z.min_r by lia.
        rewrite <- Hfull. apply firstn_all.
      * rewrite Hrun, Hs. cbv zeta. rewrite Hn. reflexivity.
Qed.

Lemma probe_copy_is_bounded_witness :
  let data := [117; 102; 115] in
  let wr := user_write probe_kernel (w_umem (probe_world 3)) 4096 data in
  Z.of_nat (List.length data) = 3
  /\ (6 < 3 -> data = string_bytes "ufshcd" ++ [0])
  /\ ioctl_probe linux_abi probe_kernel 4096 (probe_world 3) =
       Ret (if snd wr then 1 else - EFAULT linux_abi)
         {| w_sdev := w_sdev (probe_world 3); w_umem := fst wr;
            w_trace := [EvCopyToUser 4096 data (snd wr);
                        EvCopyFromUser 4096 4 true] |}.
Proof.
  apply (proj2 (proj2 (proj2 (probe_copy_is_bounded linux_abi probe_kernel 4096
                                (probe_world 3)))
                        [3; 0; 0; 0] ltac:(discriminate) eq_refl)
           "ufshcd"%string eq_refl); simpl; lia.
Defined.

(** X10.  SCSI_IOCTL_GET_PCI.  A host without a parent device is answered
    with -ENXIO and nothing is written.  Otherwise at most the first 20
    bytes of the device name are copied to the argument and no
    terminator is added; a name of up to 20 bytes is copied whole. *)
Theorem get_pci_copies_at_most_20 :
  forall abi K arg w,
    (parent_dev_name (host (w_sdev w)) = None ->
     scsi_ioctl abi K (SCSI_IOCTL_GET_PCI abi) arg w = Ret (- ENXIO abi) w)
    /\
    (forall nm,
        parent_dev_name (host (w_sdev w)) = Some nm ->
        let data := firstn 20 (string_bytes nm) in
        let wr := user_write K (w_umem w) arg data in
        scsi_ioctl abi K (SCSI_IOCTL_GET_PCI abi) arg w =
          Ret (if snd wr then 0 else - EFAULT abi)
            {| w_sdev := w_sdev w; w_umem := fst wr;
               w_trace := EvCopyToUser arg data (snd wr) :: w_trace w |}
        /\ (List.length data <= 20)%nat
        /\ (strlen nm <= 20 -> data = string_bytes nm)).
Proof.
  intros abi K arg w.
  assert (scsi_ioctl abi K (SCSI_IOCTL_GET_PCI abi) arg w
          = scsi_ioctl_get_pci abi K arg w) as ->.
  { code_facts abi. unfold scsi_ioctl, deprecated_ioctl.
    decide_all_eqb. reflexivity. }
  split.
  - intros Hnm. unfold scsi_ioctl_get_pci. run. rewrite Hnm. reflexivity.
  - intros nm Hnm data wr.
    unfold scsi_ioctl_get_pci, copy_to_user. run. rewrite Hnm.
    assert (firstn (Z.to_nat (Z.min (strlen nm) 20)) (string_bytes nm) = data)
      as ->.
    { subst data. unfold strlen.
      destruct (Z.le_gt_cases (Z.of_nat (String.length nm)) 20) as [H | H].
      - rewrite Z.min_l by lia.
        rewrite !firstn_all2 by (rewrite string_bytes_length; lia).
        reflexivity.
      - rewrite Z.min_r by lia. reflexivity. }
    fold wr. split; [| split].
    + destruct wr as [m' ok]. destruct ok; reflexivity.
    + subst data. rewrite length_firstn. lia.
    + intros H. subst data. apply firstn_all2.
      rewrite string_bytes_length. unfold strlen in H. lia.
Qed.

Lemma get_pci_copies_at_most_20_witness :
  let data := string_bytes "0000:00:1f.2" in
  let wr := user_write good_kernel (w_umem idlun_world) 4096 data in
  scsi_ioctl linux_abi good_kernel (SCSI_IOCTL_GET_PCI linux_abi) 4096
    idlun_world =
    Ret (if snd wr then 0 else - EFAULT linux_abi)
      {| w_sdev := w_sdev idlun_world; w_umem := fst wr;
         w_trace := [EvCopyToUser 4096 data (snd wr)] |}
  /\ (List.length data <= 20)%nat
  /\ (strlen "0000:00:1f.2" <= 20 -> data = string_bytes "0000:00:1f.2").
Proof.
  apply (proj2 (get_pci_copies_at_most_20 linux_abi good_kernel 4096
                  idlun_world) "0000:00:1f.2"%string).
  reflexivity.
Defined.

(** X11.  SCSI_IOCTL_SEND_COMMAND.  Without both CAP_SYS_ADMIN and
    CAP_SYS_RAWIO the request is answered with -EACCES and
    [sg_scsi_ioctl] is not reached: apart from the deprecation notice
    the world is as it was.  With both, the request goes to
    [sg_scsi_ioctl], after the notice, and its result is returned. *)
Theorem send_command_needs_both_capabilities :
  forall abi K arg w,
    let notice := EvPrintk "program %s is using a deprecated SCSI ioctl, please convert it to SG_IO" in
    let w0 := logged [notice] w in
    (k_capable K CAP_SYS_ADMIN = false \/ k_capable K CAP_SYS_RAWIO = false ->
     scsi_ioctl abi K (SCSI_IOCTL_SEND_COMMAND abi) arg w
     = Ret (- EACCES abi) w0)
    /\
    (k_capable K CAP_SYS_ADMIN = true -> k_capable K CAP_SYS_RAWIO = true ->
     scsi_ioctl abi K (SCSI_IOCTL_SEND_COMMAND abi) arg w
     = Ret (fst (k_sg_scsi_ioctl K arg w0)) (snd (k_sg_scsi_ioctl K arg w0))).
Proof.
  intros abi K arg w notice w0.
  assert (scsi_ioctl abi K (SCSI_IOCTL_SEND_COMMAND abi) arg w =
          if negb (k_capable K CAP_SYS_ADMIN) || negb (k_capable K CAP_SYS_RAWIO)
          then Ret (- EACCES abi) w0
          else Ret (fst (k_sg_scsi_ioctl K arg w0))
                   (snd (k_sg_scsi_ioctl K arg w0))) as ->.
  { code_facts abi. unfold scsi_ioctl, deprecated_ioctl.
    decide_all_eqb. simpl orb. cbv iota. run.
    destruct (negb (k_capable K CAP_SYS_ADMIN)
              || negb (k_capable K CAP_SYS_RAWIO)); [reflexivity|].
    subst w0 notice. unfold logged. cbn [app].
    destruct (k_sg_scsi_ioctl K arg _). reflexivity. }
  split.
  - intros [-> | ->]; rewrite ?orb_true_r; reflexivity.
  - intros -> ->. reflexivity.
Qed.

Lemma send_command_needs_both_capabilities_witness :
  let w := demo_world (demo_sdev false false) (fun _ => None) in
  scsi_ioctl linux_abi unprivileged_kernel
    (SCSI_IOCTL_SEND_COMMAND linux_abi) 0 w
  = Ret (- EACCES linux_abi)
      (logged [EvPrintk "program %s is using a deprecated SCSI ioctl, please convert it to SG_IO"] w).
Proof.
  intros w.
  apply (send_command_needs_both_capabilities linux_abi unprivileged_kernel
           0 w).
  right. reflexivity.
Defined.

Lemma start_stop_cdb_bytes abi start :
  (6 <= MAX_COMMAND_SIZE abi)%nat ->
  0 <= START_STOP abi < 256 ->
  start_stop_cdb abi start =
    [START_STOP abi; 0; 0; 0; start; 0]
    ++ repeat 0 (MAX_COMMAND_SIZE abi - 6).
Proof.
  intros Hn Hs. unfold start_stop_cdb, memset0. cbv zeta.
  replace (MAX_COMMAND_SIZE abi) with (6 + (MAX_COMMAND_SIZE abi - 6))%nat
    at 1 by lia.
  rewrite repeat_app. unfold u8. rewrite Z.mod_small by assumption.
  reflexivity.
Qed.

(** X12.  The deprecated unit commands are still carried out, after the
    deprecation notice.  START_UNIT and STOP_UNIT run one internal
    command with the start/stop timeout and five retries whose
    descriptor is START_STOP, three zeros, 1 to start or 0 to stop, and
    zeros to the end; TEST_UNIT_READY goes to [scsi_test_unit_ready]
    with the normal timeout and five retries. *)
Theorem deprecated_unit_commands :
  forall abi K arg w,
    (6 <= MAX_COMMAND_SIZE abi)%nat ->
    0 <= START_STOP abi < 256 ->
    let notice := EvPrintk "program %s is using a deprecated SCSI ioctl, please convert it to SG_IO" in
    let w0 := logged [notice] w in
    let cdb start := [START_STOP abi; 0; 0; 0; start; 0]
                     ++ repeat 0 (MAX_COMMAND_SIZE abi - 6) in
    scsi_ioctl abi K (SCSI_IOCTL_START_UNIT abi) arg w
    = ioctl_internal_command abi K (cdb 1) (START_STOP_TIMEOUT abi) 5 w0
    /\ scsi_ioctl abi K (SCSI_IOCTL_STOP_UNIT abi) arg w
       = ioctl_internal_command abi K (cdb 0) (START_STOP_TIMEOUT abi) 5 w0
    /\ scsi_ioctl abi K (SCSI_IOCTL_TEST_UNIT_READY abi) arg w
       = Ret (fst (k_scsi_test_unit_ready K (10 * HZ abi) 5 w0))
             (snd (k_scsi_test_unit_ready K (10 * HZ abi) 5 w0)).
Proof.
  intros abi K arg w Hn Hs notice w0 cdb.
  code_facts abi.
  split; [| split].
  - unfold scsi_ioctl, deprecated_ioctl. decide_all_eqb. simpl orb. cbv iota.
    rewrite (start_stop_cdb_bytes abi 1 Hn Hs). reflexivity.
  - unfold scsi_ioctl, deprecated_ioctl. decide_all_eqb. simpl orb. cbv iota.
    rewrite (start_stop_cdb_bytes abi 0 Hn Hs). reflexivity.
  - unfold scsi_ioctl, deprecated_ioctl. decide_all_eqb. simpl orb. cbv iota.
    run. subst w0 notice. unfold logged. cbn [app].
    unfold IOCTL_NORMAL_TIMEOUT, NORMAL_RETRIES.
    destruct (k_scsi_test_unit_ready K _ _ _). reflexivity.
Qed.

Lemma deprecated_unit_commands_witness :
  let w := demo_world (demo_sdev false false) (fun _ => None) in
  scsi_ioctl linux_abi good_kernel (SCSI_IOCTL_STOP_UNIT linux_abi) 0 w
  = ioctl_internal_command linux_abi good_kernel
      [0x1b; 0; 0; 0; 0; 0; 0; 0; 0; 0; 0; 0; 0; 0; 0; 0] 15000 5
      (logged [EvPrintk "program %s is using a deprecated SCSI ioctl, please convert it to SG_IO"] w).
Proof.
  intros w.
  apply (deprecated_unit_commands linux_abi good_kernel 0 w); simpl; lia.
Defined.

(** ** More on the security-protocol transfer *)

Lemma in_out_codes_differ abi :
  (SCSI_IOCTL_SECURITY_PROTOCOL_OUT abi
   =? SCSI_IOCTL_SECURITY_PROTOCOL_IN abi) = false.
Proof. code_facts abi. decide_all_eqb. reflexivity. Qed.

(** The runs that end before the length check. *)
Lemma secu_prot_early_runs :
  forall abi K cmd prot arg timeout retries w,
    let run := ioctl_secu_prot_command abi K cmd prot arg timeout retries w in
    (k_alloc_ok K (w_trace w) sizeof_Scsi_Ioctl_Command = false ->
     run = Ret (- EFAULT abi)
             (logged [EvPrintk "%s kmalloc faild";
                      EvKmalloc sizeof_Scsi_Ioctl_Command false] w))
    /\
    (k_alloc_ok K (w_trace w) sizeof_Scsi_Ioctl_Command = true ->
     user_read K (w_umem w) arg sizeof_Scsi_Ioctl_Command = None ->
     run = Ret (- EFAULT abi)
             (logged [EvKfree (Some sizeof_Scsi_Ioctl_Command);
                      EvPrintk "Argument copy faild";
                      EvCopyFromUser arg sizeof_Scsi_Ioctl_Command false;
                      EvKmalloc sizeof_Scsi_Ioctl_Command true] w))
    /\
    (forall bytes,
        k_alloc_ok K (w_trace w) sizeof_Scsi_Ioctl_Command = true ->
        user_read K (w_umem w) arg sizeof_Scsi_Ioctl_Command = Some bytes ->
        prot <> SCSI_IOCTL_SECURITY_PROTOCOL_IN abi ->
        prot <> SCSI_IOCTL_SECURITY_PROTOCOL_OUT abi ->
        run = Ret (- EFAULT abi)
                (logged (EvKfree (Some sizeof_Scsi_Ioctl_Command)
                         :: EvPrintk "prot_in_out not set!! %d"
                         :: header_events arg) w)).
Proof.
  intros abi K cmd prot arg timeout retries w run. subst run.
  split; [| split].
  - intros Hk. unfold ioctl_secu_prot_command. run. rewrite Hk. reflexivity.
  - intros Hk Hh. unfold ioctl_secu_prot_command, copy_from_user. run.
    rewrite Hk. cbn [negb w_umem w_trace w_sdev]. rewrite Hh. reflexivity.
  - intros bytes Hk Hh Hin Hout.
    apply Z.eqb_neq in Hin. apply Z.eqb_neq in Hout.
    unfold ioctl_secu_prot_command, copy_from_user. run.
    rewrite Hk. cbn [negb w_umem w_trace w_sdev]. rewrite Hh, Hin, Hout.
    reflexivity.
Qed.

(** X13.  The failures before the length check: the header cannot be
    allocated (nothing to release), the header cannot be read, or the
    command is neither the in nor the out command.  Each is answered
    with -EFAULT; the header, once allocated, is released; no data
    buffer is allocated, no command is issued and user memory and the
    device are untouched. *)
Theorem secu_prot_early_failures :
  forall abi K cmd prot arg timeout retries w,
    let run := ioctl_secu_prot_command abi K cmd prot arg timeout retries w in
    (k_alloc_ok K (w_trace w) sizeof_Scsi_Ioctl_Command = false ->
     run = Ret (- EFAULT abi)
             (logged [EvPrintk "%s kmalloc faild";
                      EvKmalloc sizeof_Scsi_Ioctl_Command false] w))
    /\
    (k_alloc_ok K (w_trace w) sizeof_Scsi_Ioctl_Command = true ->
     user_read K (w_umem w) arg sizeof_Scsi_Ioctl_Command = None ->
     run = Ret (- EFAULT abi)
             (logged [EvKfree (Some sizeof_Scsi_Ioctl_Command);
                      EvPrintk "Argument copy faild";
                      EvCopyFromUser arg sizeof_Scsi_Ioctl_Command false;
                      EvKmalloc sizeof_Scsi_Ioctl_Command true] w))
    /\
    (forall bytes,
        k_alloc_ok K (w_trace w) sizeof_Scsi_Ioctl_Command = true ->
        user_read K (w_umem w) arg sizeof_Scsi_Ioctl_Command = Some bytes ->
        prot <> SCSI_IOCTL_SECURITY_PROTOCOL_IN abi ->
        prot <> SCSI_IOCTL_SECURITY_PROTOCOL_OUT abi ->
        run = Ret (- EFAULT abi)
                (logged (EvKfree (Some sizeof_Scsi_Ioctl_Command)
                         :: EvPrintk "prot_in_out not set!! %d"
                         :: header_events arg) w)).
Proof. exact secu_prot_early_runs. Qed.

Lemma secu_prot_early_failures_witness :
  let w := demo_world (demo_sdev false false) (fun _ => None) in
  ioctl_secu_prot_command linux_abi good_kernel
    (demo_cdb (SCSI_IOCTL_SECURITY_PROTOCOL_IN linux_abi) 4)
    (SCSI_IOCTL_SECURITY_PROTOCOL_IN linux_abi) 4096 15000 5 w
  = Ret (- EFAULT linux_abi)
      (logged [EvKfree (Some sizeof_Scsi_Ioctl_Command);
               EvPrintk "Argument copy faild";
               EvCopyFromUser 4096 sizeof_Scsi_Ioctl_Command false;
               EvKmalloc sizeof_Scsi_Ioctl_Command true] w).
Proof.
  intros w.
  apply (secu_prot_early_failures linux_abi good_kernel
           (demo_cdb (SCSI_IOCTL_SECURITY_PROTOCOL_IN linux_abi) 4)
           (SCSI_IOCTL_SECURITY_PROTOCOL_IN linux_abi) 4096 15000 5 w);
    reflexivity.
Defined.

(** The run of an out transfer whose data cannot be read. *)
Lemma secu_prot_out_unreadable_run :
  forall abi K cmd arg timeout retries w bytes,
    k_alloc_ok K (w_trace w) sizeof_Scsi_Ioctl_Command = true ->
    user_read K (w_umem w) arg sizeof_Scsi_Ioctl_Command = Some bytes ->
    let L := outlen (decode_Scsi_Ioctl_Command bytes) in
    0 < L <= MAX_BUFFLEN ->
    k_alloc_ok K (header_events arg ++ w_trace w) L = true ->
    user_read K (w_umem w) (arg + sizeof_Scsi_Ioctl_Command) L = None ->
    ioctl_secu_prot_command abi K cmd (SCSI_IOCTL_SECURITY_PROTOCOL_OUT abi)
      arg timeout retries w =
    Ret (- EFAULT abi)
      (logged ([EvKfree (Some sizeof_Scsi_Ioctl_Command); EvKfree (Some L);
                EvPrintk "copy_from_user failed";
                EvCopyFromUser (arg + sizeof_Scsi_Ioctl_Command) L false;
                EvKzalloc L true] ++ header_events arg) w).
Proof.
  intros abi K cmd arg timeout retries w bytes Hk Hh L HL Hz Hd.
  unfold ioctl_secu_prot_command, copy_from_user. run.
  unfold header_events in *. cbn [app] in Hz.
  rewrite Hk. cbn [negb w_umem w_trace w_sdev].
  rewrite Hh. fold L. rewrite in_out_codes_differ, Z.eqb_refl.
  rewrite (bufflen_check_valid L HL).
  cbn [w_umem w_trace w_sdev]. rewrite Hz.
  cbn [w_umem w_trace w_sdev]. rewrite Hd.
  cbn [option_map]. rewrite repeat_length, Z2Nat.id by lia.
  reflexivity.
Qed.

(** X14.  An out transfer whose data cannot be copied in is answered with
    -EFAULT after the length check: the data buffer and the header are
    both released and no command is issued. *)
Theorem secu_prot_out_copy_in_failure :
  forall abi K cmd arg timeout retries w bytes,
    k_alloc_ok K (w_trace w) sizeof_Scsi_Ioctl_Command = true ->
    user_read K (w_umem w) arg sizeof_Scsi_Ioctl_Command = Some bytes ->
    let L := outlen (decode_Scsi_Ioctl_Command bytes) in
    0 < L <= MAX_BUFFLEN ->
    k_alloc_ok K (header_events arg ++ w_trace w) L = true ->
    user_read K (w_umem w) (arg + sizeof_Scsi_Ioctl_Command) L = None ->
    ioctl_secu_prot_command abi K cmd (SCSI_IOCTL_SECURITY_PROTOCOL_OUT abi)
      arg timeout retries w =
    Ret (- EFAULT abi)
      (logged ([EvKfree (Some sizeof_Scsi_Ioctl_Command); EvKfree (Some L);
                EvPrintk "copy_from_user failed";
                EvCopyFromUser (arg + sizeof_Scsi_Ioctl_Command) L false;
                EvKzalloc L true] ++ header_events arg) w).
Proof. exact secu_prot_out_unreadable_run. Qed.

Lemma secu_prot_out_copy_in_failure_witness :
  let cmd := SCSI_IOCTL_SECURITY_PROTOCOL_OUT linux_abi in
  let w := demo_request 0 8 in
  ioctl_secu_prot_command linux_abi good_kernel (demo_cdb cmd 8) cmd
    4096 15000 5 w =
  Ret (- EFAULT linux_abi)
    (logged ([EvKfree (Some sizeof_Scsi_Ioctl_Command); EvKfree (Some 8);
              EvPrintk "copy_from_user failed";
              EvCopyFromUser (4096 + sizeof_Scsi_Ioctl_Command) 8 false;
              EvKzalloc 8 true] ++ header_events 4096) w).
Proof.
  intros cmd w.
  apply (secu_prot_out_copy_in_failure linux_abi good_kernel (demo_cdb cmd 8)
           4096 15000 5 w [0; 0; 0; 0; 8; 0; 0; 0]);
    try reflexivity.
  unfold MAX_BUFFLEN. simpl. lia.
Defined.

(** The runs in which the data buffer cannot be allocated. *)
Lemma secu_prot_null_buffer_runs :
  forall abi K cmd arg timeout retries w bytes,
    k_alloc_ok K (w_trace w) sizeof_Scsi_Ioctl_Command = true ->
    user_read K (w_umem w) arg sizeof_Scsi_Ioctl_Command = Some bytes ->
    (let L := inlen (decode_Scsi_Ioctl_Command bytes) in
     0 < L <= MAX_BUFFLEN ->
     k_alloc_ok K (header_events arg ++ w_trace w) L = false ->
     let req := {| x_cmd := cmd; x_dir := DMA_FROM_DEVICE; x_buf := None;
                   x_bufflen := L; x_timeout := timeout;
                   x_retries := retries |} in
     let rep := k_scsi_execute_req K
                  (logged (EvKzalloc L false :: header_events arg) w) req in
     ioctl_secu_prot_command abi K cmd (SCSI_IOCTL_SECURITY_PROTOCOL_IN abi)
       arg timeout retries w =
     Oops (logged (EvExecuteReq req rep :: EvKzalloc L false
                   :: header_events arg) w))
    /\
    (let L := outlen (decode_Scsi_Ioctl_Command bytes) in
     0 < L <= MAX_BUFFLEN ->
     k_alloc_ok K (header_events arg ++ w_trace w) L = false ->
     ioctl_secu_prot_command abi K cmd (SCSI_IOCTL_SECURITY_PROTOCOL_OUT abi)
       arg timeout retries w =
     Oops (logged (EvKzalloc L false :: header_events arg) w)).
Proof.
  intros abi K cmd arg timeout retries w bytes Hk Hh.
  split; intros L HL Hz.
  - intros req rep.
    unfold ioctl_secu_prot_command, copy_from_user. run.
    unfold header_events in *. cbn [app] in Hz.
    rewrite Hk. cbn [negb w_umem w_trace w_sdev].
    rewrite Hh. fold L. rewrite Z.eqb_refl.
    rewrite (bufflen_check_valid L HL).
    cbn [w_umem w_trace w_sdev]. rewrite Hz. reflexivity.
  - unfold ioctl_secu_prot_command, copy_from_user. run.
    unfold header_events in *. cbn [app] in Hz.
    rewrite Hk. cbn [negb w_umem w_trace w_sdev].
    rewrite Hh. fold L. rewrite in_out_codes_differ, Z.eqb_refl.
    rewrite (bufflen_check_valid L HL).
    cbn [w_umem w_trace w_sdev]. rewrite Hz. reflexivity.
Qed.

(** X15.  The buffer allocation is not checked.  In the in direction a failed
    allocation reaches the execution primitive as a NULL buffer with the
    declared length, and the copy-out that follows reads through the
    NULL pointer; in the out direction the copy-in writes through it
    before any command is issued. *)
Theorem secu_prot_unchecked_buffer_allocation :
  forall abi K cmd arg timeout retries w bytes,
    k_alloc_ok K (w_trace w) sizeof_Scsi_Ioctl_Command = true ->
    user_read K (w_umem w) arg sizeof_Scsi_Ioctl_Command = Some bytes ->
    (let L := inlen (decode_Scsi_Ioctl_Command bytes) in
     0 < L <= MAX_BUFFLEN ->
     k_alloc_ok K (header_events arg ++ w_trace w) L = false ->
     let req := {| x_cmd := cmd; x_dir := DMA_FROM_DEVICE; x_buf := None;
                   x_bufflen := L; x_timeout := timeout;
                   x_retries := retries |} in
     let rep := k_scsi_execute_req K
                  (logged (EvKzalloc L false :: header_events arg) w) req in
     ioctl_secu_prot_command abi K cmd (SCSI_IOCTL_SECURITY_PROTOCOL_IN abi)
       arg timeout retries w =
     Oops (logged (EvExecuteReq req rep :: EvKzalloc L false
                   :: header_events arg) w))
    /\
    (let L := outlen (decode_Scsi_Ioctl_Command bytes) in
     0 < L <= MAX_BUFFLEN ->
     k_alloc_ok K (header_events arg ++ w_trace w) L = false ->
     ioctl_secu_prot_command abi K cmd (SCSI_IOCTL_SECURITY_PROTOCOL_OUT abi)
       arg timeout retries w =
     Oops (logged (EvKzalloc L false :: header_events arg) w)).
Proof. exact secu_prot_null_buffer_runs. Qed.

Lemma secu_prot_unchecked_buffer_allocation_witness :
  let cmd := SCSI_IOCTL_SECURITY_PROTOCOL_IN linux_abi in
  let w := demo_request 4 0 in
  let req := {| x_cmd := demo_cdb cmd 4; x_dir := DMA_FROM_DEVICE;
                x_buf := None; x_bufflen := 4; x_timeout := 15000;
                x_retries := 5 |} in
  ioctl_secu_prot_command linux_abi lowmem_kernel (demo_cdb cmd 4) cmd
    4096 15000 5 w =
  Oops (logged (EvExecuteReq req (reply_good []) :: EvKzalloc 4 false
                :: header_events 4096) w).
Proof.
  intros cmd w req.
  apply (proj1 (secu_prot_unchecked_buffer_allocation linux_abi lowmem_kernel
                  (demo_cdb cmd 4) 4096 15000 5 w [4; 0; 0; 0; 0; 0; 0; 0]
                  eq_refl eq_refl));
    try reflexivity.
  unfold MAX_BUFFLEN. simpl. lia.
Defined.

Lemma prefix_nil {A} (l : list A) : l = [] ++ l.
Proof. reflexivity. Qed.

Lemma prefix_cons {A} (x : A) (l p r : list A) :
  l = p ++ r -> x :: l = (x :: p) ++ r.
Proof. intros ->. reflexivity. Qed.

(** Split a list given by its elements at a known tail. *)
Ltac find_prefix :=
  repeat first [apply prefix_nil | apply prefix_cons].

Lemma user_read_length K m a n bs :
  user_read K m a n = Some bs -> 0 <= n -> Z.of_nat (List.length bs) = n.
Proof.
  unfold user_read. destruct (access_ok K a n); [| discriminate].
  intros H Hn. apply read_bytes_length in H. rewrite H. apply Z2Nat.id.
  assumption.
Qed.

Lemma user_write_outside K m a data x :
  x < a \/ a + Z.of_nat (List.length data) <= x ->
  fst (user_write K m a data) x = m x.
Proof.
  intros H. unfold user_write.
  destruct (access_ok K a _); [| reflexivity].
  apply write_bytes_outside. assumption.
Qed.

(** Go through the paths of [ioctl_secu_prot_command], replacing the
    call in the goal by the outcome of each path. *)
Ltac secu_prot_paths abi K cmd prot arg timeout retries w :=
  let Hk := fresh "Hk" in
  let Hh := fresh "Hh" in
  let Hz := fresh "Hz" in
  let Hd := fresh "Hd" in
  let Hlo := fresh "Hlo" in
  let Hhi := fresh "Hhi" in
  let Hin := fresh "Hin" in
  let Hout := fresh "Hout" in
  let bytes := fresh "bytes" in
  let bs := fresh "bs" in
  destruct (k_alloc_ok K (w_trace w) sizeof_Scsi_Ioctl_Command) eqn:Hk;
  [ destruct (user_read K (w_umem w) arg sizeof_Scsi_Ioctl_Command)
      as [bytes |] eqn:Hh;
    [ destruct (Z.eq_dec prot (SCSI_IOCTL_SECURITY_PROTOCOL_IN abi))
        as [Hin | Hin];
      [ subst prot;
        destruct (Z_lt_le_dec 0 (inlen (decode_Scsi_Ioctl_Command bytes)))
          as [Hlo | Hlo];
        [ destruct (Z_le_gt_dec (inlen (decode_Scsi_Ioctl_Command bytes))
                      MAX_BUFFLEN) as [Hhi | Hhi];
          [ destruct (k_alloc_ok K (header_events arg ++ w_trace w)
                        (inlen (decode_Scsi_Ioctl_Command bytes))) eqn:Hz;
            [ rewrite (secu_prot_in_outcome abi K cmd arg timeout retries w
                         bytes Hk Hh (conj Hlo Hhi) Hz)
            | rewrite (proj1 (secu_prot_null_buffer_runs abi K cmd arg
                                timeout retries w bytes Hk Hh)
                         (conj Hlo Hhi) Hz) ]
          | rewrite (secu_prot_bad_length abi K cmd _ arg timeout retries w
                       bytes _ Hk Hh (or_introl (conj eq_refl eq_refl))
                       (or_intror Hhi)) ]
        | rewrite (secu_prot_bad_length abi K cmd _ arg timeout retries w
                     bytes _ Hk Hh (or_introl (conj eq_refl eq_refl))
                     (or_introl Hlo)) ]
      | destruct (Z.eq_dec prot (SCSI_IOCTL_SECURITY_PROTOCOL_OUT abi))
          as [Hout | Hout];
        [ subst prot;
          destruct (Z_lt_le_dec 0 (outlen (decode_Scsi_Ioctl_Command bytes)))
            as [Hlo | Hlo];
          [ destruct (Z_le_gt_dec (outlen (decode_Scsi_Ioctl_Command bytes))
                        MAX_BUFFLEN) as [Hhi | Hhi];
            [ destruct (k_alloc_ok K (header_events arg ++ w_trace w)
                          (outlen (decode_Scsi_Ioctl_Command bytes))) eqn:Hz;
              [ destruct (user_read K (w_umem w)
                            (arg + sizeof_Scsi_Ioctl_Command)
                            (outlen (decode_Scsi_Ioctl_Command bytes)))
                  as [bs |] eqn:Hd;
                [ rewrite (secu_prot_out_outcome abi K cmd arg timeout
                             retries w bytes bs Hk Hh (conj Hlo Hhi) Hz Hd)
                | rewrite (secu_prot_out_unreadable_run abi K cmd arg timeout
                             retries w bytes Hk Hh (conj Hlo Hhi) Hz Hd) ]
              | rewrite (proj2 (secu_prot_null_buffer_runs abi K cmd arg
                                  timeout retries w bytes Hk Hh)
                           (conj Hlo Hhi) Hz) ]
            | rewrite (secu_prot_bad_length abi K cmd _ arg timeout retries w
                         bytes _ Hk Hh (or_intror (conj eq_refl eq_refl))
                         (or_intror Hhi)) ]
          | rewrite (secu_prot_bad_length abi K cmd _ arg timeout retries w
                       bytes _ Hk Hh (or_intror (conj eq_refl eq_refl))
                       (or_introl Hlo)) ]
        | rewrite (proj2 (proj2 (secu_prot_early_runs abi K cmd prot arg
                                   timeout retries w)) bytes Hk Hh Hin Hout) ] ]
    | rewrite (proj1 (proj2 (secu_prot_early_runs abi K cmd prot arg
                               timeout retries w)) Hk Hh) ]
  | rewrite (proj1 (secu_prot_early_runs abi K cmd prot arg
                      timeout retries w) Hk) ].

(** Bring the trace of an outcome into the form of a list of events in
    front of the initial trace. *)
Ltac expose_trace :=
  unfold logged, header_events, sense_log;
  repeat match goal with
         | |- context [if ?c then _ else _] => destruct c
         end;
  cbn [app w_trace w_sdev w_umem final_world returned].

(** X16.  Every object [ioctl_secu_prot_command] allocates is released
    exactly once before it returns, on every path, and it releases
    nothing else; the only runs that do not return are those in which
    the allocation of the data buffer failed. *)
Theorem secu_prot_releases_what_it_allocates :
  forall abi K cmd prot arg timeout retries w,
    match ioctl_secu_prot_command abi K cmd prot arg timeout retries w with
    | Ret res w' =>
        exists new,
          w_trace w' = new ++ w_trace w
          /\ allocated new = freed new
          /\ ~ In (EvKfree None) new
    | Oops w' =>
        exists new n,
          w_trace w' = new ++ w_trace w
          /\ In (EvKzalloc n false) new
    end.
Proof.
  intros abi K cmd prot arg timeout retries w.
  secu_prot_paths abi K cmd prot arg timeout retries w.
  all: expose_trace.
  all: try (eexists; split; [find_prefix | split; [reflexivity |]];
            simpl; intuition discriminate).
  all: eexists; eexists; split; [find_prefix | simpl; auto].
Qed.

(** X17.  No size taken from the caller's header goes unchecked: on every
    path, whatever the header declares, each data buffer is requested
    with a size in (0, MAX_BUFFLEN], and each request handed to the
    execution primitive carries the caller's descriptor, timeout and
    retries, a length in (0, MAX_BUFFLEN] and, when it has a buffer, a
    buffer of exactly that length. *)
Theorem secu_prot_sizes_are_bounded :
  forall abi K cmd prot arg timeout retries w,
    let w' := final_world
                (ioctl_secu_prot_command abi K cmd prot arg timeout retries w)
    in
    exists new,
      w_trace w' = new ++ w_trace w
      /\ (forall n ok, In (EvKzalloc n ok) new -> 0 < n <= MAX_BUFFLEN)
      /\ (forall req rep,
             In (EvExecuteReq req rep) new ->
             x_cmd req = cmd /\ x_timeout req = timeout
             /\ x_retries req = retries
             /\ 0 < x_bufflen req <= MAX_BUFFLEN
             /\ (forall b, x_buf req = Some b ->
                           Z.of_nat (List.length b) = x_bufflen req)).
Proof.
  intros abi K cmd prot arg timeout retries w w'. subst w'.
  secu_prot_paths abi K cmd prot arg timeout retries w.
  all: try (apply user_read_length in Hd; [| lia]).
  all: repeat match goal with
              | H : context [inlen ?d] |- _ =>
                  let L := fresh "L" in set (L := inlen d) in *; clearbody L
              | H : context [outlen ?d] |- _ =>
                  let L := fresh "L" in set (L := outlen d) in *; clearbody L
              end.
  all: expose_trace.
  all: eexists; split; [find_prefix |].
  all: split;
    [ intros n ok Hin'; cbn [In] in Hin';
      repeat (destruct Hin' as [Hin' | Hin']; try discriminate Hin');
      try contradiction; injection Hin' as <- _; lia
    | intros req rep Hin'; cbn [In] in Hin';
      repeat (destruct Hin' as [Hin' | Hin']; try discriminate Hin');
      try contradiction; injection Hin' as <- _;
      cbn [x_cmd x_timeout x_retries x_bufflen x_buf];
      repeat split; try lia; try discriminate;
      intros b [= <-]; rewrite ?repeat_length; try lia; assumption ].
Qed.

(** X18.  What [ioctl_secu_prot_command] leaves alone and what it returns.
    The device is never modified.  User memory is written only in the
    in direction, and then only in the MAX_BUFFLEN bytes that follow
    the header: the header itself and everything past that window keep
    their contents.  A call that returns gives -EFAULT or the result of
    the one command it issued. *)
Theorem secu_prot_footprint :
  forall abi K cmd prot arg timeout retries w,
    let run := ioctl_secu_prot_command abi K cmd prot arg timeout retries w in
    let out := arg + sizeof_Scsi_Ioctl_Command in
    w_sdev (final_world run) = w_sdev w
    /\ (forall x, x < out \/ out + MAX_BUFFLEN <= x ->
                  w_umem (final_world run) x = w_umem w x)
    /\ (prot <> SCSI_IOCTL_SECURITY_PROTOCOL_IN abi ->
        w_umem (final_world run) = w_umem w)
    /\ (forall res, returned run = Some res ->
          res = - EFAULT abi
          \/ exists new req rep,
               w_trace (final_world run) = new ++ w_trace w
               /\ In (EvExecuteReq req rep) new
               /\ res = r_result rep).
Proof.
  intros abi K cmd prot arg timeout retries w run out. subst run out.
  secu_prot_paths abi K cmd prot arg timeout retries w.
  all: cbn [final_world returned w_sdev w_umem logged].
  all: split; [reflexivity |].
  all: split;
    [ intros x Hx; try reflexivity;
      apply user_write_outside; rewrite dma_fill_length, repeat_length; lia |].
  all: split; [intros Hne; try reflexivity; exfalso; apply Hne; reflexivity |].
  all: intros res Hres; try discriminate Hres; injection Hres as <-.
  all: try (left; reflexivity).
  - destruct (snd (user_write K (w_umem w) _ _)); [| left; reflexivity].
    right. expose_trace;
      (eexists; eexists; eexists; split; [find_prefix |];
       split; [| reflexivity]; simpl; tauto).
  - right. expose_trace;
      (eexists; eexists; eexists; split; [find_prefix |];
       split; [| reflexivity]; simpl; tauto).
Qed.

(** ** The secure RPMB path *)

(** X19.  A request whose command is neither in nor out, or whose length is 0
    or exceeds MAX_BUFFLEN, is answered with -EFAULT: only a log line is
    added, nothing is allocated and the request is returned as it was.
*)
Theorem srpmb_rejects_bad_requests :
  forall abi K cmd req timeout retries w,
    let run := srpmb_ioctl_secu_prot_command abi K cmd req timeout retries w in
    (rq_cmd req <> SCSI_IOCTL_SECURITY_PROTOCOL_IN abi ->
     rq_cmd req <> SCSI_IOCTL_SECURITY_PROTOCOL_OUT abi ->
     run = Ret (- EFAULT abi, req)
             (logged [EvPrintk "prot_in_out not set!! %d"] w))
    /\
    (rq_cmd req = SCSI_IOCTL_SECURITY_PROTOCOL_IN abi
     \/ rq_cmd req = SCSI_IOCTL_SECURITY_PROTOCOL_OUT abi ->
     srpmb_bufflen abi req <= 0 \/ srpmb_bufflen abi req > MAX_BUFFLEN ->
     run = Ret (- EFAULT abi, req)
             (logged [EvPrintk "Invalid bufflen : %x"] w)).
Proof.
  intros abi K cmd req timeout retries w run. subst run.
  pose proof (in_out_codes_differ abi) as Hio.
  unfold srpmb_ioctl_secu_prot_command, srpmb_bufflen. run.
  split.
  - intros Hin Hout. apply Z.eqb_neq in Hin. apply Z.eqb_neq in Hout.
    rewrite Hin, Hout. reflexivity.
  - intros [Hc | Hc] HL; rewrite Hc in *; rewrite ?Hio, Z.eqb_refl in *;
      rewrite (bufflen_check_invalid _ HL); reflexivity.
Qed.

Lemma srpmb_rejects_bad_requests_witness :
  let req := demo_rpmb_req (SCSI_IOCTL_SECURITY_PROTOCOL_OUT linux_abi) 4 0 in
  let w := demo_world (demo_sdev false false) (fun _ => None) in
  srpmb_ioctl_secu_prot_command linux_abi good_kernel
    (demo_cdb (rq_cmd req) 0) req 15000 5 w
  = Ret (- EFAULT linux_abi, req)
      (logged [EvPrintk "Invalid bufflen : %x"] w).
Proof.
  intros req w.
  apply (srpmb_rejects_bad_requests linux_abi good_kernel
           (demo_cdb (rq_cmd req) 0) req 15000 5 w).
  - right. reflexivity.
  - left. vm_compute. discriminate.
Defined.

(** X20.  Unlike the ioctl path, the secure RPMB path checks its buffer: when
    the allocation fails the call returns -ENOMEM, no command is issued
    and the request is returned as it was. *)
Theorem srpmb_allocation_failure :
  forall abi K cmd req timeout retries w,
    rq_cmd req = SCSI_IOCTL_SECURITY_PROTOCOL_IN abi
    \/ rq_cmd req = SCSI_IOCTL_SECURITY_PROTOCOL_OUT abi ->
    let L := srpmb_bufflen abi req in
    0 < L <= MAX_BUFFLEN ->
    k_alloc_ok K (w_trace w) L = false ->
    srpmb_ioctl_secu_prot_command abi K cmd req timeout retries w
    = Ret (- ENOMEM abi, req)
        (logged [EvPrintk "%s kzalloc faild"; EvKzalloc L false] w).
Proof.
  intros abi K cmd req timeout retries w Hc L HL Hz.
  pose proof (in_out_codes_differ abi) as Hio.
  subst L. unfold srpmb_ioctl_secu_prot_command, srpmb_bufflen in *. run.
  destruct Hc as [Hc | Hc]; rewrite Hc in *; rewrite ?Hio, Z.eqb_refl in *;
    rewrite (bufflen_check_valid _ HL), Hz; reflexivity.
Qed.

Lemma srpmb_allocation_failure_witness :
  let req := demo_rpmb_req (SCSI_IOCTL_SECURITY_PROTOCOL_IN linux_abi) 4 0 in
  let w := demo_world (demo_sdev false false) (fun _ => None) in
  srpmb_ioctl_secu_prot_command linux_abi lowmem_kernel
    (demo_cdb (rq_cmd req) 4) req 15000 5 w
  = Ret (- ENOMEM linux_abi, req)
      (logged [EvPrintk "%s kzalloc faild"; EvKzalloc 4 false] w).
Proof.
  intros req w.
  apply (srpmb_allocation_failure linux_abi lowmem_kernel
           (demo_cdb (rq_cmd req) 4) req 15000 5 w).
  - left. reflexivity.
  - vm_compute. split; [reflexivity | discriminate].
  - reflexivity.
Defined.

(** X21.  A secure RPMB transfer of valid length whose buffer is allocated
    and whose data array holds at least that many bytes.  In the out
    direction the first [L] bytes of the array go to the device and the
    request is returned as it was.  In the in direction the device's
    data replaces the first [L] bytes of the array and the rest of the
    array is untouched.  Either way the device's result is returned,
    the buffer is released and user memory is not involved. *)
Theorem srpmb_transfer :
  forall abi K cmd req timeout retries w,
    rq_cmd req = SCSI_IOCTL_SECURITY_PROTOCOL_IN abi
    \/ rq_cmd req = SCSI_IOCTL_SECURITY_PROTOCOL_OUT abi ->
    let L := srpmb_bufflen abi req in
    let dir := srpmb_direction abi req in
    0 < L <= MAX_BUFFLEN ->
    k_alloc_ok K (w_trace w) L = true ->
    (Z.to_nat L <= List.length (rpmb_data req))%nat ->
    let buf := match dir with
               | DMA_TO_DEVICE => firstn (Z.to_nat L) (rpmb_data req)
               | _ => repeat 0 (Z.to_nat L)
               end in
    let xreq := {| x_cmd := cmd; x_dir := dir; x_buf := Some buf;
                   x_bufflen := L; x_timeout := timeout;
                   x_retries := retries |} in
    let rep := k_scsi_execute_req K (logged [EvKzalloc L true] w) xreq in
    let data' := match dir with
                 | DMA_TO_DEVICE => rpmb_data req
                 | _ => dma_fill (r_data rep) buf
                        ++ skipn (Z.to_nat L) (rpmb_data req)
                 end in
    srpmb_ioctl_secu_prot_command abi K cmd req timeout retries w
    = Ret (r_result rep,
           {| rq_cmd := rq_cmd req; rq_inlen := rq_inlen req;
              rq_outlen := rq_outlen req; rpmb_data := data' |})
        (logged ([EvKfree (Some L)] ++ sense_log abi K rep
                 ++ [EvExecuteReq xreq rep; EvKzalloc L true]) w)
    /\ List.length data' = List.length (rpmb_data req)
    /\ Z.of_nat (List.length buf) = L.
Proof.
  intros abi K cmd req timeout retries w Hc L dir HL Hz Hdata
         buf xreq rep data'.
  pose proof (in_out_codes_differ abi) as Hio.
  assert (Z.of_nat (List.length buf) = L) as Hbuf.
  { subst buf. destruct dir; rewrite ?repeat_length, ?length_firstn; lia. }
  assert (List.length data' = List.length (rpmb_data req)) as Hlen.
  { subst data'. destruct dir; try reflexivity.
    all: rewrite length_app, dma_fill_length, length_skipn; lia. }
  split; [| split; assumption].
  apply Nat.leb_le in Hdata.
  subst data' rep xreq buf dir L.
  unfold srpmb_ioctl_secu_prot_command, srpmb_bufflen, srpmb_direction,
    memcpy_from_rpmb_data, memcpy_to_rpmb_data, sense_log in *.
  run.
  destruct req as [c il ol d]. cbn [rq_cmd rq_inlen rq_outlen rpmb_data] in *.
  destruct Hc as [Hc | Hc]; subst c; rewrite ?Hio, Z.eqb_refl in *;
    rewrite (bufflen_check_valid _ HL), Hz; cbn [virt_addr_valid negb];
    rewrite ?Hdata; cbn [option_map w_trace w_sdev w_umem].
  - rewrite ?Hdata.
    rewrite dma_fill_length, repeat_length, Z2Nat.id by lia.
    rewrite (firstn_all2 (n := Z.to_nat (u32 il)))
      by (rewrite dma_fill_length, repeat_length; lia).
    unfold scsi_sense_valid.
    destruct (sense_present abi _ && k_scsi_sense_valid K _); reflexivity.
  - rewrite length_firstn, Nat.min_l, Z2Nat.id
      by (try apply Nat.leb_le; try assumption; lia).
    unfold scsi_sense_valid.
    destruct (sense_present abi _ && k_scsi_sense_valid K _); reflexivity.
Qed.

Lemma srpmb_transfer_witness :
  let req := demo_rpmb_req (SCSI_IOCTL_SECURITY_PROTOCOL_IN linux_abi) 4 0 in
  let w := demo_world (demo_sdev false false) (fun _ => None) in
  let xreq := {| x_cmd := demo_cdb (rq_cmd req) 4; x_dir := DMA_FROM_DEVICE;
                 x_buf := Some [0; 0; 0; 0]; x_bufflen := 4;
                 x_timeout := 15000; x_retries := 5 |} in
  let rep := k_scsi_execute_req not_ready_kernel
               (logged [EvKzalloc 4 true] w) xreq in
  srpmb_ioctl_secu_prot_command linux_abi not_ready_kernel
    (demo_cdb (rq_cmd req) 4) req 15000 5 w
  = Ret (0x08000002,
         {| rq_cmd := rq_cmd req; rq_inlen := 4; rq_outlen := 0;
            rpmb_data := [0xde; 0xad; 0; 0; 5; 6; 7; 8] |})
      (logged [EvKfree (Some 4); EvPrintk "scsi_print_sense_hdr";
               EvPrintk "ioctl_secu_prot_command return code = %x";
               EvExecuteReq xreq rep; EvKzalloc 4 true] w).
Proof.
  intros req w xreq rep.
  apply (srpmb_transfer linux_abi not_ready_kernel
           (demo_cdb (rq_cmd req) 4) req 15000 5 w).
  - left. reflexivity.
  - vm_compute. split; [reflexivity | discriminate].
  - reflexivity.
  - vm_compute. repeat constructor.
Defined.

(** X22.  The entry of the secure RPMB path.  A NULL device is answered with
    -ENXIO.  A device that the block-while-processing-errors check
    reports unusable is answered with -ENODEV before anything else is
    done.  Otherwise the host's UAC-clearing callback runs when the host
    asks for it, and the request goes to the transfer function with the
    same descriptor as through the ioctl, built from the request's
    command and its length in that direction. *)
Theorem srpmb_entry :
  forall abi K req w,
    let blocked := k_scsi_block_when_processing_errors K w in
    let w1 := snd blocked in
    srpmb_scsi_ioctl abi K false req w
    = Ret (- ENXIO abi, req) (logged [EvPrintk "sdev empty"] w)
    /\
    (fst blocked = false ->
     srpmb_scsi_ioctl abi K true req w = Ret (- ENODEV abi, req) w1)
    /\
    (forall handler,
        fst blocked = true ->
        (wlun_clr_uac (host (w_sdev w1)) = true ->
         ioctl (hostt K) = Some handler) ->
        let w2 := if wlun_clr_uac (host (w_sdev w1))
                  then snd (handler (SCSI_UFS_REQUEST_SENSE abi) 0 w1)
                  else w1 in
        let t_len := if rq_cmd req =? SCSI_IOCTL_SECURITY_PROTOCOL_IN abi
                     then rq_inlen req else rq_outlen req in
        srpmb_scsi_ioctl abi K true req w
        = srpmb_ioctl_secu_prot_command abi K
            (secu_prot_cdb abi (rq_cmd req) t_len) req
            (START_STOP_TIMEOUT abi) NORMAL_RETRIES w2).
Proof.
  intros abi K req w blocked w1.
  split; [reflexivity |]. split.
  - intros Hb. subst w1. unfold srpmb_scsi_ioctl. cbn [negb]. run.
    fold blocked.
    destruct blocked as [b w']. cbn [fst snd] in *. subst b. reflexivity.
  - intros handler Hb Hh w2 t_len. subst w2 w1.
    unfold srpmb_scsi_ioctl. cbn [negb]. run. fold blocked.
    destruct blocked as [b w']. cbn [fst snd] in *. subst b.
    cbn [negb].
    destruct (wlun_clr_uac (host (w_sdev w'))).
    + rewrite (Hh eq_refl).
      destruct (handler (SCSI_UFS_REQUEST_SENSE abi) 0 w'). reflexivity.
    + reflexivity.
Qed.

Lemma srpmb_entry_witness :
  let req := demo_rpmb_req (SCSI_IOCTL_SECURITY_PROTOCOL_IN linux_abi) 4 0 in
  let w := demo_world (demo_sdev false false) (fun _ => None) in
  srpmb_scsi_ioctl linux_abi offline_kernel true req w
  = Ret (- ENODEV linux_abi, req) w.
Proof.
  intros req w.
  apply (srpmb_entry linux_abi offline_kernel req w).
  reflexivity.
Defined.

(** X23.  What the secure RPMB transfer leaves alone, on every path: the
    device and user memory; the command and the two lengths of the
    request, and the size of its data array; the whole request unless
    the command is the in command.  A call that returns has released
    the buffer it allocated, and gives -EFAULT, -ENOMEM or the result of
    the one command it issued. *)
Theorem srpmb_footprint :
  forall abi K cmd req timeout retries w,
    let run := srpmb_ioctl_secu_prot_command abi K cmd req timeout retries w in
    w_sdev (final_world run) = w_sdev w
    /\ w_umem (final_world run) = w_umem w
    /\ (forall res req',
          returned run = Some (res, req') ->
          rq_cmd req' = rq_cmd req
          /\ rq_inlen req' = rq_inlen req
          /\ rq_outlen req' = rq_outlen req
          /\ List.length (rpmb_data req') = List.length (rpmb_data req)
          /\ (rq_cmd req <> SCSI_IOCTL_SECURITY_PROTOCOL_IN abi -> req' = req)
          /\ exists new,
               w_trace (final_world run) = new ++ w_trace w
               /\ allocated new = freed new
               /\ (res = - EFAULT abi \/ res = - ENOMEM abi
                   \/ exists xreq rep,
                        In (EvExecuteReq xreq rep) new
                        /\ res = r_result rep)).
Proof.
  intros abi K cmd req timeout retries w run. subst run.
  unfold srpmb_ioctl_secu_prot_command, memcpy_from_rpmb_data,
    memcpy_to_rpmb_data.
  run.
  destruct req as [c il ol d]. cbn [rq_cmd rq_inlen rq_outlen rpmb_data].
  repeat match goal with
         | |- context [k_alloc_ok K ?t ?n] =>
             let E := fresh "A" in
             destruct (k_alloc_ok K t n) eqn:E;
             cbn [virt_addr_valid negb option_map w_trace w_sdev w_umem
                  final_world returned]
         | |- context [if ?c then _ else _] =>
             let E := fresh "C" in
             destruct c eqn:E;
             cbn [virt_addr_valid negb option_map w_trace w_sdev w_umem
                  final_world returned]
         end.
  all: split; [reflexivity |]; split; [reflexivity |].
  all: intros res req' Hret; try discriminate Hret;
    injection Hret as <- <-; cbn [rq_cmd rq_inlen rq_outlen rpmb_data].
  all: split; [reflexivity |]; split; [reflexivity |];
    split; [reflexivity |].
  all: repeat match goal with
              | H : Nat.leb _ _ = true |- _ => apply Nat.leb_le in H
              end.
  all: split;
    [ try reflexivity;
      rewrite length_app, length_firstn, length_skipn, dma_fill_length,
        repeat_length; lia |].
  all: split;
    [ intros Hne; try reflexivity; exfalso; apply Hne;
      apply Z.eqb_eq; assumption |].
  all: eexists; split; [find_prefix |].
  all: split;
    [ cbn [allocated freed]; reflexivity |].
  all: try (left; reflexivity).
  all: try (right; left; reflexivity).
  all: right; right; eexists; eexists; split; [| reflexivity];
    cbn [In]; tauto.
Qed.

(** ** The security-protocol command from end to end *)

Lemma secu_prot_cdb_length_field abi cmd t :
  (12 <= MAX_COMMAND_SIZE abi)%nat ->
  be_decode (firstn 4 (skipn 6 (secu_prot_cdb abi cmd t))) = u32 t.
Proof.
  intros Hn.
  assert (firstn 4 (skipn 6 (secu_prot_cdb abi cmd t))
          = firstn 4 (skipn 6 (firstn 12 (secu_prot_cdb abi cmd t)))) as ->.
  { rewrite !firstn_skipn_comm, firstn_firstn. reflexivity. }
  unfold secu_prot_cdb. cbv zeta.
  rewrite store_repeat_12 by assumption.
  cbn [firstn skipn].
  rewrite !land_255. unfold u8. rewrite !Z.shiftr_div_pow2 by lia.
  rewrite !Z.mod_mod by lia.
  apply be32_of_bytes.
Qed.

(** X24.  The length in the descriptor and the length of the buffer are
    taken from the caller's header at two different moments: the
    descriptor is built from the length the dispatcher read in place,
    while [ioctl_secu_prot_command] copies the header again and sizes
    the buffer from its own copy, and nothing compares the two.  For a
    descriptor built for any length [t], every request handed to the
    execution primitive carries [t] (mod 2^32) in bytes 6-9 of its
    descriptor, most significant byte first, and a buffer whose length
    is the one the copied header declares, in (0, MAX_BUFFLEN]; the two
    agree exactly when the header declares [t] at the time of the
    copy. *)
Theorem secu_prot_length_read_twice :
  forall abi K cmd arg timeout retries t w,
    (12 <= MAX_COMMAND_SIZE abi)%nat ->
    cmd = SCSI_IOCTL_SECURITY_PROTOCOL_IN abi
    \/ cmd = SCSI_IOCTL_SECURITY_PROTOCOL_OUT abi ->
    exists new,
      w_trace (final_world
                 (ioctl_secu_prot_command abi K (secu_prot_cdb abi cmd t)
                    cmd arg timeout retries w))
      = new ++ w_trace w
      /\ (forall req rep,
             In (EvExecuteReq req rep) new ->
             exists bytes,
               user_read K (w_umem w) arg sizeof_Scsi_Ioctl_Command
               = Some bytes
               /\ let declared :=
                    if cmd =? SCSI_IOCTL_SECURITY_PROTOCOL_IN abi
                    then inlen (decode_Scsi_Ioctl_Command bytes)
                    else outlen (decode_Scsi_Ioctl_Command bytes) in
                  x_bufflen req = declared
                  /\ 0 < declared <= MAX_BUFFLEN
                  /\ be_decode (firstn 4 (skipn 6 (x_cmd req))) = u32 t
                  /\ (be_decode (firstn 4 (skipn 6 (x_cmd req)))
                      = x_bufflen req <-> declared = u32 t)).
Proof.
  intros abi K cmd arg timeout retries t w Hn Hcmd.
  pose proof (in_out_codes_differ abi) as Hio.
  pose proof (secu_prot_cdb_length_field abi cmd t Hn) as Hfield.
  set (cdb := secu_prot_cdb abi cmd t) in *. clearbody cdb.
  clear Hcmd.
  secu_prot_paths abi K cdb cmd arg timeout retries w.
  all: rewrite ?Z.eqb_refl, ?Hio.
  all: expose_trace.
  all: eexists; split; [find_prefix |].
  all: try match goal with
           | H : 0 < inlen ?d |- _ =>
               set (L := inlen d) in *;
               assert (inlen d = L) as HL by reflexivity; clearbody L
           | H : 0 < outlen ?d |- _ =>
               set (L := outlen d) in *;
               assert (outlen d = L) as HL by reflexivity; clearbody L
           end.
  all: intros req rep Hin'; cbn [In] in Hin';
    repeat (destruct Hin' as [Hin' | Hin']; try discriminate Hin');
    try contradiction; injection Hin' as <- _;
    cbn [x_cmd x_bufflen];
    match goal with
    | H : user_read _ _ _ _ = Some ?b |- _ =>
        exists b; split; [reflexivity |]
    end;
    cbv zeta; rewrite HL, Hfield;
    (split; [reflexivity |]); (split; [lia |]); (split; [reflexivity |]);
    split; intros E; symmetry; exact E.
Qed.

Lemma secu_prot_length_read_twice_witness :
  let cmd := SCSI_IOCTL_SECURITY_PROTOCOL_IN linux_abi in
  let w := demo_request 4 0 in
  let cdb := secu_prot_cdb linux_abi cmd 8 in
  let run := ioctl_secu_prot_command linux_abi not_ready_kernel cdb cmd
               4096 15000 5 w in
  (exists rep later,
      w_trace (final_world run)
      = later
        ++ EvExecuteReq {| x_cmd := cdb; x_dir := DMA_FROM_DEVICE;
                           x_buf := Some [0; 0; 0; 0]; x_bufflen := 4;
                           x_timeout := 15000; x_retries := 5 |} rep
        :: EvKzalloc 4 true :: header_events 4096 ++ w_trace w)
  /\ be_decode (firstn 4 (skipn 6 cdb)) = 8
  /\ exists new,
      w_trace (final_world run) = new ++ w_trace w
      /\ (forall req rep,
             In (EvExecuteReq req rep) new ->
             exists bytes,
               user_read not_ready_kernel (w_umem w) 4096
                 sizeof_Scsi_Ioctl_Command = Some bytes
               /\ let declared :=
                    if cmd =? SCSI_IOCTL_SECURITY_PROTOCOL_IN linux_abi
                    then inlen (decode_Scsi_Ioctl_Command bytes)
                    else outlen (decode_Scsi_Ioctl_Command bytes) in
                  x_bufflen req = declared
                  /\ 0 < declared <= MAX_BUFFLEN
                  /\ be_decode (firstn 4 (skipn 6 (x_cmd req))) = u32 8
                  /\ (be_decode (firstn 4 (skipn 6 (x_cmd req)))
                      = x_bufflen req <-> declared = u32 8)).
Proof.
  intros cmd w cdb run. split; [| split; [reflexivity |]].
  - eexists.
    exists [EvKfree (Some 8); EvKfree (Some 4);
            EvPrintk "scsi_print_sense_hdr";
            EvPrintk "ioctl_secu_prot_command return code = %x";
            EvCopyToUser 4104 [0xde; 0xad; 0; 0] true].
    reflexivity.
  - apply (secu_prot_length_read_twice linux_abi not_ready_kernel cmd 4096
             15000 5 8 w).
    + simpl. lia.
    + left. reflexivity.
Defined.

Lemma internal_command_footprint_witness :
  let K := sense_kernel (UNIT_ATTENTION linux_abi) in
  let w := demo_world (demo_sdev true true) (fun _ => None) in
  let req := internal_req start_unit_cdb 15000 5 in
  let rep := k_scsi_execute_req K w req in
  exists res w' logs,
    ioctl_internal_command linux_abi K start_unit_cdb 15000 5 w = Ret res w'
    /\ w_trace w' = logs ++ EvExecuteReq req rep :: w_trace w
    /\ (forall e, In e logs -> exists fmt, e = EvPrintk fmt)
    /\ w_umem w' = w_umem w
    /\ (id (w_sdev w'), lun (w_sdev w'), channel (w_sdev w'),
        host (w_sdev w'), removable (w_sdev w'), locked (w_sdev w'))
       = (id (w_sdev w), lun (w_sdev w), channel (w_sdev w),
          host (w_sdev w), removable (w_sdev w), locked (w_sdev w))
    /\ ((res = r_result rep /\ changed (w_sdev w') = changed (w_sdev w))
        \/ (res = 0 /\ changed (w_sdev w') = true
            /\ removable (w_sdev w) = true))
    /\ (lockable (w_sdev w') = lockable (w_sdev w)
        \/ (lockable (w_sdev w') = false
            /\ nth 0 start_unit_cdb 0 = ALLOW_MEDIUM_REMOVAL linux_abi)).
Proof.
  intros K w req rep.
  exact (internal_command_footprint linux_abi K start_unit_cdb 15000 5 w).
Defined.

Lemma secu_prot_releases_what_it_allocates_witness :
  let cmd := SCSI_IOCTL_SECURITY_PROTOCOL_OUT linux_abi in
  let w := demo_request 0 4 in
  match ioctl_secu_prot_command linux_abi good_kernel (demo_cdb cmd 4) cmd
          4096 15000 5 w with
  | Ret res w' =>
      exists new,
        w_trace w' = new ++ w_trace w
        /\ allocated new = freed new
        /\ ~ In (EvKfree None) new
  | Oops w' =>
      exists new n,
        w_trace w' = new ++ w_trace w
        /\ In (EvKzalloc n false) new
  end.
Proof.
  intros cmd w.
  exact (secu_prot_releases_what_it_allocates linux_abi good_kernel
           (demo_cdb cmd 4) cmd 4096 15000 5 w).
Defined.

Lemma secu_prot_sizes_are_bounded_witness :
  let cmd := SCSI_IOCTL_SECURITY_PROTOCOL_OUT linux_abi in
  let w := demo_request 0 4 in
  let w' := final_world
              (ioctl_secu_prot_command linux_abi good_kernel (demo_cdb cmd 4)
                 cmd 4096 15000 5 w) in
  exists new,
    w_trace w' = new ++ w_trace w
    /\ (forall n ok, In (EvKzalloc n ok) new -> 0 < n <= MAX_BUFFLEN)
    /\ (forall req rep,
           In (EvExecuteReq req rep) new ->
           x_cmd req = demo_cdb cmd 4 /\ x_timeout req = 15000
           /\ x_retries req = 5
           /\ 0 < x_bufflen req <= MAX_BUFFLEN
           /\ (forall b, x_buf req = Some b ->
                         Z.of_nat (List.length b) = x_bufflen req)).
Proof.
  intros cmd w.
  exact (secu_prot_sizes_are_bounded linux_abi good_kernel (demo_cdb cmd 4)
           cmd 4096 15000 5 w).
Defined.

Lemma secu_prot_footprint_witness :
  let cmd := SCSI_IOCTL_SECURITY_PROTOCOL_IN linux_abi in
  let w := demo_request 4 0 in
  let run := ioctl_secu_prot_command linux_abi not_ready_kernel
               (demo_cdb cmd 4) cmd 4096 15000 5 w in
  let out := 4096 + sizeof_Scsi_Ioctl_Command in
  w_sdev (final_world run) = w_sdev w
  /\ (forall x, x < out \/ out + MAX_BUFFLEN <= x ->
                w_umem (final_world run) x = w_umem w x)
  /\ (cmd <> SCSI_IOCTL_SECURITY_PROTOCOL_IN linux_abi ->
      w_umem (final_world run) = w_umem w)
  /\ (forall res, returned run = Some res ->
        res = - EFAULT linux_abi
        \/ exists new req rep,
             w_trace (final_world run) = new ++ w_trace w
             /\ In (EvExecuteReq req rep) new
             /\ res = r_result rep).
Proof.
  intros cmd w.
  exact (secu_prot_footprint linux_abi not_ready_kernel (demo_cdb cmd 4) cmd
           4096 15000 5 w).
Defined.

Lemma srpmb_footprint_witness :
  let req := demo_rpmb_req (SCSI_IOCTL_SECURITY_PROTOCOL_IN linux_abi) 4 0 in
  let w := demo_world (demo_sdev false false) (fun _ => None) in
  let run := srpmb_ioctl_secu_prot_command linux_abi not_ready_kernel
               (demo_cdb (rq_cmd req) 4) req 15000 5 w in
  w_sdev (final_world run) = w_sdev w
  /\ w_umem (final_world run) = w_umem w
  /\ (forall res req',
        returned run = Some (res, req') ->
        rq_cmd req' = rq_cmd req
        /\ rq_inlen req' = rq_inlen req
        /\ rq_outlen req' = rq_outlen req
        /\ List.length (rpmb_data req') = List.length (rpmb_data req)
        /\ (rq_cmd req <> SCSI_IOCTL_SECURITY_PROTOCOL_IN linux_abi ->
            req' = req)
        /\ exists new,
             w_trace (final_world run) = new ++ w_trace w
             /\ allocated new = freed new
             /\ (res = - EFAULT linux_abi \/ res = - ENOMEM linux_abi
                 \/ exists xreq rep,
                      In (EvExecuteReq xreq rep) new
                      /\ res = r_result rep)).
Proof.
  intros req w.
  exact (srpmb_footprint linux_abi not_ready_kernel (demo_cdb (rq_cmd req) 4)
           req 15000 5 w).
Defined.
